(** * TeamPulse: the Google Sheets -> database cache synchronisation

    A shallow embedding of
    [backend/app/services/google_sheets_sync_service.py]
    (class [GoogleSheetsSyncService]) and proofs about one sync cycle:
    freshness check, fetch with bounded retry, identifier resolution,
    shift normalisation, the per-user replacement of cached schedule rows
    and the sync log.

    Conventions of the embedding.
    - A Python [str] is the list of its code points ([pystr]).  Literals of
      the source are written as Rocq strings and decoded from UTF-8 by [u].
    - [str.upper] / [str.lower] are modelled on the ASCII letters; other
      code points are left unchanged (exact for the CJK labels and the
      ASCII codes the service compares against).
    - Regular-expression [\d] is modelled as the ASCII digits.
    - A Python [dict] whose iteration order is observed is an association
      list in insertion order ([pydict]); a [dict] only read by key is a
      [gmap].
    - The database tables the service touches are explicit state; the
      operations on them are total (database faults are not modelled). *)

From Stdlib Require Import ZArith NArith QArith List String Ascii Bool Lia.
From Stdlib Require Import DecimalString Lqa.
From stdpp Require Import base option list gmap fin_maps.

Local Open Scope N_scope.

(** ** Python strings *)

Abbreviation pystr := (list N).

Definition bytes_of_string (s : string) : list N :=
  map (fun b => N.of_nat (Byte.to_nat b)) (list_byte_of_string s).

(** UTF-8 decoding of a source literal (1 to 4 byte sequences). *)
Fixpoint utf8_decode (bs : list N) : pystr :=
  match bs with
  | [] => []
  | b :: r =>
      if b <? 0x80 then b :: utf8_decode r
      else if b <? 0xE0 then
        match r with
        | c1 :: r1 => ((b - 0xC0) * 64 + (c1 - 0x80)) :: utf8_decode r1
        | _ => []
        end
      else if b <? 0xF0 then
        match r with
        | c1 :: c2 :: r2 =>
            ((b - 0xE0) * 4096 + (c1 - 0x80) * 64 + (c2 - 0x80)) :: utf8_decode r2
        | _ => []
        end
      else
        match r with
        | c1 :: c2 :: c3 :: r3 =>
            ((b - 0xF0) * 262144 + (c1 - 0x80) * 4096 + (c2 - 0x80) * 64 + (c3 - 0x80))
              :: utf8_decode r3
        | _ => []
        end
  end.

Definition u (s : string) : pystr := utf8_decode (bytes_of_string s).

(** [str.isspace] of one character: the code points Python treats as
    whitespace, which are the ones [str.strip()] removes. *)
Definition isspace (c : N) : bool :=
  ((0x09 <=? c) && (c <=? 0x0D)) || ((0x1C <=? c) && (c <=? 0x20))
  || (c =? 0x85) || (c =? 0xA0) || (c =? 0x1680)
  || ((0x2000 <=? c) && (c <=? 0x200A))
  || (c =? 0x2028) || (c =? 0x2029) || (c =? 0x202F) || (c =? 0x205F)
  || (c =? 0x3000).

Fixpoint lstrip (s : pystr) : pystr :=
  match s with
  | [] => []
  | c :: r => if isspace c then lstrip r else s
  end.

Definition rstrip (s : pystr) : pystr := rev (lstrip (rev s)).

(** [s.strip()] *)
Definition strip (s : pystr) : pystr := rstrip (lstrip s).

Definition upper_char (c : N) : N :=
  if (0x61 <=? c) && (c <=? 0x7A) then c - 32 else c.

Definition lower_char (c : N) : N :=
  if (0x41 <=? c) && (c <=? 0x5A) then c + 32 else c.

(** [s.upper()] and [s.lower()] *)
Definition upper (s : pystr) : pystr := map upper_char s.
Definition lower (s : pystr) : pystr := map lower_char s.

Definition str_eqb (a b : pystr) : bool := bool_decide (a = b).

Fixpoint startswith (p s : pystr) : bool :=
  match p, s with
  | [], _ => true
  | _ :: _, [] => false
  | a :: p', b :: s' => (a =? b) && startswith p' s'
  end.

(** [sub in s] for strings: [sub] occurs in [s] as a contiguous run. *)
Fixpoint contains (sub s : pystr) : bool :=
  startswith sub s ||
  match s with
  | [] => false
  | _ :: s' => contains sub s'
  end.

(** [x in l] for a list of strings. *)
Definition str_in (x : pystr) (l : list pystr) : bool := bool_decide (x ∈ l).

(** [s.split(sep)] for a one-character separator: always at least one
    part, [a/b] gives two, an empty string gives one empty part. *)
Fixpoint split (sep : N) (s : pystr) : list pystr :=
  match s with
  | [] => [[]]
  | c :: r =>
      if c =? sep then [] :: split sep r
      else match split sep r with
           | [] => [[c]]
           | p :: ps => (c :: p) :: ps
           end
  end.

(** [str(n)] for an integer. *)
Definition str_of_int (z : Z) : pystr :=
  bytes_of_string (NilZero.string_of_int (Z.to_int z)).

(** ** Python values found in a sheet row *)

Inductive PyVal :=
| VNone
| VStr (s : pystr)
| VInt (z : Z).

#[global] Instance PyVal_eq_dec : EqDecision PyVal.
Proof. solve_decision. Defined.

(** [str(v)] *)
Definition py_str (v : PyVal) : pystr :=
  match v with
  | VNone => u "None"
  | VStr s => s
  | VInt z => str_of_int z
  end.

(** truth value of [v] in a condition ([if not v]) *)
Definition truthy (v : PyVal) : bool :=
  match v with
  | VNone => false
  | VStr s => negb (str_eqb s [])
  | VInt z => negb (Z.eqb z 0)
  end.

(** ** Dates and [_parse_date] *)

(** A [datetime.date] as (year, month, day). *)
Abbreviation date := (Z * Z * Z)%type.

Definition is_leap (y : Z) : bool :=
  ((y mod 4 =? 0) && negb (y mod 100 =? 0) || (y mod 400 =? 0))%Z.

Definition days_in_month (y m : Z) : Z :=
  (if (m =? 2) then (if is_leap y then 29 else 28)
   else if (m =? 4) || (m =? 6) || (m =? 9) || (m =? 11) then 30
   else 31)%Z.

(** The range check of the [date] constructor ([ValueError] otherwise). *)
Definition valid_date (d : date) : bool :=
  let '(y, m, dd) := d in
  ((1 <=? y) && (y <=? 9999) && (1 <=? m) && (m <=? 12)
   && (1 <=? dd) && (dd <=? days_in_month y m))%Z.

Definition make_date (d : date) : option date :=
  if valid_date d then Some d else None.

Definition is_digit (c : N) : bool := (48 <=? c) && (c <=? 57).
Definition digit_val (c : N) : Z := Z.of_N (c - 48).
Definition in_range (lo hi c : N) : bool := (lo <=? c) && (c <=? hi).

(** The regular expressions [strptime] compiles its directives to.  Each
    function lists the ways the directive can match a prefix of [s], in the
    order the regex engine tries them: (value, remaining text). *)

(** [%Y]: [\d\d\d\d] *)
Definition re_Y (s : pystr) : list (Z * pystr) :=
  match s with
  | a :: b :: c :: d :: r =>
      if is_digit a && is_digit b && is_digit c && is_digit d
      then [((1000 * digit_val a + 100 * digit_val b + 10 * digit_val c + digit_val d)%Z, r)]
      else []
  | _ => []
  end.

(** [%m]: [1[0-2]|0[1-9]|[1-9]] *)
Definition re_m (s : pystr) : list (Z * pystr) :=
  match s with
  | a :: r =>
      (match r with
       | b :: r' =>
           (if (a =? 49) && in_range 48 50 b then [((10 + digit_val b)%Z, r')] else [])
           ++ (if (a =? 48) && in_range 49 57 b then [(digit_val b, r')] else [])
       | [] => []
       end)
      ++ (if in_range 49 57 a then [(digit_val a, r)] else [])
  | [] => []
  end.

(** [%d]: [3[0-1]|[1-2]\d|0[1-9]|[1-9]| [1-9]] *)
Definition re_d (s : pystr) : list (Z * pystr) :=
  match s with
  | a :: r =>
      (match r with
       | b :: r' =>
           (if (a =? 51) && in_range 48 49 b then [((30 + digit_val b)%Z, r')] else [])
           ++ (if in_range 49 50 a && is_digit b
               then [((10 * digit_val a + digit_val b)%Z, r')] else [])
           ++ (if (a =? 48) && in_range 49 57 b then [(digit_val b, r')] else [])
       | [] => []
       end)
      ++ (if in_range 49 57 a then [(digit_val a, r)] else [])
      ++ (match r with
          | b :: r' => if (a =? 32) && in_range 49 57 b then [(digit_val b, r')] else []
          | [] => []
          end)
  | [] => []
  end.

(** First alternative for which the rest of the pattern matches. *)
Fixpoint first_some {A B : Type} (k : A -> option B) (l : list A) : option B :=
  match l with
  | [] => None
  | x :: l' => match k x with
               | Some y => Some y
               | None => first_some k l'
               end
  end.

(** The regex match of [strptime]: the format is followed from the start of
    the text; the result is the fields read and the text left over. *)
Fixpoint strptime_re (fmt : pystr) (s : pystr) (f : date) : option (date * pystr) :=
  match fmt with
  | [] => Some (f, s)
  | c :: fmt1 =>
      if c =? 37 then
        match fmt1 with
        | dch :: fmt' =>
            let '(y, m, d) := f in
            if dch =? 89 then first_some (fun '(v, r) => strptime_re fmt' r (v, m, d)) (re_Y s)
            else if dch =? 109 then first_some (fun '(v, r) => strptime_re fmt' r (y, v, d)) (re_m s)
            else if dch =? 100 then first_some (fun '(v, r) => strptime_re fmt' r (y, m, v)) (re_d s)
            else None
        | [] => None
        end
      else
        match s with
        | c' :: r => if c =? c' then strptime_re fmt1 r f else None
        | [] => None
        end
  end.

(** [datetime.strptime(s, fmt).date()], [None] standing for [ValueError]:
    no match, unconverted data left, or a day that does not exist. *)
Definition strptime (s fmt : pystr) : option date :=
  match strptime_re fmt s (1900, 1, 1)%Z with
  | Some (f, []) => make_date f
  | _ => None
  end.

(** [\d{1,2}], greedy. *)
Definition re_d12 (s : pystr) : list (Z * pystr) :=
  match s with
  | a :: r =>
      (match r with
       | b :: r' => if is_digit a && is_digit b
                    then [((10 * digit_val a + digit_val b)%Z, r')] else []
       | [] => []
       end)
      ++ (if is_digit a then [(digit_val a, r)] else [])
  | [] => []
  end.

(** [[\/\-]] *)
Definition re_sep (s : pystr) : list pystr :=
  match s with
  | c :: r => if (c =? 47) || (c =? 45) then [r] else []
  | [] => []
  end.

(** [(\d{4})[\/\-](\d{1,2})[\/\-](\d{1,2})] matched at the start of [s]. *)
Definition re_date_at (s : pystr) : option date :=
  first_some (fun '(y, r1) =>
    first_some (fun r2 =>
      first_some (fun '(m, r3) =>
        first_some (fun r4 =>
          first_some (fun '(d, _) => Some (y, m, d)) (re_d12 r4))
          (re_sep r3))
        (re_d12 r2))
      (re_sep r1))
    (re_Y s).

(** [re.search]: the leftmost position where the pattern matches. *)
Fixpoint re_date_search (s : pystr) : option date :=
  match re_date_at s with
  | Some d => Some d
  | None => match s with
            | [] => None
            | _ :: s' => re_date_search s'
            end
  end.

(** [s.replace('/', '-')] *)
Definition replace_slash (s : pystr) : pystr :=
  map (fun c => if c =? 47 then 45 else c) s.

(** The four formats tried in order. *)
Definition formats : list pystr :=
  [u "%Y-%m-%d"; u "%Y/%m/%d"; u "%m/%d/%Y"; u "%Y年%m月%d日"].

(** ** Shift labels *)

(** [_normalize_shift_type] *)
Definition _normalize_shift_type (shift_value : PyVal) : pystr :=
  if negb (truthy shift_value) then u "OFF"
  else
    let shift_upper := strip (upper (py_str shift_value)) in
    if str_in shift_upper [u "OFF"; u "休"; u "休假"; u "NULL"; []] || str_eqb shift_upper []
    then u "OFF"
    else if existsb (fun keyword => contains keyword shift_upper)
              [u "櫃台"; u "二線"; u "藥局"; u "人力"; u "COUNTER"; u "DESK"; u "PHARMACY"]
    then u "D"
    else if str_in shift_upper [u "E"; u "EVENING"; u "小夜"] then u "E"
    else if str_in shift_upper [u "N"; u "NIGHT"; u "大夜"] then u "N"
    else if str_in shift_upper [u "D"; u "DAY"; u "白班"] then u "D"
    else if (length shift_upper =? 1)%nat && str_in shift_upper [u "D"; u "E"; u "N"]
    then shift_upper
    else u "D".

(** [_get_time_range]: [time_ranges.get(shift_type, '--')] *)
Definition _get_time_range (shift_type : pystr) : pystr :=
  if str_eqb shift_type (u "D") then u "08:00 - 16:00"
  else if str_eqb shift_type (u "E") then u "16:00 - 00:00"
  else if str_eqb shift_type (u "N") then u "00:00 - 08:00"
  else if str_eqb shift_type (u "OFF") then u "--"
  else u "--".

(** ** Insertion-ordered dictionaries *)

Abbreviation pydict V := (list (pystr * V)).

(** [k in d] / [d[k]] *)
Definition pydict_get {V} (d : pydict V) (k : pystr) : option V :=
  snd <$> List.find (fun kv => str_eqb (fst kv) k) d.

(** [d[k] = v]: an existing key keeps its place, a new key goes last. *)
Definition pydict_set {V} (d : pydict V) (k : pystr) (v : V) : pydict V :=
  match pydict_get d k with
  | Some _ => map (fun kv => if str_eqb (fst kv) k then (k, v) else kv) d
  | None => d ++ [(k, v)]
  end.

(** ** Tables and the remote snapshot *)

(** A row of [ScheduleDefinition], keyed by [scheduleDefID] in the world;
    of the model class, which is not among the sources, the service reads
    [tenantID] only. *)
Record ScheduleDefinition := { tenantID : pystr }.

(** A row of [EmployeeMapping], with the columns the service reads. *)
Record EmployeeMapping := {
  em_schedule_def_id : pystr;
  em_is_active : bool;
  sheets_identifier : pystr;
  sheets_name_id : option pystr;
  userID : pystr }.

(** A row of [CachedSchedule]; its key (user_id, schedule_def_id, date) is
    the key of the table. *)
Record CachedSchedule := { shift_type : pystr; time_range : pystr }.

#[global] Instance CachedSchedule_eq_dec : EqDecision CachedSchedule.
Proof. solve_decision. Defined.

Abbreviation cache_key := (pystr * pystr * date)%type.
Abbreviation cache_table := (gmap cache_key CachedSchedule).

Inductive SyncStatus := pending | success | failed.

(** Modelled from the spec: a row of [SyncLog], the ticket of one sync
    attempt, with the fields the spec lists for it; the model class is not
    among the sources. *)
Record SyncLog := {
  log_id : nat;
  log_schedule_def_id : pystr;
  log_tenant_id : pystr;
  log_sync_type : pystr;
  log_triggered_by : option pystr;
  log_started_at : Q;
  log_completed_at : option Q;
  log_status : SyncStatus;
  log_rows_synced : nat;
  log_users_synced : nat;
  log_duration : option Q;
  log_error_message : option pystr }.

(** One element of [final_output['data']]. *)
Inductive Row :=
| RowDict (cells : gmap pystr PyVal)
| RowOther.

(** [sheets_data['sheets']['final_output']] *)
Record FinalOutput := {
  fo_success : bool;
  fo_data : list Row;
  fo_columns : list pystr }.

(** The dictionary [fetch_schedule_data] returns; a key that is absent is
    [None] here. *)
Record SheetsData := {
  sd_success : bool;
  sd_error : option pystr;
  sd_final_output : option FinalOutput }.

(** What one call of the remote fetcher does. *)
Inductive FetchOutcome :=
| Returned (sheets_data : SheetsData)
| Raised (error_msg : pystr).

(** Everything the service reads and writes: the three tables, the clock
    (seconds), the number of calls made to the fetcher so far and the
    delays passed to [time.sleep]. *)
Record World := {
  schedule_definitions : gmap pystr ScheduleDefinition;
  employee_mappings : list EmployeeMapping;
  cached_schedules : cache_table;
  sync_logs : list SyncLog;
  clock : Q;
  fetch_calls : nat;
  sleeps : list Q }.

Definition set_cached_schedules (w : World) (c : cache_table) : World :=
  {| schedule_definitions := schedule_definitions w;
     employee_mappings := employee_mappings w;
     cached_schedules := c;
     sync_logs := sync_logs w;
     clock := clock w;
     fetch_calls := fetch_calls w;
     sleeps := sleeps w |}.

Definition set_sync_logs (w : World) (l : list SyncLog) : World :=
  {| schedule_definitions := schedule_definitions w;
     employee_mappings := employee_mappings w;
     cached_schedules := cached_schedules w;
     sync_logs := l;
     clock := clock w;
     fetch_calls := fetch_calls w;
     sleeps := sleeps w |}.

(** One more call to the fetcher has been made. *)
Definition count_fetch (w : World) : World :=
  {| schedule_definitions := schedule_definitions w;
     employee_mappings := employee_mappings w;
     cached_schedules := cached_schedules w;
     sync_logs := sync_logs w;
     clock := clock w;
     fetch_calls := S (fetch_calls w);
     sleeps := sleeps w |}.

(** [time.sleep(delay)] *)
Definition sleep (delay : Q) (w : World) : World :=
  {| schedule_definitions := schedule_definitions w;
     employee_mappings := employee_mappings w;
     cached_schedules := cached_schedules w;
     sync_logs := sync_logs w;
     clock := (clock w + delay)%Q;
     fetch_calls := fetch_calls w;
     sleeps := sleeps w ++ [delay] |}.

(** The dictionary [sync_schedule_data] returns; an absent key is [None]
    ([false] for ['skipped']).  The free-text ['message'] of the skipped
    case is not kept. *)
Record SyncResult := {
  res_success : bool;
  res_skipped : bool;
  res_error : option pystr;
  res_rows_synced : option nat;
  res_users_synced : option nat;
  res_last_synced_at : option Q;
  res_sync_log_id : option nat }.

(** ** The models the service calls *)

(** Modelled from the spec: [CachedSchedule.clear_user_schedule], whose
    model class is not part of the sources; it deletes every cached entry
    of (user, target). *)
Definition clear_user_schedule (user_id schedule_def_id : pystr)
    (c : cache_table) : cache_table :=
  filter (fun kv => ¬ (kv.1.1.1 = user_id ∧ kv.1.1.2 = schedule_def_id)) c.

(** Modelled from the spec: [db.session.merge] of a [CachedSchedule] row,
    the table having at most one entry per (user, target, date).  The
    [db.session.commit()] that ends the store step has no counterpart: the
    table is read and written in place. *)
Definition session_merge (user_id schedule_def_id : pystr) (d : date)
    (e : CachedSchedule) (c : cache_table) : cache_table :=
  <[(user_id, schedule_def_id, d) := e]> c.

(** Modelled from the spec: [SyncLog.create_sync_log] ([record_start]): a
    new ticket, pending, started now. *)
Definition create_sync_log (schedule_def_id tenant_id sync_type : pystr)
    (triggered_by : option pystr) (w : World) : World * nat :=
  let id := length (sync_logs w) in
  (set_sync_logs w (sync_logs w ++
     [{| log_id := id;
         log_schedule_def_id := schedule_def_id;
         log_tenant_id := tenant_id;
         log_sync_type := sync_type;
         log_triggered_by := triggered_by;
         log_started_at := clock w;
         log_completed_at := None;
         log_status := pending;
         log_rows_synced := 0;
         log_users_synced := 0;
         log_duration := None;
         log_error_message := None |}]), id).

(** The ticket once closed at time [now]. *)
Definition complete_log (now : Q) (rows users : nat) (error_message : option pystr)
    (l : SyncLog) : SyncLog :=
  {| log_id := log_id l;
     log_schedule_def_id := log_schedule_def_id l;
     log_tenant_id := log_tenant_id l;
     log_sync_type := log_sync_type l;
     log_triggered_by := log_triggered_by l;
     log_started_at := log_started_at l;
     log_completed_at := Some now;
     log_status := match error_message with None => success | Some _ => failed end;
     log_rows_synced := rows;
     log_users_synced := users;
     log_duration := Some (now - log_started_at l)%Q;
     log_error_message := error_message |}.

(** Modelled from the spec: [SyncLog.mark_completed] ([finalize]): sets
    [completed_at], the status (success iff there is no error), the counts
    and the duration of the ticket. *)
Definition mark_completed (id : nat) (rows users : nat) (error_message : option pystr)
    (w : World) : World :=
  set_sync_logs w (alter (complete_log (clock w) rows users error_message) id (sync_logs w)).

(** Modelled from the spec: [SyncLog.should_sync]: true unless a ticket of
    the target completed successfully within the last [min_minutes]. *)
Definition should_sync (schedule_def_id : pystr) (min_minutes : Z) (w : World) : bool :=
  negb (existsb (fun l =>
          str_eqb (log_schedule_def_id l) schedule_def_id
          && match log_status l, log_completed_at l with
             | success, Some t =>
                 if Qlt_le_dec (clock w - t) (inject_Z (min_minutes * 60)) then true else false
             | _, _ => false
             end)
        (sync_logs w)).

(** Modelled from the spec: [SyncLog.get_last_sync] ([last]): the most
    recently completed ticket of the target. *)
Definition get_last_sync (schedule_def_id : pystr) (w : World) : option SyncLog :=
  fold_left (fun best l =>
      if str_eqb (log_schedule_def_id l) schedule_def_id then
        match log_completed_at l, best with
        | Some t, Some b =>
            match log_completed_at b with
            | Some tb => if Qlt_le_dec t tb then best else Some l
            | None => Some l
            end
        | Some _, None => Some l
        | None, _ => best
        end
      else best)
    (sync_logs w) None.

(** ** The service *)

Section GoogleSheetsSyncService.

(** [datetime.fromisoformat] of the interpreter the service runs on, with
    [None] for [ValueError].  The texts it accepts differ between Python
    versions, and it is not part of the repository. *)
Variable fromisoformat : pystr -> option date.

(** The imported [fetch_schedule_data]: the outcome of call number [n] (counted
    from the start of the world) for a schedule, either the returned
    dictionary or a raised exception with its message. *)
Variable fetch_schedule_data : nat -> pystr -> FetchOutcome.

(** [_parse_date] *)
Definition _parse_date (date_str : pystr) : option date :=
  if str_eqb date_str [] then None
  else
    let date_str := strip date_str in
    match first_some (fun fmt => strptime date_str fmt) formats with
    | Some parsed => Some parsed
    | None =>
        match match re_date_search date_str with
              | Some ymd => make_date ymd
              | None => None
              end with
        | Some parsed => Some parsed
        | None => fromisoformat (replace_slash date_str)
        end
    end.

(** The test on a returned error in [_fetch_with_retry]. *)
Definition is_rate_limit_error (error : pystr) : bool :=
  contains (u "429") error
  || contains (u "quota") (lower error)
  || contains (u "rate limit") (lower error).

(** The test on the message of a raised exception in [_fetch_with_retry]. *)
Definition is_rate_limit_exception (error_msg : pystr) : bool :=
  contains (u "429") error_msg || contains (u "quota") (lower error_msg).

Definition failure_data (error : pystr) : SheetsData :=
  {| sd_success := false; sd_error := Some error; sd_final_output := None |}.

(** [initial_delay * (2 ** attempt)] *)
Definition backoff_delay (initial_delay : Q) (attempt : nat) : Q :=
  (initial_delay * inject_Z (2 ^ Z.of_nat attempt))%Q.

(** The loop of [_fetch_with_retry] from iteration [attempt] on, [n]
    iterations of [range(max_retries)] being left. *)
Fixpoint fetch_loop (schedule_def_id : pystr) (max_retries : Z) (initial_delay : Q)
    (n attempt : nat) (w : World) : World * SheetsData :=
  match n with
  | O => (w, failure_data (u "Failed to fetch after retries"))
  | S n' =>
      let w1 := count_fetch w in
      match fetch_schedule_data (fetch_calls w) schedule_def_id with
      | Returned sheets_data =>
          if sd_success sheets_data then (w1, sheets_data)
          else
            let error := default [] (sd_error sheets_data) in
            if is_rate_limit_error error then
              if (Z.of_nat attempt <? max_retries - 1)%Z then
                fetch_loop schedule_def_id max_retries initial_delay n' (S attempt)
                  (sleep (backoff_delay initial_delay attempt) w1)
              else (w1, sheets_data)
            else (w1, sheets_data)
      | Raised error_msg =>
          if (Z.of_nat attempt <? max_retries - 1)%Z && is_rate_limit_exception error_msg then
            fetch_loop schedule_def_id max_retries initial_delay n' (S attempt)
              (sleep (backoff_delay initial_delay attempt) w1)
          else (w1, failure_data error_msg)
      end
  end.

(** [_fetch_with_retry] *)
Definition _fetch_with_retry (schedule_def_id : pystr) (max_retries : Z)
    (initial_delay : Q) (w : World) : World * SheetsData :=
  fetch_loop schedule_def_id max_retries initial_delay (Z.to_nat max_retries) 0 w.

(** The body of [for mapping in employee_mappings] that fills
    [identifier_to_user]. *)
Definition add_mapping (identifier_to_user : pydict pystr) (mapping : EmployeeMapping)
    : pydict pystr :=
  let d1 := pydict_set identifier_to_user (sheets_identifier mapping) (userID mapping) in
  match sheets_name_id mapping with
  | None => d1
  | Some name_id =>
      if str_eqb name_id [] then d1
      else
        let d2 := pydict_set d1 name_id (userID mapping) in
        if contains (u "/") name_id then
          fold_left (fun d part =>
                       if negb (str_eqb (strip part) [])
                       then pydict_set d (strip part) (userID mapping)
                       else d)
                    (split 47 name_id) d2
        else d2
  end.

Definition build_identifier_to_user (mappings : list EmployeeMapping) : pydict pystr :=
  fold_left add_mapping mappings [].

(** [EmployeeMapping.query.filter_by(schedule_def_id=..., is_active=True).all()] *)
Definition active_mappings (schedule_def_id : pystr) (w : World) : list EmployeeMapping :=
  List.filter (fun m => str_eqb (em_schedule_def_id m) schedule_def_id && em_is_active m)
              (employee_mappings w).

(** The column names accepted for the employee identifier, in order. *)
Definition identifier_candidates : list pystr :=
  [u "員工(姓名/ID)"; u "員工姓名/ID"; u "員工"; u "username"; u "employee_id"; u "name"].

(** The first candidate that is a column of the sheet. *)
Definition find_identifier_column (output_columns : list pystr) : option pystr :=
  List.find (fun col => str_in col output_columns) identifier_candidates.

(** [row.get(key, default)] *)
Definition row_get (cells : gmap pystr PyVal) (key : pystr) (default : PyVal) : PyVal :=
  match cells !! key with
  | Some v => v
  | None => default
  end.

(** The test of the partial match,
    [identifier_str in str(key) or str(key) in identifier_str]. *)
Definition partial_match (identifier_str : pystr) (kv : pystr * pystr) : bool :=
  contains identifier_str (fst kv) || contains (fst kv) identifier_str.

(** "Find matching user": the exact key first, otherwise the first item, in
    the order of the dictionary, that passes the partial match. *)
Definition find_user (identifier_to_user : pydict pystr) (identifier_str : pystr)
    : option pystr :=
  match pydict_get identifier_to_user identifier_str with
  | Some uid => Some uid
  | None => snd <$> List.find (partial_match identifier_str) identifier_to_user
  end.

(** The body of [for date_col in date_columns]; the state is the table and
    [rows_synced]. *)
Definition process_cell (schedule_def_id user_id : pystr) (cells : gmap pystr PyVal)
    (st : cache_table * nat) (date_col : pystr) : cache_table * nat :=
  match _parse_date date_col with
  | None => st
  | Some date_obj =>
      match row_get cells date_col (VStr []) with
      | VNone => st
      | shift_value =>
          let shift_value := strip (py_str shift_value) in
          if str_eqb shift_value [] || str_eqb (upper shift_value) (u "NULL") then st
          else
            let shift_type := _normalize_shift_type (VStr shift_value) in
            let time_range := _get_time_range shift_type in
            (session_merge user_id schedule_def_id date_obj
               {| shift_type := shift_type; time_range := time_range |} (fst st),
             S (snd st))
      end
  end.

(** The body of [for row in output_data]; the state is the table,
    [rows_synced] and [synced_users]. *)
Definition process_row (schedule_def_id identifier_column : pystr)
    (output_columns : list pystr) (identifier_to_user : pydict pystr)
    (st : cache_table * nat * gset pystr) (row : Row) : cache_table * nat * gset pystr :=
  match row with
  | RowOther => st
  | RowDict cells =>
      let identifier := row_get cells identifier_column (VStr []) in
      if negb (truthy identifier) then st
      else
        let identifier_str := strip (py_str identifier) in
        match find_user identifier_to_user identifier_str with
        | None => st
        | Some user_id =>
            if str_eqb user_id [] then st
            else
              let '(c, rows_synced, synced_users) := st in
              let synced_users := synced_users ∪ {[user_id]} in
              let date_columns :=
                List.filter (fun col => negb (str_eqb col identifier_column)) output_columns in
              let c := clear_user_schedule user_id schedule_def_id c in
              let '(c, rows_synced) :=
                fold_left (process_cell schedule_def_id user_id cells) date_columns
                          (c, rows_synced) in
              (c, rows_synced, synced_users)
        end
  end.

(** [_store_schedule_data]: the new world and (rows_synced, users_synced). *)
Definition _store_schedule_data (schedule_def_id : pystr) (sheets_data : SheetsData)
    (w : World) : World * (nat * nat) :=
  match sd_final_output sheets_data with
  | None => (w, (0, 0)%nat)
  | Some final_output =>
      if negb (fo_success final_output) then (w, (0, 0)%nat)
      else
        let output_data := fo_data final_output in
        let output_columns := fo_columns final_output in
        if bool_decide (output_data = []) || bool_decide (output_columns = [])
        then (w, (0, 0)%nat)
        else
          let identifier_to_user :=
            build_identifier_to_user (active_mappings schedule_def_id w) in
          match find_identifier_column output_columns with
          | None => (w, (0, 0)%nat)
          | Some identifier_column =>
              let '(c, rows_synced, synced_users) :=
                fold_left (process_row schedule_def_id identifier_column output_columns
                                       identifier_to_user)
                          output_data (cached_schedules w, 0%nat, ∅) in
              (set_cached_schedules w c, (rows_synced, size synced_users))
          end
  end.

Definition failure_result (error : pystr) : SyncResult :=
  {| res_success := false; res_skipped := false; res_error := Some error;
     res_rows_synced := None; res_users_synced := None;
     res_last_synced_at := None; res_sync_log_id := None |}.

(** [sync_schedule_data].  The keyword defaults of [_fetch_with_retry]
    ([max_retries=3], [initial_delay=2.0]) are the ones the call uses.  The
    [except Exception] handler has no counterpart here: the fetch loop turns
    what the fetcher raises into a failure of its own, and the store step
    and the table operations, as modelled, raise nothing. *)
Definition sync_schedule_data (schedule_def_id sync_type : pystr)
    (triggered_by : option pystr) (force : bool) (w : World) : World * SyncResult :=
  match schedule_definitions w !! schedule_def_id with
  | None =>
      (w, failure_result (u "Schedule definition not found: " ++ schedule_def_id))
  | Some schedule_def =>
      if negb force && negb (should_sync schedule_def_id 10 w) then
        let last_sync := get_last_sync schedule_def_id w in
        (w, {| res_success := true; res_skipped := true; res_error := None;
               res_rows_synced := None; res_users_synced := None;
               res_last_synced_at := last_sync ≫= log_completed_at;
               res_sync_log_id := None |})
      else
        let '(w, sync_log) :=
          create_sync_log schedule_def_id (tenantID schedule_def) sync_type triggered_by w in
        let '(w, sheets_data) := _fetch_with_retry schedule_def_id 3 2 w in
        if negb (sd_success sheets_data) then
          let error_msg := default (u "Unknown error") (sd_error sheets_data) in
          (mark_completed sync_log 0 0 (Some error_msg) w, failure_result error_msg)
        else
          let '(w, (rows_synced, users_synced)) :=
            _store_schedule_data schedule_def_id sheets_data w in
          let w := mark_completed sync_log rows_synced users_synced None w in
          (w, {| res_success := true; res_skipped := false; res_error := None;
                 res_rows_synced := Some rows_synced;
                 res_users_synced := Some users_synced;
                 res_last_synced_at := (sync_logs w !! sync_log) ≫= log_completed_at;
                 res_sync_log_id := Some sync_log |})
  end.

(** ** Views of the loop bodies, used to state what the loops compute *)

(** A cell the loop skips: the value is [None], or its text is empty once
    stripped, or is NULL in any letter case. *)
Definition blank_cell (v : PyVal) : bool :=
  match v with
  | VNone => true
  | _ => str_eqb (strip (py_str v)) [] || str_eqb (upper (strip (py_str v))) (u "NULL")
  end.

(** What one date column of a row contributes: the date and the entry
    written, or nothing when the column or the cell is skipped. *)
Definition cell_entry (cells : gmap pystr PyVal) (date_col : pystr)
    : option (date * CachedSchedule) :=
  match _parse_date date_col with
  | None => None
  | Some date_obj =>
      let v := row_get cells date_col (VStr []) in
      if blank_cell v then None
      else
        let shift_type := _normalize_shift_type (VStr (strip (py_str v))) in
        Some (date_obj, {| shift_type := shift_type; time_range := _get_time_range shift_type |})
  end.

(** The entries one row yields, by date: a later column wins over an
    earlier one with the same date. *)
Definition staged_from (cells : gmap pystr PyVal) (date_columns : list pystr)
    (m : gmap date CachedSchedule) : gmap date CachedSchedule :=
  fold_left (fun m col => match cell_entry cells col with
                          | Some (d, e) => <[d := e]> m
                          | None => m
                          end) date_columns m.

Definition staged (cells : gmap pystr PyVal) (date_columns : list pystr)
    : gmap date CachedSchedule :=
  staged_from cells date_columns ∅.

(** The number of cells of a row that are written. *)
Definition stored_cells (cells : gmap pystr PyVal) (date_columns : list pystr) : nat :=
  length (List.filter (fun col => bool_decide (is_Some (cell_entry cells col))) date_columns).

(** [date_columns] of the source. *)
Definition date_columns_of (identifier_column : pystr) (output_columns : list pystr)
    : list pystr :=
  List.filter (fun col => negb (str_eqb col identifier_column)) output_columns.

(** The user a row is stored for, with the cells of the row; [None] for a
    row that is skipped. *)
Definition row_user (identifier_column : pystr) (identifier_to_user : pydict pystr)
    (row : Row) : option (pystr * gmap pystr PyVal) :=
  match row with
  | RowOther => None
  | RowDict cells =>
      let identifier := row_get cells identifier_column (VStr []) in
      if negb (truthy identifier) then None
      else match find_user identifier_to_user (strip (py_str identifier)) with
           | Some user_id => if str_eqb user_id [] then None else Some (user_id, cells)
           | None => None
           end
  end.

(** The cells of the last row stored for [user]. *)
Fixpoint last_cells_for (identifier_column : pystr) (identifier_to_user : pydict pystr)
    (rows : list Row) (user : pystr) : option (gmap pystr PyVal) :=
  match rows with
  | [] => None
  | row :: rest =>
      match last_cells_for identifier_column identifier_to_user rest user with
      | Some cells => Some cells
      | None =>
          match row_user identifier_column identifier_to_user row with
          | Some (user_id, cells) => if decide (user_id = user) then Some cells else None
          | None => None
          end
      end
  end.

(** The users the rows are stored for. *)
Definition resolved_users (identifier_column : pystr) (identifier_to_user : pydict pystr)
    (rows : list Row) : gset pystr :=
  list_to_set (omap (fun row => fst <$> row_user identifier_column identifier_to_user row) rows).

(** The number of cells written over all rows. *)
Definition stored_rows (identifier_column : pystr) (output_columns : list pystr)
    (identifier_to_user : pydict pystr) (rows : list Row) : nat :=
  sum_list (map (fun row =>
                   match row_user identifier_column identifier_to_user row with
                   | Some (_, cells) =>
                       stored_cells cells (date_columns_of identifier_column output_columns)
                   | None => 0%nat
                   end) rows).

(** The table [_store_schedule_data] goes through row by row: identifier
    column, columns and rows; [None] when it returns before the loop. *)
Definition parsed_table (sheets_data : SheetsData)
    : option (pystr * list pystr * list Row) :=
  match sd_final_output sheets_data with
  | None => None
  | Some final_output =>
      if fo_success final_output
         && negb (bool_decide (fo_data final_output = []))
         && negb (bool_decide (fo_columns final_output = []))
      then match find_identifier_column (fo_columns final_output) with
           | Some identifier_column =>
               Some (identifier_column, fo_columns final_output, fo_data final_output)
           | None => None
           end
      else None
  end.

(** The sync passes the freshness check: it is forced or the log says a
    sync is due. *)
Definition freshness_passed (schedule_def_id : pystr) (force : bool) (w : World) : bool :=
  force || should_sync schedule_def_id 10 w.


(** [identifier_to_user] as [_store_schedule_data] builds it. *)
Definition identifier_map (schedule_def_id : pystr) (w : World) : pydict pystr :=
  build_identifier_to_user (active_mappings schedule_def_id w).

(** (rows_synced, users_synced) of a snapshot. *)
Definition store_counts (schedule_def_id : pystr) (sheets_data : SheetsData) (w : World)
    : nat * nat :=
  match parsed_table sheets_data with
  | Some (identifier_column, output_columns, rows) =>
      (stored_rows identifier_column output_columns (identifier_map schedule_def_id w) rows,
       size (resolved_users identifier_column (identifier_map schedule_def_id w) rows))
  | None => (0, 0)%nat
  end.

(** The entries the snapshot yields for [user], by date: those of the last
    row stored for the user; [None] when no row is stored for the user. *)
Definition snapshot_entries (schedule_def_id : pystr) (sheets_data : SheetsData) (w : World)
    (user : pystr) : option (gmap date CachedSchedule) :=
  match parsed_table sheets_data with
  | Some (identifier_column, output_columns, rows) =>
      (fun cells => staged cells (date_columns_of identifier_column output_columns))
        <$> last_cells_for identifier_column (identifier_map schedule_def_id w) rows user
  | None => None
  end.

(** The snapshot the sync works on: what [_fetch_with_retry] returns with
    the keyword defaults, from the fetcher calls of world [w] on. *)
Definition fetched (schedule_def_id : pystr) (w : World) : SheetsData :=
  snd (_fetch_with_retry schedule_def_id 3 2 w).

(** The ticket a sync opens and closes. *)
Definition closed_ticket (id : pystr) (def : ScheduleDefinition) (ty : pystr)
    (by_ : option pystr) (w : World) (now : Q) (rows users : nat) (err : option pystr)
    : SyncLog :=
  complete_log now rows users err
    {| log_id := length (sync_logs w);
       log_schedule_def_id := id;
       log_tenant_id := tenantID def;
       log_sync_type := ty;
       log_triggered_by := by_;
       log_started_at := clock w;
       log_completed_at := None;
       log_status := pending;
       log_rows_synced := 0;
       log_users_synced := 0;
       log_duration := None;
       log_error_message := None |}.

(** The result of a sync that was skipped. *)
Definition skipped_result (last_synced_at : option Q) : SyncResult :=
  {| res_success := true; res_skipped := true; res_error := None;
     res_rows_synced := None; res_users_synced := None;
     res_last_synced_at := last_synced_at; res_sync_log_id := None |}.

(** The result of a sync that stored a snapshot. *)
Definition success_result (rows users : nat) (last_synced_at : Q) (sync_log_id : nat)
    : SyncResult :=
  {| res_success := true; res_skipped := false; res_error := None;
     res_rows_synced := Some rows; res_users_synced := Some users;
     res_last_synced_at := Some last_synced_at; res_sync_log_id := Some sync_log_id |}.


(** The outcomes [_fetch_with_retry] treats as rate-limited: a returned
    failure whose error text passes the test of the [if], or a raised
    exception whose message passes the test of the [except] branch. *)
Definition rate_limited (o : FetchOutcome) : bool :=
  match o with
  | Returned sheets_data =>
      negb (sd_success sheets_data)
      && is_rate_limit_error (default [] (sd_error sheets_data))
  | Raised error_msg => is_rate_limit_exception error_msg
  end.


(** What [_fetch_with_retry] returns when it stops on outcome [o]. *)
Definition outcome_data (o : FetchOutcome) : SheetsData :=
  match o with
  | Returned sheets_data => sheets_data
  | Raised error_msg => failure_data error_msg
  end.


(** A row that is stored for no user. *)
Definition unresolved (identifier_column : pystr) (identifier_to_user : pydict pystr)
    (row : Row) : bool :=
  match row_user identifier_column identifier_to_user row with
  | None => true
  | Some _ => false
  end.

(** The users of the rows that are stored, one per row, in row order. *)
Definition resolved_list (identifier_column : pystr) (identifier_to_user : pydict pystr)
    (rows : list Row) : list pystr :=
  omap (fun row => fst <$> row_user identifier_column identifier_to_user row) rows.

(** The strings a link is stored under: its identifier, its name/ID text
    when it has one, and the tokens of that text between slashes, stripped,
    the empty ones left out. *)
Definition link_keys (mapping : EmployeeMapping) : list pystr :=
  sheets_identifier mapping ::
  match sheets_name_id mapping with
  | None => []
  | Some name_id =>
      if str_eqb name_id [] then []
      else name_id ::
           (if contains (u "/") name_id
            then List.filter (fun part => negb (str_eqb part []))
                             (map strip (split 47 name_id))
            else [])
  end.

(** The link an identifier matches exactly: the last mapping, in query
    order, that is stored under the identifier. *)
Fixpoint exact_link (mappings : list EmployeeMapping) (identifier_str : pystr)
    : option EmployeeMapping :=
  match mappings with
  | [] => None
  | mapping :: rest =>
      match exact_link rest identifier_str with
      | Some m => Some m
      | None => if bool_decide (identifier_str ∈ link_keys mapping) then Some mapping else None
      end
  end.

(** ** Sample data *)

Definition sch1 : pystr := u "SCH-1".
Definition id_col : pystr := u "員工(姓名/ID)".
Definition day1 : date := (2025, 1, 1)%Z.
Definition day2 : date := (2025, 1, 2)%Z.
Definition day3 : date := (2025, 1, 3)%Z.
Definition day5 : date := (2025, 1, 5)%Z.

Definition mk_mapping (ident : pystr) (name_id : option pystr) (user : pystr) : EmployeeMapping :=
  {| em_schedule_def_id := sch1; em_is_active := true;
     sheets_identifier := ident; sheets_name_id := name_id; userID := user |}.

Definition mk_entry (code : pystr) : CachedSchedule :=
  {| shift_type := code; time_range := _get_time_range code |}.

Definition mk_row (ident : pystr) (cells : list (pystr * pystr)) : Row :=
  RowDict (list_to_map ((id_col, VStr ident) :: map (fun kv => (fst kv, VStr (snd kv))) cells)).

Definition mk_snapshot (columns : list pystr) (rows : list Row) : SheetsData :=
  {| sd_success := true; sd_error := None;
     sd_final_output := Some {| fo_success := true; fo_data := rows; fo_columns := columns |} |}.

Definition sample_world (mappings : list EmployeeMapping) (c : cache_table) : World :=
  {| schedule_definitions := {[ sch1 := {| tenantID := u "T1" |} ]};
     employee_mappings := mappings;
     cached_schedules := c;
     sync_logs := [];
     clock := 0;
     fetch_calls := 0;
     sleeps := [] |}.

Definition no_fromisoformat : pystr -> option date := fun _ => None.

Definition two_staff : list EmployeeMapping :=
  [mk_mapping (u "E04") (Some (u "Alice/E04")) (u "user-004");
   mk_mapping (u "E05") (Some (u "Bob/E05")) (u "user-005")].

Definition cache_U : cache_table :=
  {[ (u "user-004", sch1, day1) := mk_entry (u "D");
     (u "user-004", sch1, day2) := mk_entry (u "E");
     (u "user-004", sch1, day3) := mk_entry (u "N") ]}.

Definition snapshot_U : SheetsData :=
  mk_snapshot [id_col; u "2025-01-01"; u "2025-01-05"]
    [mk_row (u "E04") [(u "2025-01-01", u "D"); (u "2025-01-05", u "OFF")]].



(** The body rows of a snapshot. *)
Definition snapshot_rows (sheets_data : SheetsData) : list Row :=
  match sd_final_output sheets_data with
  | Some final_output => fo_data final_output
  | None => []
  end.

(** A remote that answers every call with the same snapshot. *)
Definition always (sheets_data : SheetsData) : nat -> pystr -> FetchOutcome :=
  fun _ _ => Returned sheets_data.

(** A header without any of the identifier column names. *)
Definition snapshot_drifted : SheetsData :=
  mk_snapshot [u "staff"; u "2025-01-01"]
    [RowDict (list_to_map [(u "staff", VStr (u "E04")); (u "2025-01-01", VStr (u "D"))])].

(** One row for E04 whose cell of 2025-01-01 holds [label]. *)
Definition snapshot_label (label : pystr) : SheetsData :=
  mk_snapshot [id_col; u "2025-01-01"] [mk_row (u "E04") [(u "2025-01-01", label)]].

(** Three rows, the last one unresolvable, the first two of one user. *)
Definition snapshot_same_user : SheetsData :=
  mk_snapshot [id_col; u "2025-01-01"]
    [mk_row (u "E04") [(u "2025-01-01", u "D")];
     mk_row (u "Alice") [(u "2025-01-01", u "E")];
     mk_row (u "ZZZ") [(u "2025-01-01", u "N")]].

(** Three rows, the last one unresolvable, the first two of two users. *)
Definition snapshot_two_users : SheetsData :=
  mk_snapshot [id_col; u "2025-01-01"]
    [mk_row (u "E04") [(u "2025-01-01", u "D")];
     mk_row (u "E05") [(u "2025-01-01", u "E")];
     mk_row (u "ZZZ") [(u "2025-01-01", u "N")]].

(** Three rows, the last one unresolvable, the first two of two users and
    with blank cells only. *)
Definition snapshot_blank_rows : SheetsData :=
  mk_snapshot [id_col; u "2025-01-01"]
    [mk_row (u "E04") [(u "2025-01-01", [])];
     mk_row (u "E05") [(u "2025-01-01", u "NULL")];
     mk_row (u "ZZZ") [(u "2025-01-01", u "N")]].

(** A row with a written cell, an empty cell, a NULL cell and a missing one. *)
Definition snapshot_blanks : SheetsData :=
  mk_snapshot [id_col; u "2025-01-01"; u "2025-01-02"; u "2025-01-03"; u "2025-01-05"]
    [mk_row (u "E04") [(u "2025-01-01", u "D"); (u "2025-01-02", u "  ");
                       (u "2025-01-03", u " null ")]].



(** A remote that is down. *)
Definition unreachable : nat -> pystr -> FetchOutcome :=
  fun _ _ => Raised (u "Connection reset by peer").

(** ** What the read paths and the callers add *)

(** [date.isoformat()], the text under which the read paths serve a cached
    date: [YYYY-MM-DD], zero padded. *)
Definition digit_char (n : Z) : N := Z.to_N (48 + n).

Definition isoformat (d : date) : pystr :=
  let '(y, m, dd) := d in
  [digit_char (y / 1000)%Z; digit_char (y / 100 mod 10)%Z; digit_char (y / 10 mod 10)%Z;
   digit_char (y mod 10)%Z; 45;
   digit_char (m / 10)%Z; digit_char (m mod 10)%Z; 45;
   digit_char (dd / 10)%Z; digit_char (dd mod 10)%Z].

(** An entry as the sync writes it: a day that exists, one of the four
    codes, and the time range of the code. *)
Definition entry_ok (k : cache_key) (e : CachedSchedule) : Prop :=
  valid_date (snd k) = true
  ∧ shift_type e ∈ [u "D"; u "E"; u "N"; u "OFF"]
  ∧ time_range e = _get_time_range (shift_type e).

(** Time passing between two calls of the service: the clock moves on and
    nothing else changes. *)
Definition elapse (dt : Q) (w : World) : World :=
  {| schedule_definitions := schedule_definitions w;
     employee_mappings := employee_mappings w;
     cached_schedules := cached_schedules w;
     sync_logs := sync_logs w;
     clock := (clock w + dt)%Q;
     fetch_calls := fetch_calls w;
     sleeps := sleeps w |}.

(** No ticket of the log is completed later than now. *)
Definition log_in_past (w : World) : Prop :=
  ∀ l t, l ∈ sync_logs w -> log_completed_at l = Some t -> (t <= clock w)%Q.

(** *** The periodic task and the manual trigger *)

(** One active schedule as the callers get it from the query
    [ScheduleDefinition.query.filter_by(is_active=True).all()]:
    [scheduleDefID] and [scheduleName]. *)
Abbreviation ActiveSchedule := (pystr * pystr)%type.

(** An element of the [results] of the periodic task: the identifier and
    the name of the schedule with the result of its sync. *)
Abbreviation TaskEntry := (pystr * pystr * SyncResult)%type.

(** The dictionary [sync_google_sheets_daily] returns; the keys after
    [success] are absent when there is no active schedule (the [message]
    it carries then is left out). *)
Record TaskResult := {
  task_success : bool;
  task_schedules_synced : option nat;
  task_total_schedules : option nat;
  task_results : option (list TaskEntry) }.

(** The body of [for schedule_def in schedules] in
    [sync_google_sheets_daily] ([app/tasks/google_sync.py]).  Its
    [except Exception] branch has no counterpart: the sync raises nothing
    here. *)
Definition daily_step (st : World * list TaskEntry) (schedule_def : ActiveSchedule)
    : World * list TaskEntry :=
  let '(w, results) := st in
  if negb (should_sync (fst schedule_def) 10 w) then (w, results)
  else
    let '(w', result) :=
      sync_schedule_data (fst schedule_def) (u "scheduled") None false w in
    (w', results ++ [(fst schedule_def, snd schedule_def, result)]).

(** [sync_google_sheets_daily], given the active schedules. *)
Definition sync_google_sheets_daily (schedules : list ActiveSchedule) (w : World)
    : World * TaskResult :=
  if bool_decide (schedules = []) then
    (w, {| task_success := true; task_schedules_synced := None;
           task_total_schedules := None; task_results := None |})
  else
    let '(w', results) := fold_left daily_step schedules (w, []) in
    let success_count := length (List.filter (fun r => res_success (snd r)) results) in
    (w', {| task_success := true;
            task_schedules_synced := Some success_count;
            task_total_schedules := Some (length results);
            task_results := Some results |}).

(** The loop of [main] in [trigger_sync.py]: a forced manual sync of each
    active schedule, in order; the results are what it prints. *)
Definition main (schedules : list ActiveSchedule) (w : World)
    : World * list SyncResult :=
  fold_left (fun st schedule_def =>
               let '(w', result) :=
                 sync_schedule_data (fst schedule_def) (u "manual") None true (fst st) in
               (w', snd st ++ [result]))
            schedules (w, []).

(** *** The cache read of the schedule-data route *)

Section ScheduleDataRoute.

(** The builtin [int] on a text, with [None] for [ValueError].  It is not
    part of the repository, and what it accepts beyond plain digits (signs,
    underscores, spaces around, other decimal digits, a bound on the
    length) depends on the Python version. *)
Variable py_int : pystr -> option Z.

(** The value of a text of ASCII digits. *)
Definition digits_value (s : pystr) : Z :=
  fold_left (fun acc c => (10 * acc + digit_val c)%Z) s 0%Z.

(** [year, month_num = map(int, parts)]: exactly two parts, both read by
    [int]; [None] for the [ValueError] of the unpacking or of [int]. *)
Definition unpack_two_ints (parts : list pystr) : option (Z * Z) :=
  match parts with
  | [a; b] => year ← py_int a; month_num ← py_int b; Some (year, month_num)
  | _ => None
  end.

(** [calendar.monthrange(year, month)[1]]: the number of days of the month,
    [None] for [IllegalMonthError]. *)
Definition monthrange_days (year month : Z) : option Z :=
  if ((1 <=? month) && (month <=? 12))%Z then Some (days_in_month year month) else None.

(** The [try] block of [schedule_data] that reads the [month] argument:
    [start_date] and [end_date], or [None] where the bare [except] is
    taken. *)
Definition month_bounds (month : pystr) : option (date * date) :=
  ym ← (if contains [45] month then unpack_two_ints (split 45 month)
        else if contains [47] month then unpack_two_ints (split 47 month)
        else year ← py_int (take 4 month);
             month_num ← py_int (take 2 (drop 4 month));
             Some (year, month_num));
  last_day ← monthrange_days (fst ym) (snd ym);
  start_date ← make_date (fst ym, snd ym, 1%Z);
  end_date ← make_date (fst ym, snd ym, last_day);
  Some (start_date, end_date).

(** [a <= b] on dates. *)
Definition date_leb (a b : date) : bool :=
  let '(y1, m1, d1) := a in
  let '(y2, m2, d2) := b in
  ((y1 <? y2) || (y1 =? y2) && ((m1 <? m2) || (m1 =? m2) && (d1 <=? d2)))%Z.

(** [cached_schedules = schedules_query.all()] of [schedule_data]: the
    entries of the user and the schedule, between the bounds when a
    non-empty [month] is given and read.  The order of the rows of a query
    is not specified; the table keeps them by key. *)
Definition schedules_query (current_user_id schedule_def_id : pystr)
    (month : option pystr) (w : World) : cache_table :=
  let by_user :=
    filter (fun kv : cache_key * CachedSchedule =>
              fst (fst (fst kv)) = current_user_id ∧ snd (fst (fst kv)) = schedule_def_id)
           (cached_schedules w) in
  match month with
  | None | Some [] => by_user
  | Some month =>
      match month_bounds month with
      | Some (start_date, end_date) =>
          filter (fun kv : cache_key * CachedSchedule =>
                    date_leb start_date (snd (fst kv)) = true
                    ∧ date_leb (snd (fst kv)) end_date = true)
                 by_user
      | None => by_user
      end
  end.

(** A row of [my_schedule]: the date, [schedule.shift_type or 'D'] and
    [schedule.time_range or '--'].  The date is kept as a date and the
    weekday is left out. *)
Record DashboardRow := {
  row_date : date;
  row_shift : pystr;
  row_time : pystr }.

Definition or_else (s other : pystr) : pystr :=
  match s with [] => other | _ => s end.

Definition dashboard_row (d : date) (schedule : CachedSchedule) : DashboardRow :=
  {| row_date := d;
     row_shift := or_else (shift_type schedule) (u "D");
     row_time := or_else (time_range schedule) (u "--") |}.

(** The rows [schedule_data] serves from the cache, [None] when the query
    is empty and the route goes on to the sheet. *)
Definition schedule_data_rows (current_user_id schedule_def_id : pystr)
    (month : option pystr) (w : World) : option (list DashboardRow) :=
  let cached := map_to_list (schedules_query current_user_id schedule_def_id month w) in
  match cached with
  | [] => None
  | _ => Some (map (fun kv : cache_key * CachedSchedule =>
                      dashboard_row (snd (fst kv)) (snd kv)) cached)
  end.

End ScheduleDataRoute.

(** *** The manual sync route *)

(** The dictionary the route [sync_google_sheets] ([/admin/sync]) returns
    when the request names no schedule. *)
Record AdminSyncResult := {
  admin_success : bool;
  admin_schedules : list TaskEntry;
  admin_total_synced : nat }.

(** The branch of [sync_google_sheets] that syncs all active schedules of
    the tenant of the user, given these schedules. *)
Definition sync_google_sheets (schedules : list ActiveSchedule) (current_user_id : pystr)
    (force : bool) (w : World) : World * AdminSyncResult :=
  let '(w', results) :=
    fold_left (fun (st : World * list TaskEntry) (schedule_def : ActiveSchedule) =>
                 let '(w1, sync_result) :=
                   sync_schedule_data (fst schedule_def) (u "manual")
                                      (Some current_user_id) force (fst st) in
                 (w1, snd st ++ [(fst schedule_def, snd schedule_def, sync_result)]))
              schedules (w, []) in
  (w', {| admin_success := forallb (fun r => res_success (snd r)) results;
          admin_schedules := results;
          admin_total_synced :=
            length (List.filter (fun r => res_success (snd r)) results) |}).

(** *** The identifiers of the seeding script *)

(** [if x:] for a text that may be [None]. *)
Definition nonempty (x : option pystr) : bool :=
  match x with
  | Some (_ :: _) => true
  | _ => false
  end.

(** The [employee_id] that [seed_employee_mappings] derives for a user
    without a mapping, [None] when it creates none.  The test on the
    lower-cased user name looks for ASCII letters only, for which
    [str.lower] is the ASCII one. *)
Definition seed_employee_id (user_id : pystr) (username : option pystr) : option pystr :=
  let employee_id : option pystr :=
    if startswith (u "user-") user_id then
      let num_part := List.last (split 45 user_id) [] in
      let num_part := if startswith (u "0") num_part then drop 1 num_part else num_part in
      Some (u "E" ++ num_part)
    else None in
  let employee_id :=
    if negb (nonempty employee_id) && nonempty username then
      if contains (u "employee") (lower (default [] username)) then Some (u "E01")
      else employee_id
    else employee_id in
  if nonempty employee_id then employee_id else None.

(** *** More sample data *)

#[global] Instance entry_ok_dec (k : cache_key) (e : CachedSchedule) : Decision (entry_ok k e).
Proof. unfold entry_ok. apply _. Defined.

(** An [int] that reads plain digits and nothing else. *)
Definition plain_int (s : pystr) : option Z :=
  match s with
  | [] => None
  | _ => if forallb is_digit s then Some (digits_value s) else None
  end.

(** The one active schedule of the sample worlds. *)
Definition ward_a : list (pystr * pystr) := [(sch1, u "Ward A")].

(** A world in which SCH-1 was synced one minute ago. *)
Definition fresh_world : World :=
  {| schedule_definitions := {[ sch1 := {| tenantID := u "T1" |} ]};
     employee_mappings := two_staff;
     cached_schedules := cache_U;
     sync_logs := [{| log_id := 0;
                      log_schedule_def_id := sch1;
                      log_tenant_id := u "T1";
                      log_sync_type := u "manual";
                      log_triggered_by := None;
                      log_started_at := 0;
                      log_completed_at := Some 0%Q;
                      log_status := success;
                      log_rows_synced := 3;
                      log_users_synced := 1;
                      log_duration := Some 0%Q;
                      log_error_message := None |}];
     clock := 60;
     fetch_calls := 1;
     sleeps := [] |}.

(** A fetched snapshot without the [final_output] sheet. *)
Definition snapshot_without_sheet : SheetsData :=
  {| sd_success := true; sd_error := None; sd_final_output := None |}.
(** * Proofs *)

(** ** The embedding on sample inputs *)

Example u_ascii : u "NULL" = [78; 85; 76; 76].
Proof. reflexivity. Qed.

Example u_cjk :
  u "員工(姓名/ID)" = [0x54e1; 0x5de5; 0x28; 0x59d3; 0x540d; 0x2f; 0x49; 0x44; 0x29].
Proof. reflexivity. Qed.

Example split_name_id : split 47 (u "Alice/E04") = [u "Alice"; u "E04"].
Proof. reflexivity. Qed.

Example split_trailing : split 47 (u "E04/") = [u "E04"; []].
Proof. reflexivity. Qed.

Example strip_spaces : strip (0x3000 :: u "  E04 " ++ [9; 10]) = u "E04".
Proof. reflexivity. Qed.

Example str_of_int_negative : str_of_int (-1001) = u "-1001".
Proof. reflexivity. Qed.

Example strptime_iso : strptime (u "2025-11-03") (u "%Y-%m-%d") = Some (2025, 11, 3)%Z.
Proof. reflexivity. Qed.

Example strptime_short_fields : strptime (u "2025-1-3") (u "%Y-%m-%d") = Some (2025, 1, 3)%Z.
Proof. reflexivity. Qed.

Example strptime_no_such_day : strptime (u "2025-02-29") (u "%Y-%m-%d") = None.
Proof. reflexivity. Qed.

Example strptime_leap_day : strptime (u "2024-02-29") (u "%Y-%m-%d") = Some (2024, 2, 29)%Z.
Proof. reflexivity. Qed.

Example strptime_unconverted : strptime (u "2025-01-311") (u "%Y-%m-%d") = None.
Proof. reflexivity. Qed.

Example parse_date_slashes : _parse_date (u " 2025/11/03 ") = Some (2025, 11, 3)%Z.
Proof. reflexivity. Qed.

Example parse_date_us : _parse_date (u "11/03/2025") = Some (2025, 11, 3)%Z.
Proof. reflexivity. Qed.

Example parse_date_cjk : _parse_date (u "2025年11月03日") = Some (2025, 11, 3)%Z.
Proof. reflexivity. Qed.

Example parse_date_search : _parse_date (u "Wed 2025-10-01 (am)") = Some (2025, 10, 1)%Z.
Proof. reflexivity. Qed.

Example parse_date_last_resort :
  _parse_date (u "20251001") = fromisoformat (u "20251001").
Proof. reflexivity. Qed.

Example normalize_keyword : _normalize_shift_type (VStr (u "B 二線人力")) = u "D".
Proof. reflexivity. Qed.

Example normalize_evening : _normalize_shift_type (VStr (u "小夜")) = u "E".
Proof. reflexivity. Qed.

Example normalize_night : _normalize_shift_type (VStr (u " night ")) = u "N".
Proof. reflexivity. Qed.

Example normalize_off : _normalize_shift_type (VStr (u "休假")) = u "OFF".
Proof. reflexivity. Qed.

Example normalize_unknown : _normalize_shift_type (VStr (u "on call")) = u "D".
Proof. reflexivity. Qed.

Example identifier_column_order :
  find_identifier_column [u "name"; u "2025-01-01"; u "員工"] = Some (u "員工").
Proof. reflexivity. Qed.

(** The two tests for a rate limit differ on the words "rate limit": a
    returned error with them is rate-limited, a raised exception is not. *)
Example rate_limit_words :
  rate_limited (Returned (failure_data (u "Rate limit exceeded"))) = true
  ∧ rate_limited (Raised (u "Rate limit exceeded")) = false
  ∧ rate_limited (Raised (u "HttpError 429")) = true.
Proof. by vm_compute. Qed.

(** ** Strings *)

Lemma str_eqb_true (a b : pystr) : str_eqb a b = true <-> a = b.
Proof. unfold str_eqb. apply bool_decide_eq_true. Qed.

Lemma str_eqb_false (a b : pystr) : str_eqb a b = false <-> a <> b.
Proof. unfold str_eqb. apply bool_decide_eq_false. Qed.

Lemma str_eqb_refl (a : pystr) : str_eqb a a = true.
Proof. by apply str_eqb_true. Qed.

(** ** Dictionaries in insertion order *)

Lemma pydict_get_app {V} (d : pydict V) (k : pystr) (v : V) (k' : pystr) :
  pydict_get (d ++ [(k, v)]) k'
  = match pydict_get d k' with
    | Some x => Some x
    | None => if decide (k' = k) then Some v else None
    end.
Proof.
  unfold pydict_get. induction d as [|[a b] d IH]; simpl.
  - unfold str_eqb. destruct (decide (k' = k)) as [->|Hne].
    + by rewrite bool_decide_eq_true_2.
    + rewrite bool_decide_eq_false_2; [done | congruence].
  - destruct (str_eqb a k'); [done | exact IH].
Qed.

Lemma pydict_get_replace {V} (d : pydict V) (k : pystr) (v : V) (k' : pystr) :
  pydict_get (map (fun kv => if str_eqb (fst kv) k then (k, v) else kv) d) k'
  = if decide (k' = k)
    then match pydict_get d k with Some _ => Some v | None => None end
    else pydict_get d k'.
Proof.
  unfold pydict_get. destruct (decide (k' = k)) as [->|Hne].
  - induction d as [|[a b] d IH]; simpl; [done|].
    destruct (str_eqb a k) eqn:Hak; simpl.
    + by rewrite str_eqb_refl.
    + by rewrite Hak.
  - induction d as [|[a b] d IH]; simpl; [done|].
    destruct (str_eqb a k) eqn:Hak; simpl.
    + apply str_eqb_true in Hak as ->.
      by rewrite (proj2 (str_eqb_false k k')) by congruence.
    + by destruct (str_eqb a k').
Qed.

(** Reading a dictionary after an assignment. *)
Lemma pydict_get_set {V} (d : pydict V) (k : pystr) (v : V) (k' : pystr) :
  pydict_get (pydict_set d k v) k' = if decide (k' = k) then Some v else pydict_get d k'.
Proof.
  unfold pydict_set. destruct (pydict_get d k) as [x|] eqn:Hk.
  - rewrite pydict_get_replace. by rewrite Hk.
  - rewrite pydict_get_app. destruct (decide (k' = k)) as [->|]; [by rewrite Hk|].
    by destruct (pydict_get d k').
Qed.

(** ** The identifier dictionary *)

Lemma pydict_get_parts (d : pydict pystr) (uid : pystr) (parts : list pystr) (s : pystr) :
  pydict_get (fold_left (fun d part =>
                           if negb (str_eqb (strip part) [])
                           then pydict_set d (strip part) uid
                           else d) parts d) s
  = if bool_decide (s ∈ List.filter (fun part => negb (str_eqb part [])) (map strip parts))
    then Some uid
    else pydict_get d s.
Proof.
  revert d. induction parts as [|p parts IH]; intros d.
  - simpl fold_left. rewrite bool_decide_eq_false_2; [done | apply not_elem_of_nil].
  - simpl fold_left. simpl map. simpl List.filter. rewrite IH. destruct (negb (str_eqb (strip p) [])) eqn:Hp; simpl.
    + destruct (bool_decide (s ∈ List.filter (fun part => negb (str_eqb part []))
                                 (map strip parts))) eqn:Hin.
      * apply bool_decide_eq_true in Hin.
        rewrite bool_decide_eq_true_2; [done | by right].
      * apply bool_decide_eq_false in Hin. rewrite pydict_get_set.
        destruct (decide (s = strip p)) as [->|Hne].
        -- rewrite bool_decide_eq_true_2; [done | by left].
        -- rewrite bool_decide_eq_false_2; [done|].
           intros [?|?]%elem_of_cons; done.
    + done.
Qed.

(** One mapping stores its user under each of its keys and leaves the
    other keys alone. *)
Lemma pydict_get_add_mapping (d : pydict pystr) (m : EmployeeMapping) (s : pystr) :
  pydict_get (add_mapping d m) s
  = if bool_decide (s ∈ link_keys m) then Some (userID m) else pydict_get d s.
Proof.
  unfold add_mapping, link_keys.
  destruct (sheets_name_id m) as [name_id|].
  2: { rewrite pydict_get_set. destruct (decide (s = sheets_identifier m)) as [->|Hne].
       - rewrite bool_decide_eq_true_2; [done | by left].
       - rewrite bool_decide_eq_false_2; [done|]. by intros [?|?%elem_of_nil]%elem_of_cons. }
  destruct (str_eqb name_id []).
  { rewrite pydict_get_set. destruct (decide (s = sheets_identifier m)) as [->|Hne].
    - rewrite bool_decide_eq_true_2; [done | by left].
    - rewrite bool_decide_eq_false_2; [done|]. by intros [?|?%elem_of_nil]%elem_of_cons. }
  destruct (contains (u "/") name_id).
  - rewrite pydict_get_parts.
    destruct (bool_decide (s ∈ List.filter (fun part => negb (str_eqb part []))
                               (map strip (split 47 name_id)))) eqn:Hin.
    + apply bool_decide_eq_true in Hin.
      rewrite bool_decide_eq_true_2; [done | by do 2 right].
    + apply bool_decide_eq_false in Hin. rewrite !pydict_get_set.
      destruct (decide (s = name_id)) as [->|Hn].
      * rewrite bool_decide_eq_true_2; [done | right; by left].
      * destruct (decide (s = sheets_identifier m)) as [->|Hi].
        -- rewrite bool_decide_eq_true_2; [done | by left].
        -- rewrite bool_decide_eq_false_2; [done|].
           intros [?|[?|?]%elem_of_cons]%elem_of_cons; done.
  - rewrite !pydict_get_set.
    destruct (decide (s = name_id)) as [->|Hn].
    + rewrite bool_decide_eq_true_2; [done | right; by left].
    + destruct (decide (s = sheets_identifier m)) as [->|Hi].
      * rewrite bool_decide_eq_true_2; [done | by left].
      * rewrite bool_decide_eq_false_2; [done|].
        intros [?|[?|?%elem_of_nil]%elem_of_cons]%elem_of_cons; done.
Qed.

Lemma pydict_get_fold_mappings (ms : list EmployeeMapping) (d : pydict pystr) (s : pystr) :
  pydict_get (fold_left add_mapping ms d) s
  = match exact_link ms s with
    | Some m => Some (userID m)
    | None => pydict_get d s
    end.
Proof.
  revert d. induction ms as [|m ms IH]; intros d; simpl; [done|].
  rewrite IH. destruct (exact_link ms s) as [m'|]; [done|].
  rewrite pydict_get_add_mapping. by destruct (bool_decide (s ∈ link_keys m)).
Qed.



(** ** The cache table *)

Lemma lookup_clear_user_schedule (usr t : pystr) (c : cache_table) (u' t' : pystr) (d : date) :
  clear_user_schedule usr t c !! (u', t', d)
  = if decide (u' = usr ∧ t' = t) then None else c !! (u', t', d).
Proof.
  unfold clear_user_schedule. apply option_eq. intros e.
  rewrite map_lookup_filter_Some. simpl.
  destruct (decide (u' = usr ∧ t' = t)) as [H|H]; split; try done; tauto.
Qed.

Lemma lookup_session_merge (usr t : pystr) (d : date) (e : CachedSchedule) (c : cache_table) (k : cache_key) :
  session_merge usr t d e c !! k = if decide (k = (usr, t, d)) then Some e else c !! k.
Proof.
  unfold session_merge. destruct (decide (k = (usr, t, d))) as [->|H].
  - apply lookup_insert_eq.
  - by apply lookup_insert_ne.
Qed.

(** ** One row *)

Lemma process_cell_entry (t usr : pystr) (cells : gmap pystr PyVal) (st : cache_table * nat) (col : pystr) :
  process_cell t usr cells st col
  = match cell_entry cells col with
    | Some (d, e) => (session_merge usr t d e (fst st), S (snd st))
    | None => st
    end.
Proof.
  unfold process_cell, cell_entry, blank_cell.
  destruct (_parse_date col) as [d|]; [|done].
  destruct (row_get cells col (VStr [])) as [|s|z]; simpl; [done| |].
  - by destruct (str_eqb (strip s) [] || str_eqb (upper (strip s)) (u "NULL")).
  - by destruct (str_eqb (strip (str_of_int z)) []
                 || str_eqb (upper (strip (str_of_int z))) (u "NULL")).
Qed.

Lemma stored_cells_cons (cells : gmap pystr PyVal) (col : pystr) (cols : list pystr) :
  stored_cells cells (col :: cols)
  = (match cell_entry cells col with Some _ => 1 | None => 0 end + stored_cells cells cols)%nat.
Proof.
  unfold stored_cells. simpl.
  by destruct (cell_entry cells col) as [[d e]|].
Qed.

(** The inner loop: the entries of (user, target) follow the staged map,
    every other entry is left alone, and the count grows by the number of
    cells written. *)
Lemma fold_cells_spec (t usr : pystr) (cells : gmap pystr PyVal) (cols : list pystr)
    (c : cache_table) (n : nat) (m : gmap date CachedSchedule) :
  (∀ d, c !! (usr, t, d) = m !! d) ->
  ∃ c', fold_left (process_cell t usr cells) cols (c, n)
        = (c', (n + stored_cells cells cols)%nat)
    ∧ (∀ d, c' !! (usr, t, d) = staged_from cells cols m !! d)
    ∧ (∀ (u' t' : pystr) (d : date), ¬ (u' = usr ∧ t' = t) -> c' !! (u', t', d) = c !! (u', t', d)).
Proof.
  revert c n m. induction cols as [|col cols IH]; intros c n m Hcm.
  - exists c. simpl. unfold stored_cells. simpl.
    rewrite Nat.add_0_r. done.
  - simpl fold_left. rewrite process_cell_entry. rewrite stored_cells_cons.
    unfold staged_from. simpl fold_left.
    destruct (cell_entry cells col) as [[d e]|]; simpl fst; simpl snd.
    + destruct (IH (session_merge usr t d e c) (S n) (<[d := e]> m)) as (c' & Hf & Hin & Hout).
      { intros d'. rewrite lookup_session_merge.
        destruct (decide ((usr, t, d') = (usr, t, d))) as [Heq|Hne].
        - inversion Heq; subst. by rewrite lookup_insert_eq.
        - rewrite lookup_insert_ne; [apply Hcm | congruence]. }
      exists c'. split; [|split].
      * rewrite Hf. f_equal. lia.
      * exact Hin.
      * intros u' t' d' Hne. rewrite (Hout _ _ _ Hne). rewrite lookup_session_merge.
        destruct (decide ((u', t', d') = (usr, t, d))) as [Heq|]; [|done].
        inversion Heq; subst. tauto.
    + destruct (IH c n m Hcm) as (c' & Hf & Hin & Hout).
      exists c'. split; [|done]. rewrite Hf. f_equal.
Qed.

Lemma process_row_user (t idcol : pystr) (cols : list pystr) (i2u : pydict pystr)
    (c : cache_table) (n : nat) (s : gset pystr) (row : Row) :
  process_row t idcol cols i2u (c, n, s) row
  = match row_user idcol i2u row with
    | None => (c, n, s)
    | Some (usr, cells) =>
        let '(c', n') := fold_left (process_cell t usr cells) (date_columns_of idcol cols)
                                   (clear_user_schedule usr t c, n) in
        (c', n', s ∪ {[usr]})
    end.
Proof.
  unfold process_row, row_user. destruct row as [cells|]; [|done].
  destruct (negb (truthy (row_get cells idcol (VStr [])))); [done|].
  destruct (find_user i2u (strip (py_str (row_get cells idcol (VStr []))))) as [usr|]; [|done].
  destruct (str_eqb usr []); done.
Qed.

(** One stored row replaces the entries of its user and target by the
    staged entries of the row. *)
Lemma process_row_spec (t idcol : pystr) (cols : list pystr) (i2u : pydict pystr)
    (c : cache_table) (n : nat) (s : gset pystr) (row : Row) :
  ∃ c', process_row t idcol cols i2u (c, n, s) row
        = (c',
           (n + match row_user idcol i2u row with
                | Some (_, cells) => stored_cells cells (date_columns_of idcol cols)
                | None => 0
                end)%nat,
           s ∪ match row_user idcol i2u row with
               | Some (usr, _) => {[usr]}
               | None => ∅
               end)
    ∧ ∀ (u' t' : pystr) (d : date),
        c' !! (u', t', d)
        = match row_user idcol i2u row with
          | Some (usr, cells) =>
              if decide (u' = usr ∧ t' = t)
              then staged cells (date_columns_of idcol cols) !! d
              else c !! (u', t', d)
          | None => c !! (u', t', d)
          end.
Proof.
  rewrite process_row_user. destruct (row_user idcol i2u row) as [[usr cells]|].
  - destruct (fold_cells_spec t usr cells (date_columns_of idcol cols)
                (clear_user_schedule usr t c) n ∅) as (c' & Hf & Hin & Hout).
    { intros d. rewrite lookup_clear_user_schedule, lookup_empty.
      by rewrite decide_True. }
    exists c'. rewrite Hf. split; [done|].
    intros u' t' d. destruct (decide (u' = usr ∧ t' = t)) as [[-> ->]|Hne].
    + apply Hin.
    + rewrite (Hout _ _ _ Hne), lookup_clear_user_schedule. by rewrite decide_False.
  - exists c. split; [|done]. f_equal; [f_equal; lia|]. by rewrite (right_id_L ∅ (∪)).
Qed.

(** ** The staged entries of a row *)

Lemma staged_from_cons (cells : gmap pystr PyVal) (col : pystr) (cols : list pystr)
    (m : gmap date CachedSchedule) :
  staged_from cells (col :: cols) m
  = staged_from cells cols (match cell_entry cells col with
                            | Some (d, e) => <[d := e]> m
                            | None => m
                            end).
Proof. done. Qed.

(** A date that no column of the row yields keeps what the map had. *)
Lemma staged_from_absent (cells : gmap pystr PyVal) (cols : list pystr)
    (m : gmap date CachedSchedule) (d : date) :
  (∀ col e, col ∈ cols -> cell_entry cells col ≠ Some (d, e)) ->
  staged_from cells cols m !! d = m !! d.
Proof.
  revert m. induction cols as [|col cols IH]; intros m Hno; [done|].
  rewrite staged_from_cons, IH.
  - destruct (cell_entry cells col) as [[d' e']|] eqn:He; [|done].
    rewrite lookup_insert_ne; [done|]. intros ->.
    by apply (Hno col e'); [left|].
  - intros col' e' Hin. apply Hno. by right.
Qed.

(** Every staged entry was in the map or comes from a column of the row. *)
Lemma staged_from_entry (cells : gmap pystr PyVal) (cols : list pystr)
    (m : gmap date CachedSchedule) (d : date) (e : CachedSchedule) :
  staged_from cells cols m !! d = Some e ->
  m !! d = Some e ∨ ∃ col, col ∈ cols ∧ cell_entry cells col = Some (d, e).
Proof.
  revert m. induction cols as [|col cols IH]; intros m Hst; [by left|].
  rewrite staged_from_cons in Hst. apply IH in Hst as [Hm|(col' & Hin & He)].
  - destruct (cell_entry cells col) as [[d' e']|] eqn:He; [|by left].
    destruct (decide (d' = d)) as [->|Hne].
    + rewrite lookup_insert_eq in Hm. inversion Hm; subst.
      right. exists col. split; [by left | done].
    + rewrite lookup_insert_ne in Hm by done. by left.
  - right. exists col'. split; [by right | done].
Qed.

Lemma elem_of_date_columns (idcol col : pystr) (cols : list pystr) :
  col ∈ date_columns_of idcol cols <-> col ∈ cols ∧ col ≠ idcol.
Proof.
  unfold date_columns_of. rewrite list_elem_of_In, filter_In, <- list_elem_of_In.
  rewrite negb_true_iff, str_eqb_false. done.
Qed.

(** ** Shift codes *)

Lemma str_in_true (x : pystr) (l : list pystr) : str_in x l = true <-> x ∈ l.
Proof. unfold str_in. apply bool_decide_eq_true. Qed.

(** [_normalize_shift_type] returns one of the four codes. *)
Lemma normalize_shift_type_codes (v : PyVal) :
  _normalize_shift_type v ∈ [u "D"; u "E"; u "N"; u "OFF"].
Proof.
  unfold _normalize_shift_type.
  repeat match goal with
         | |- context [if ?b then _ else _] => destruct b eqn:?
         end;
    try (apply list_elem_of_In; simpl; tauto).
  apply andb_true_iff in Heqb5 as [_ Hin]. apply str_in_true in Hin.
  apply list_elem_of_In in Hin. apply list_elem_of_In. simpl in *. tauto.
Qed.

(** Stripping and upper-casing commute. *)
Lemma isspace_upper_char (c : N) : isspace (upper_char c) = isspace c.
Proof.
  unfold upper_char. destruct ((97 <=? c) && (c <=? 122)) eqn:H; [|done].
  apply andb_true_iff in H as [H1 H2]. apply N.leb_le in H1, H2.
  assert (Hc : isspace c = false).
  { unfold isspace.
    rewrite (proj2 (N.leb_gt c 13)), (proj2 (N.leb_gt c 32)) by lia.
    rewrite (proj2 (N.eqb_neq c 133)), (proj2 (N.eqb_neq c 160)),
      (proj2 (N.eqb_neq c 5760)), (proj2 (N.leb_gt 8192 c)), (proj2 (N.eqb_neq c 8232)),
      (proj2 (N.eqb_neq c 8233)), (proj2 (N.eqb_neq c 8239)), (proj2 (N.eqb_neq c 8287)),
      (proj2 (N.eqb_neq c 12288)) by lia.
    by rewrite !andb_false_r. }
  rewrite Hc. unfold isspace.
  rewrite (proj2 (N.leb_gt (c - 32) 13)), (proj2 (N.leb_gt (c - 32) 32)) by lia.
  rewrite (proj2 (N.eqb_neq (c - 32) 133)), (proj2 (N.eqb_neq (c - 32) 160)),
    (proj2 (N.eqb_neq (c - 32) 5760)), (proj2 (N.leb_gt 8192 (c - 32))),
    (proj2 (N.eqb_neq (c - 32) 8232)), (proj2 (N.eqb_neq (c - 32) 8233)),
    (proj2 (N.eqb_neq (c - 32) 8239)), (proj2 (N.eqb_neq (c - 32) 8287)),
    (proj2 (N.eqb_neq (c - 32) 12288)) by lia.
  by rewrite !andb_false_r.
Qed.

Lemma lstrip_upper (s : pystr) : lstrip (upper s) = upper (lstrip s).
Proof.
  induction s as [|c s IH]; [done|]. simpl. rewrite isspace_upper_char.
  by destruct (isspace c).
Qed.

Lemma strip_upper (s : pystr) : strip (upper s) = upper (strip s).
Proof.
  unfold strip, rstrip, upper. rewrite lstrip_upper. unfold upper.
  rewrite <- map_rev, lstrip_upper. unfold upper. by rewrite map_rev.
Qed.

(** The classifier maps the cells the loop skips to OFF. *)
Lemma normalize_blank_is_off (v : PyVal) :
  blank_cell v = true -> _normalize_shift_type v = u "OFF".
Proof.
  intros Hb. unfold _normalize_shift_type.
  destruct (negb (truthy v)) eqn:Ht; [done|].
  rewrite strip_upper.
  assert (Hin : str_in (upper (strip (py_str v))) [u "OFF"; u "休"; u "休假"; u "NULL"; []] = true).
  { apply str_in_true. destruct v as [|s|z]; [done| |]; simpl in Hb |- *;
      apply orb_true_iff in Hb as [Hb|Hb]; apply str_eqb_true in Hb; rewrite Hb;
      apply list_elem_of_In; simpl; tauto. }
  by rewrite Hin.
Qed.

(** ** All rows *)

Lemma fold_rows_spec (t idcol : pystr) (cols : list pystr) (i2u : pydict pystr)
    (rows : list Row) (c : cache_table) (n : nat) (s : gset pystr) :
  ∃ c', fold_left (process_row t idcol cols i2u) rows (c, n, s)
        = (c', (n + stored_rows idcol cols i2u rows)%nat, s ∪ resolved_users idcol i2u rows)
    ∧ ∀ (u' t' : pystr) (d : date),
        c' !! (u', t', d)
        = if decide (t' = t)
          then match last_cells_for idcol i2u rows u' with
               | Some cells => staged cells (date_columns_of idcol cols) !! d
               | None => c !! (u', t', d)
               end
          else c !! (u', t', d).
Proof.
  revert c n s. induction rows as [|row rows IH]; intros c n s.
  - exists c. simpl. unfold stored_rows, resolved_users. simpl.
    rewrite Nat.add_0_r, (right_id_L ∅ (∪)). split; [done|]. intros. by destruct (decide _).
  - simpl fold_left.
    destruct (process_row_spec t idcol cols i2u c n s row) as (c1 & Hrow & Hc1).
    rewrite Hrow.
    destruct (IH c1 (n + match row_user idcol i2u row with
                         | Some (_, cells) => stored_cells cells (date_columns_of idcol cols)
                         | None => 0
                         end)%nat
                 (s ∪ match row_user idcol i2u row with
                      | Some (usr, _) => {[usr]}
                      | None => ∅
                      end)) as (c' & Hf & Hc').
    exists c'. split.
    + rewrite Hf. unfold stored_rows, resolved_users. simpl.
      f_equal; [f_equal; lia|].
      destruct (row_user idcol i2u row) as [[usr cells]|]; simpl.
      * by rewrite (assoc_L (∪)).
      * by rewrite (right_id_L ∅ (∪)).
    + intros u' t' d. rewrite Hc'. simpl.
      destruct (decide (t' = t)) as [->|Hne].
      * destruct (last_cells_for idcol i2u rows u') as [cells|]; [done|].
        rewrite Hc1. destruct (row_user idcol i2u row) as [[usr cells]|]; [|done].
        destruct (decide (usr = u')) as [->|Hu].
        -- by rewrite decide_True.
        -- rewrite decide_False; [done|]. intros [? _]. congruence.
      * rewrite Hc1. destruct (row_user idcol i2u row) as [[usr cells]|]; [|done].
        rewrite decide_False; [done|]. tauto.
Qed.


(** ** Rows and users *)

Lemma row_user_dict (idcol : pystr) (i2u : pydict pystr) (row : Row) (usr : pystr)
    (cells : gmap pystr PyVal) :
  row_user idcol i2u row = Some (usr, cells) -> row = RowDict cells.
Proof.
  unfold row_user. destruct row as [cells'|]; [|done].
  destruct (negb (truthy (row_get cells' idcol (VStr [])))); [done|].
  destruct (find_user i2u (strip (py_str (row_get cells' idcol (VStr []))))) as [uid|]; [|done].
  destruct (str_eqb uid []); [done|]. by intros [= _ ->].
Qed.

(** The last row stored for a user is a row of the snapshot that resolves
    to the user. *)
Lemma last_cells_for_row (idcol : pystr) (i2u : pydict pystr) (rows : list Row)
    (usr : pystr) (cells : gmap pystr PyVal) :
  last_cells_for idcol i2u rows usr = Some cells ->
  RowDict cells ∈ rows ∧ row_user idcol i2u (RowDict cells) = Some (usr, cells).
Proof.
  induction rows as [|row rows IH]; simpl; [done|].
  destruct (last_cells_for idcol i2u rows usr) as [c|].
  - intros [= ->]. destruct (IH eq_refl) as [Hin Hu]. split; [by right | done].
  - destruct (row_user idcol i2u row) as [[uid c]|] eqn:Hru; [|done].
    destruct (decide (uid = usr)) as [->|]; [|done]. intros [= ->].
    pose proof (row_user_dict _ _ _ _ _ Hru) as ->. split; [by left | done].
Qed.

(** A user is among the users synced exactly when some row is stored for it. *)
Lemma resolved_users_last (idcol : pystr) (i2u : pydict pystr) (rows : list Row)
    (usr : pystr) :
  usr ∈ resolved_users idcol i2u rows <-> is_Some (last_cells_for idcol i2u rows usr).
Proof.
  unfold resolved_users. induction rows as [|row rows IH]; simpl.
  - rewrite elem_of_empty. split; [done | by intros [? ?]].
  - destruct (row_user idcol i2u row) as [[uid c]|] eqn:Hru; simpl.
    + rewrite elem_of_union, elem_of_singleton, IH.
      destruct (last_cells_for idcol i2u rows usr) as [c'|].
      * split; [by eexists | by right].
      * destruct (decide (uid = usr)) as [->|Hne].
        -- split; [by eexists | by left].
        -- split; [intros [?|[? ?]]; congruence | by intros [? ?]].
    + rewrite IH. by destruct (last_cells_for idcol i2u rows usr).
Qed.

Lemma resolved_users_list (idcol : pystr) (i2u : pydict pystr) (rows : list Row) :
  resolved_users idcol i2u rows = list_to_set (resolved_list idcol i2u rows).
Proof. done. Qed.

Lemma resolved_list_length (idcol : pystr) (i2u : pydict pystr) (rows : list Row) :
  (length (resolved_list idcol i2u rows)
   + length (List.filter (unresolved idcol i2u) rows) = length rows)%nat.
Proof.
  unfold resolved_list, unresolved. induction rows as [|row rows IH]; simpl; [done|].
  destruct (row_user idcol i2u row) as [[uid c]|]; simpl.
  - f_equal. exact IH.
  - rewrite Nat.add_succ_r. f_equal. exact IH.
Qed.

(** A stored row with a written cell makes the row count positive. *)
Lemma stored_rows_pos (idcol : pystr) (cols : list pystr) (i2u : pydict pystr)
    (rows : list Row) (row : Row) (usr : pystr) (cells : gmap pystr PyVal) (col : pystr) :
  row ∈ rows ->
  row_user idcol i2u row = Some (usr, cells) ->
  col ∈ date_columns_of idcol cols ->
  is_Some (cell_entry cells col) ->
  (0 < stored_rows idcol cols i2u rows)%nat.
Proof.
  intros Hin Hru Hcol Hce. unfold stored_rows.
  assert (Hsc : (0 < stored_cells cells (date_columns_of idcol cols))%nat).
  { clear Hin Hru. induction (date_columns_of idcol cols) as [|c l IH].
    - by apply elem_of_nil in Hcol.
    - rewrite stored_cells_cons. apply elem_of_cons in Hcol as [<-|Hcol].
      + destruct Hce as [x ->]. lia.
      + specialize (IH Hcol). lia. }
  induction rows as [|r rows IH]; [by apply elem_of_nil in Hin|].
  simpl. apply elem_of_cons in Hin as [<-|Hin].
  - rewrite Hru. lia.
  - specialize (IH Hin). lia.
Qed.

Lemma cell_entry_Some (cells : gmap pystr PyVal) (col : pystr) (d : date)
    (e : CachedSchedule) :
  cell_entry cells col = Some (d, e) ->
  _parse_date col = Some d
  ∧ blank_cell (row_get cells col (VStr [])) = false
  ∧ e = {| shift_type :=
             _normalize_shift_type (VStr (strip (py_str (row_get cells col (VStr [])))));
           time_range :=
             _get_time_range
               (_normalize_shift_type (VStr (strip (py_str (row_get cells col (VStr [])))))) |}.
Proof.
  unfold cell_entry. destruct (_parse_date col) as [d'|]; [|done].
  destruct (blank_cell (row_get cells col (VStr []))); [done|].
  by intros [= <- <-].
Qed.

(** ** [_store_schedule_data] *)

Lemma set_cached_schedules_id (w : World) : set_cached_schedules w (cached_schedules w) = w.
Proof. by destruct w. Qed.

Lemma store_unfold (id : pystr) (sd : SheetsData) (w : World) :
  _store_schedule_data id sd w
  = match parsed_table sd with
    | None => (w, (0, 0)%nat)
    | Some (idcol, cols, rows) =>
        let '(c, n, s) := fold_left (process_row id idcol cols (identifier_map id w)) rows
                                    (cached_schedules w, 0%nat, ∅) in
        (set_cached_schedules w c, (n, size s))
    end.
Proof.
  unfold _store_schedule_data, parsed_table, identifier_map.
  destruct (sd_final_output sd) as [fo|]; [|done].
  destruct (fo_success fo); simpl; [|done].
  destruct (bool_decide (fo_data fo = [])); simpl; [done|].
  destruct (bool_decide (fo_columns fo = [])); simpl; [done|].
  by destruct (find_identifier_column (fo_columns fo)).
Qed.

(** What the store step does to the table and what it counts. *)
Lemma store_spec (id : pystr) (sd : SheetsData) (w : World) :
  ∃ c', _store_schedule_data id sd w = (set_cached_schedules w c', store_counts id sd w)
    ∧ ∀ (u' t' : pystr) (d : date),
        c' !! (u', t', d)
        = if decide (t' = id)
          then match snapshot_entries id sd w u' with
               | Some m => m !! d
               | None => cached_schedules w !! (u', t', d)
               end
          else cached_schedules w !! (u', t', d).
Proof.
  rewrite store_unfold. unfold store_counts, snapshot_entries.
  destruct (parsed_table sd) as [[[idcol cols] rows]|].
  - destruct (fold_rows_spec id idcol cols (identifier_map id w) rows
                (cached_schedules w) 0 ∅) as (c' & Hf & Hc').
    exists c'. rewrite Hf. split.
    + simpl. by rewrite (left_id_L ∅ (∪)).
    + intros u' t' d. rewrite Hc'.
      by destruct (last_cells_for idcol (identifier_map id w) rows u').
  - exists (cached_schedules w). rewrite set_cached_schedules_id. split; [done|].
    intros. by destruct (decide _).
Qed.

(** The views of the store step read the mappings only. *)
Lemma identifier_map_ext (id : pystr) (w w' : World) :
  employee_mappings w = employee_mappings w' -> identifier_map id w = identifier_map id w'.
Proof. unfold identifier_map, active_mappings. by intros ->. Qed.

Lemma store_counts_ext (id : pystr) (sd : SheetsData) (w w' : World) :
  employee_mappings w = employee_mappings w' -> store_counts id sd w = store_counts id sd w'.
Proof. intros H. unfold store_counts. by rewrite (identifier_map_ext id w w' H). Qed.

Lemma snapshot_entries_ext (id : pystr) (sd : SheetsData) (w w' : World) (usr : pystr) :
  employee_mappings w = employee_mappings w' ->
  snapshot_entries id sd w usr = snapshot_entries id sd w' usr.
Proof. intros H. unfold snapshot_entries. by rewrite (identifier_map_ext id w w' H). Qed.

(** ** [_fetch_with_retry] *)

(** The retry loop touches no table: only the call counter, the clock and
    the sleeps move. *)
Lemma fetch_loop_tables (id : pystr) (mx : Z) (dl : Q) (n a : nat) (w : World) :
  let w' := fst (fetch_loop id mx dl n a w) in
  schedule_definitions w' = schedule_definitions w
  ∧ employee_mappings w' = employee_mappings w
  ∧ cached_schedules w' = cached_schedules w
  ∧ sync_logs w' = sync_logs w.
Proof.
  revert a w. induction n as [|n IH]; intros a w; simpl; [done|].
  destruct (fetch_schedule_data (fetch_calls w) id) as [sd|msg].
  - destruct (sd_success sd); [done|].
    destruct (is_rate_limit_error (default [] (sd_error sd))); [|done].
    destruct (Z.of_nat a <? mx - 1)%Z; [|done].
    apply (IH (S a) (sleep (backoff_delay dl a) (count_fetch w))).
  - destruct ((Z.of_nat a <? mx - 1)%Z && is_rate_limit_exception msg); [|done].
    apply (IH (S a) (sleep (backoff_delay dl a) (count_fetch w))).
Qed.

(** What is fetched depends on the world through the call counter only. *)
Lemma fetch_loop_data_ext (id : pystr) (mx : Z) (dl : Q) (n a : nat) (w w' : World) :
  fetch_calls w = fetch_calls w' ->
  snd (fetch_loop id mx dl n a w) = snd (fetch_loop id mx dl n a w').
Proof.
  revert a w w'. induction n as [|n IH]; intros a w w' Hc; simpl; [done|].
  rewrite <- Hc.
  destruct (fetch_schedule_data (fetch_calls w) id) as [sd|msg].
  - destruct (sd_success sd); [done|].
    destruct (is_rate_limit_error (default [] (sd_error sd))); [|done].
    destruct (Z.of_nat a <? mx - 1)%Z; [|done].
    apply IH. simpl. by rewrite Hc.
  - destruct ((Z.of_nat a <? mx - 1)%Z && is_rate_limit_exception msg); [|done].
    apply IH. simpl. by rewrite Hc.
Qed.

(** ** The sync log *)

Lemma alter_last {A} (f : A -> A) (l : list A) (x : A) :
  alter f (length l) (l ++ [x]) = l ++ [f x].
Proof. induction l as [|y l IH]; simpl; [done|]. by rewrite <- IH. Qed.


(** ** [sync_schedule_data], case by case *)

Lemma sync_not_found (id ty : pystr) (by_ : option pystr) (force : bool) (w : World) :
  schedule_definitions w !! id = None ->
  sync_schedule_data id ty by_ force w
  = (w, failure_result (u "Schedule definition not found: " ++ id)).
Proof. intros H. unfold sync_schedule_data. by rewrite H. Qed.

Lemma sync_skipped (id ty : pystr) (by_ : option pystr) (force : bool) (w : World)
    (def : ScheduleDefinition) :
  schedule_definitions w !! id = Some def ->
  freshness_passed id force w = false ->
  sync_schedule_data id ty by_ force w
  = (w, skipped_result (get_last_sync id w ≫= log_completed_at)).
Proof.
  intros H Hg. unfold sync_schedule_data. rewrite H.
  unfold freshness_passed in Hg. apply orb_false_elim in Hg as [-> ->]. done.
Qed.

Lemma fetched_after_ticket (id : pystr) (w : World) (l : list SyncLog) :
  snd (_fetch_with_retry id 3 2 (set_sync_logs w l)) = fetched id w.
Proof. unfold fetched, _fetch_with_retry. by apply fetch_loop_data_ext. Qed.

(** A sync that passes the freshness check and whose fetch fails: the ticket is
    closed as failed, no table entry is touched. *)
Lemma sync_fetch_failed (id ty : pystr) (by_ : option pystr) (force : bool) (w : World)
    (def : ScheduleDefinition) :
  schedule_definitions w !! id = Some def ->
  freshness_passed id force w = true ->
  sd_success (fetched id w) = false ->
  let err := default (u "Unknown error") (sd_error (fetched id w)) in
  ∃ w', sync_schedule_data id ty by_ force w = (w', failure_result err)
    ∧ schedule_definitions w' = schedule_definitions w
    ∧ employee_mappings w' = employee_mappings w
    ∧ cached_schedules w' = cached_schedules w
    ∧ sync_logs w' = sync_logs w ++ [closed_ticket id def ty by_ w (clock w') 0 0 (Some err)].
Proof.
  intros H Hg Hs err. unfold sync_schedule_data. rewrite H.
  unfold freshness_passed in Hg. rewrite <- negb_orb, Hg. simpl negb. cbv iota.
  unfold create_sync_log.
  match goal with |- context [_fetch_with_retry id 3 2 ?w0] => set (w1 := w0) end.
  pose proof (fetched_after_ticket id w (sync_logs w1)) as Hfd.
  change (set_sync_logs w (sync_logs w1)) with w1 in Hfd.
  pose proof (fetch_loop_tables id 3 2 (Z.to_nat 3) 0 w1) as Hft.
  unfold _fetch_with_retry in *.
  destruct (fetch_loop id 3 2 (Z.to_nat 3) 0 w1) as [w2 sd].
  simpl in Hft, Hfd. destruct Hft as (Hd & Hm & Hc & Hl).
  subst sd. rewrite Hs. simpl negb. cbv iota.
  eexists. split; [reflexivity|].
  unfold mark_completed. simpl. rewrite Hl, alter_last. done.
Qed.

(** A sync that passes the freshness check and whose fetch succeeds: the snapshot is
    stored and the ticket is closed as a success. *)
Lemma sync_stored (id ty : pystr) (by_ : option pystr) (force : bool) (w : World)
    (def : ScheduleDefinition) :
  schedule_definitions w !! id = Some def ->
  freshness_passed id force w = true ->
  sd_success (fetched id w) = true ->
  let rows := fst (store_counts id (fetched id w) w) in
  let users := snd (store_counts id (fetched id w) w) in
  ∃ w', sync_schedule_data id ty by_ force w
        = (w', success_result rows users (clock w') (length (sync_logs w)))
    ∧ schedule_definitions w' = schedule_definitions w
    ∧ employee_mappings w' = employee_mappings w
    ∧ sync_logs w' = sync_logs w ++ [closed_ticket id def ty by_ w (clock w') rows users None]
    ∧ ∀ (u' t' : pystr) (d : date),
        cached_schedules w' !! (u', t', d)
        = if decide (t' = id)
          then match snapshot_entries id (fetched id w) w u' with
               | Some m => m !! d
               | None => cached_schedules w !! (u', t', d)
               end
          else cached_schedules w !! (u', t', d).
Proof.
  intros H Hg Hs rows users. unfold sync_schedule_data. rewrite H.
  unfold freshness_passed in Hg. rewrite <- negb_orb, Hg. simpl negb. cbv iota.
  unfold create_sync_log.
  match goal with |- context [_fetch_with_retry id 3 2 ?w0] => set (w1 := w0) end.
  pose proof (fetched_after_ticket id w (sync_logs w1)) as Hfd.
  change (set_sync_logs w (sync_logs w1)) with w1 in Hfd.
  pose proof (fetch_loop_tables id 3 2 (Z.to_nat 3) 0 w1) as Hft.
  unfold _fetch_with_retry in *.
  destruct (fetch_loop id 3 2 (Z.to_nat 3) 0 w1) as [w2 sd].
  simpl in Hft, Hfd. destruct Hft as (Hd & Hm & Hc & Hl).
  subst sd. rewrite Hs. simpl negb. cbv iota.
  destruct (store_spec id (fetched id w) w2) as (c' & Hst & Hc').
  rewrite Hst.
  assert (Hcnt : store_counts id (fetched id w) w2 = store_counts id (fetched id w) w)
    by (by apply store_counts_ext).
  rewrite Hcnt. fold rows users.
  destruct (store_counts id (fetched id w) w) as [r us] eqn:Hsc. simpl in rows, users.
  subst rows users.
  exists (mark_completed (length (sync_logs w)) r us None (set_cached_schedules w2 c')).
  split.
  - unfold mark_completed. simpl. rewrite Hl, alter_last.
    rewrite lookup_app_r by done. rewrite Nat.sub_diag. simpl. reflexivity.
  - simpl. split; [done|]. split; [done|]. split.
    + by rewrite Hl, alter_last.
    + intros u' t' d. rewrite Hc', Hc.
      by rewrite (snapshot_entries_ext id (fetched id w) w2 w u' Hm).
Qed.

(** ** The retry loop *)

(** The loop stops at the first call, number [k] from where it starts,
    whose outcome is not rate-limited or which is the last iteration; it
    has slept once before each of the [k] retries, with the delay of the
    attempt. *)
Lemma fetch_loop_stops (id : pystr) (mx : Z) (dl : Q) (k : nat) :
  ∀ (n a : nat) (w : World),
    (k < n)%nat ->
    Z.of_nat (a + n) = mx ->
    (∀ i, (i < k)%nat -> rate_limited (fetch_schedule_data (fetch_calls w + i)%nat id) = true) ->
    rate_limited (fetch_schedule_data (fetch_calls w + k)%nat id) = false ∨ S k = n ->
    ∃ w', fetch_loop id mx dl n a w
          = (w', outcome_data (fetch_schedule_data (fetch_calls w + k)%nat id))
      ∧ fetch_calls w' = (fetch_calls w + k + 1)%nat
      ∧ sleeps w' = sleeps w ++ map (backoff_delay dl) (seq a k)
      ∧ clock w' = fold_left Qplus (map (backoff_delay dl) (seq a k)) (clock w).
Proof.
  induction k as [|k IH]; intros n a w Hkn Hmx Hpre Hstop.
  - destruct n as [|n]; [lia|]. simpl fetch_loop.
    rewrite Nat.add_0_r in *. simpl seq. simpl map. rewrite app_nil_r. simpl fold_left.
    assert (Hw1 : fetch_calls (count_fetch w) = (fetch_calls w + 1)%nat)
      by (simpl; lia).
    destruct (fetch_schedule_data (fetch_calls w) id) as [sd|msg]; simpl in *.
    + destruct (sd_success sd); simpl in *; [by eexists|].
      destruct (is_rate_limit_error (default [] (sd_error sd))); [|by eexists].
      destruct Hstop as [|Hn]; [done|].
      assert (Hlt : (Z.of_nat a <? mx - 1)%Z = false) by (apply Z.ltb_ge; lia).
      rewrite Hlt. by eexists.
    + destruct Hstop as [->|Hn].
      * rewrite andb_false_r. by eexists.
      * assert (Hlt : (Z.of_nat a <? mx - 1)%Z = false) by (apply Z.ltb_ge; lia).
        rewrite Hlt. by eexists.
  - destruct n as [|n]; [lia|]. simpl fetch_loop.
    pose proof (Hpre 0%nat ltac:(lia)) as H0. rewrite Nat.add_0_r in H0.
    assert (Hlt : (Z.of_nat a <? mx - 1)%Z = true) by (apply Z.ltb_lt; lia).
    set (w2 := sleep (backoff_delay dl a) (count_fetch w)).
    assert (Hw2 : fetch_calls w2 = S (fetch_calls w)) by done.
    destruct (IH n (S a) w2) as (w' & Hf & Hc & Hsl & Hcl).
    { lia. }
    { lia. }
    { intros i Hi. rewrite Hw2. replace (S (fetch_calls w) + i)%nat
        with (fetch_calls w + S i)%nat by lia. apply Hpre. lia. }
    { rewrite Hw2. replace (S (fetch_calls w) + k)%nat
        with (fetch_calls w + S k)%nat by lia.
      destruct Hstop as [|Hn]; [by left | right; lia]. }
    rewrite Hw2 in Hf, Hc.
    replace (S (fetch_calls w) + k)%nat with (fetch_calls w + S k)%nat in Hf by lia.
    exists w'.
    destruct (fetch_schedule_data (fetch_calls w) id) as [sd|msg]; simpl in H0.
    + apply andb_true_iff in H0 as [Hns Hrl]. apply negb_true_iff in Hns.
      rewrite Hns, Hrl, Hlt. fold w2. rewrite Hf. split; [done|].
      split; [lia|]. split.
      * rewrite Hsl. subst w2. simpl. by rewrite <- app_assoc.
      * rewrite Hcl. by subst w2.
    + rewrite H0, Hlt. simpl andb. cbv iota. fold w2. rewrite Hf. split; [done|].
      split; [lia|]. split.
      * rewrite Hsl. subst w2. simpl. by rewrite <- app_assoc.
      * rewrite Hcl. by subst w2.
Qed.



(** With a fetcher that answers every call alike, what is fetched does
    not depend on the world. *)
Lemma fetch_loop_data_const (id : pystr) (mx : Z) (dl : Q) (o : FetchOutcome)
    (n a : nat) (w w' : World) :
  (∀ k, fetch_schedule_data k id = o) ->
  snd (fetch_loop id mx dl n a w) = snd (fetch_loop id mx dl n a w').
Proof.
  intros Hconst. revert a w w'. induction n as [|n IH]; intros a w w'; simpl; [done|].
  rewrite !Hconst. destruct o as [sd|msg].
  - destruct (sd_success sd); [done|].
    destruct (is_rate_limit_error (default [] (sd_error sd))); [|done].
    destruct (Z.of_nat a <? mx - 1)%Z; [|done]. apply IH.
  - destruct ((Z.of_nat a <? mx - 1)%Z && is_rate_limit_exception msg); [|done]. apply IH.
Qed.

(** * The properties of the specification *)



(** C1, as amended.  When the header of the fetched snapshot holds none of
    the acceptable identifier column names, the sync stores nothing and
    still succeeds: the result has success=true with rows_synced=0 and
    users_synced=0, the cache is unchanged, and the ticket is closed as a
    success with zero rows and no error message. *)
Theorem no_identifier_column_syncs_nothing (id ty : pystr) (by_ : option pystr)
    (force : bool) (w : World) (def : ScheduleDefinition) (fo : FinalOutput) :
  schedule_definitions w !! id = Some def ->
  freshness_passed id force w = true ->
  sd_success (fetched id w) = true ->
  sd_final_output (fetched id w) = Some fo ->
  find_identifier_column (fo_columns fo) = None ->
  let w' := fst (sync_schedule_data id ty by_ force w) in
  let r := snd (sync_schedule_data id ty by_ force w) in
  r = success_result 0 0 (clock w') (length (sync_logs w))
  ∧ cached_schedules w' = cached_schedules w
  ∧ ∃ ticket : SyncLog,
      sync_logs w' = sync_logs w ++ [ticket]
      ∧ log_status ticket = success
      ∧ log_rows_synced ticket = 0%nat
      ∧ log_users_synced ticket = 0%nat
      ∧ log_error_message ticket = None.
Proof.
  intros Hdef Hg Hs Hfo Hcol w' r. subst w' r.
  assert (Hpt : parsed_table (fetched id w) = None).
  { unfold parsed_table. rewrite Hfo, Hcol.
    by destruct (fo_success fo && negb (bool_decide (fo_data fo = []))
                 && negb (bool_decide (fo_columns fo = []))). }
  destruct (sync_stored id ty by_ force w def Hdef Hg Hs) as (w' & -> & _ & _ & Hl & Hc).
  unfold store_counts in *. unfold snapshot_entries in Hc. rewrite Hpt in *.
  simpl. split; [done|]. split.
  - apply map_eq. intros [[u' t'] d]. rewrite Hc. by destruct (decide (t' = id)).
  - eexists. split; [exact Hl|]. done.
Qed.



(** C2, as amended.  Every entry the sync writes to the cache holds the
    normalised shift code of a cell of the snapshot (the classifier applied
    to the stripped label, one of D, E, N, OFF) and the time range that
    belongs to that code; the raw label itself is not stored. *)
Theorem cached_entry_is_normalized (id ty : pystr) (by_ : option pystr) (force : bool)
    (w : World) (def : ScheduleDefinition) (idcol : pystr) (cols : list pystr)
    (rows : list Row) (usr : pystr) (d : date) (e : CachedSchedule) :
  schedule_definitions w !! id = Some def ->
  freshness_passed id force w = true ->
  sd_success (fetched id w) = true ->
  parsed_table (fetched id w) = Some (idcol, cols, rows) ->
  usr ∈ resolved_users idcol (identifier_map id w) rows ->
  cached_schedules (fst (sync_schedule_data id ty by_ force w)) !! (usr, id, d) = Some e ->
  ∃ (cells : gmap pystr PyVal) (col : pystr),
    RowDict cells ∈ rows
    ∧ col ∈ cols
    ∧ _parse_date col = Some d
    ∧ shift_type e
      = _normalize_shift_type (VStr (strip (py_str (row_get cells col (VStr [])))))
    ∧ shift_type e ∈ [u "D"; u "E"; u "N"; u "OFF"]
    ∧ time_range e = _get_time_range (shift_type e).
Proof.
  intros Hdef Hg Hs Hpt Hu.
  destruct (sync_stored id ty by_ force w def Hdef Hg Hs) as (w' & -> & _ & _ & _ & Hc).
  simpl. rewrite Hc, decide_True by done.
  apply resolved_users_last in Hu as [cells Hlast].
  destruct (last_cells_for_row _ _ _ _ _ Hlast) as [Hin Hru].
  unfold snapshot_entries. rewrite Hpt, Hlast. simpl. intros Hst.
  apply staged_from_entry in Hst as [Hst|(col & Hcol & Hce)].
  { by rewrite lookup_empty in Hst. }
  apply elem_of_date_columns in Hcol as [Hcol _].
  apply cell_entry_Some in Hce as (Hpd & _ & ->).
  exists cells, col. simpl. repeat split; try done.
  apply normalize_shift_type_codes.
Qed.

(** C10.  A cell whose value is missing or [None], or whose stripped text
    is empty or NULL in any letter case, makes the loop write nothing: the
    table and the row count are left as they are.  Accordingly, after a
    successful sync, a date whose cells in the row stored for a user are all
    of that kind has no entry in the cache for that user, although the
    classifier maps such values to OFF. *)
Theorem blank_cells_are_not_cached (id ty : pystr) (by_ : option pystr) (force : bool)
    (w : World) (def : ScheduleDefinition) (idcol : pystr) (cols : list pystr)
    (rows : list Row) (usr : pystr) (cells : gmap pystr PyVal) :
  schedule_definitions w !! id = Some def ->
  freshness_passed id force w = true ->
  sd_success (fetched id w) = true ->
  parsed_table (fetched id w) = Some (idcol, cols, rows) ->
  last_cells_for idcol (identifier_map id w) rows usr = Some cells ->
  (∀ (t user : pystr) (row : gmap pystr PyVal) (st : cache_table * nat) (col : pystr),
      blank_cell (row_get row col (VStr [])) = true ->
      process_cell t user row st col = st)
  ∧ (∀ d : date,
       (∀ col, col ∈ cols -> col ≠ idcol -> _parse_date col = Some d ->
               blank_cell (row_get cells col (VStr [])) = true) ->
       cached_schedules (fst (sync_schedule_data id ty by_ force w)) !! (usr, id, d) = None)
  ∧ (∀ v : PyVal, blank_cell v = true -> _normalize_shift_type v = u "OFF").
Proof.
  intros Hdef Hg Hs Hpt Hlast.
  assert (Hblank : ∀ (row : gmap pystr PyVal) (col : pystr),
             blank_cell (row_get row col (VStr [])) = true -> cell_entry row col = None).
  { intros row col Hb. unfold cell_entry. rewrite Hb. by destruct (_parse_date col). }
  split; [|split].
  - intros t user row st col Hb. by rewrite process_cell_entry, Hblank.
  - intros d Hall.
    destruct (sync_stored id ty by_ force w def Hdef Hg Hs) as (w' & -> & _ & _ & _ & Hc).
    simpl. rewrite Hc, decide_True by done.
    unfold snapshot_entries. rewrite Hpt, Hlast. simpl.
    unfold staged. rewrite staged_from_absent; [apply lookup_empty|].
    intros col e [Hin Hne]%elem_of_date_columns Hce.
    pose proof (cell_entry_Some _ _ _ _ Hce) as (Hpd & Hnb & _).
    rewrite (Hall col Hin Hne Hpd) in Hnb. done.
  - exact normalize_blank_is_off.
Qed.

(** C8, as amended.  Rows whose identifier resolves to no user are skipped
    (the loop leaves its state as it is; no count of them is kept) and never
    fail the sync: the result has success=true, users_synced is the number
    of distinct users the other rows resolve to, and rows_synced the number
    of cells written.  For three rows of which exactly one is unresolvable,
    users_synced is 2 when the other two rows resolve to different users, and
    rows_synced is positive when a stored row has a cell that is written. *)
Theorem unresolved_rows_are_skipped (id ty : pystr) (by_ : option pystr) (force : bool)
    (w : World) (def : ScheduleDefinition) (idcol : pystr) (cols : list pystr)
    (rows : list Row) :
  schedule_definitions w !! id = Some def ->
  freshness_passed id force w = true ->
  sd_success (fetched id w) = true ->
  parsed_table (fetched id w) = Some (idcol, cols, rows) ->
  let r := snd (sync_schedule_data id ty by_ force w) in
  let i2u := identifier_map id w in
  res_success r = true
  ∧ res_users_synced r = Some (size (resolved_users idcol i2u rows))
  ∧ res_rows_synced r = Some (stored_rows idcol cols i2u rows)
  ∧ (∀ (st : cache_table * nat * gset pystr) (row : Row),
       unresolved idcol i2u row = true -> process_row id idcol cols i2u st row = st)
  ∧ (length rows = 3%nat ->
     length (List.filter (unresolved idcol i2u) rows) = 1%nat ->
     NoDup (resolved_list idcol i2u rows) ->
     res_users_synced r = Some 2%nat)
  ∧ (∀ (row : Row) (user : pystr) (cells : gmap pystr PyVal) (col : pystr),
       row ∈ rows ->
       row_user idcol i2u row = Some (user, cells) ->
       col ∈ date_columns_of idcol cols ->
       is_Some (cell_entry cells col) ->
       ∃ n : nat, res_rows_synced r = Some n ∧ (0 < n)%nat).
Proof.
  intros Hdef Hg Hs Hpt r i2u. subst r i2u.
  destruct (sync_stored id ty by_ force w def Hdef Hg Hs) as (w' & -> & _).
  unfold store_counts. rewrite Hpt. simpl.
  split; [done|]. split; [done|]. split; [done|]. split; [|split].
  - intros [[c n] s] row Hun. rewrite process_row_user.
    unfold unresolved in Hun. by destruct (row_user idcol (identifier_map id w) row).
  - intros Hlen Hone Hnd. f_equal.
    rewrite resolved_users_list, size_list_to_set by done.
    pose proof (resolved_list_length idcol (identifier_map id w) rows). lia.
  - intros row user cells col Hin Hru Hcol Hce. eexists. split; [done|].
    by eapply stored_rows_pos.
Qed.

(** C9.  Two forced syncs in succession against a remote that answers
    every call alike, the identity links being those the first run left,
    end with the same cache contents and return the same rows_synced and
    users_synced (and the same success flag). *)
Theorem forced_sync_idempotent (id ty ty' : pystr) (by_ by' : option pystr) (w : World)
    (o : FetchOutcome) :
  (∀ n, fetch_schedule_data n id = o) ->
  let w1 := fst (sync_schedule_data id ty by_ true w) in
  let r1 := snd (sync_schedule_data id ty by_ true w) in
  let w2 := fst (sync_schedule_data id ty' by' true w1) in
  let r2 := snd (sync_schedule_data id ty' by' true w1) in
  cached_schedules w2 = cached_schedules w1
  ∧ res_rows_synced r2 = res_rows_synced r1
  ∧ res_users_synced r2 = res_users_synced r1
  ∧ res_success r2 = res_success r1.
Proof.
  intros Hconst w1 r1 w2 r2. subst w1 r1 w2 r2.
  destruct (schedule_definitions w !! id) as [def|] eqn:Hdef.
  2: { rewrite (sync_not_found id ty by_ true w Hdef). simpl.
       rewrite (sync_not_found id ty' by' true w Hdef). done. }
  assert (Hg : ∀ w0, freshness_passed id true w0 = true) by done.
  assert (Hsame : ∀ w0, fetched id w0 = fetched id w).
  { intros w0. unfold fetched, _fetch_with_retry. by eapply fetch_loop_data_const. }
  destruct (sd_success (fetched id w)) eqn:Hs.
  - destruct (sync_stored id ty by_ true w def Hdef (Hg w) Hs)
      as (w1 & -> & Hd1 & Hm1 & _ & Hc1).
    simpl.
    assert (Hdef1 : schedule_definitions w1 !! id = Some def) by (by rewrite Hd1).
    assert (Hs1 : sd_success (fetched id w1) = true) by (by rewrite Hsame).
    destruct (sync_stored id ty' by' true w1 def Hdef1 (Hg w1) Hs1)
      as (w2 & -> & _ & _ & _ & Hc2).
    simpl. rewrite Hsame, (store_counts_ext id (fetched id w) w1 w Hm1).
    split; [|done].
    apply map_eq. intros [[u' t'] d]. rewrite Hc2, Hsame.
    rewrite (snapshot_entries_ext id (fetched id w) w1 w u' Hm1).
    destruct (decide (t' = id)) as [->|]; [|done].
    destruct (snapshot_entries id (fetched id w) w u') as [m|] eqn:Hse; [|done].
    by rewrite Hc1, decide_True, Hse.
  - destruct (sync_fetch_failed id ty by_ true w def Hdef (Hg w) Hs)
      as (w1 & -> & Hd1 & Hm1 & Hc1 & _).
    simpl.
    assert (Hdef1 : schedule_definitions w1 !! id = Some def) by (by rewrite Hd1).
    assert (Hs1 : sd_success (fetched id w1) = false) by (by rewrite Hsame).
    destruct (sync_fetch_failed id ty' by' true w1 def Hdef1 (Hg w1) Hs1)
      as (w2 & -> & _ & _ & Hc2 & _).
    simpl. done.
Qed.


(** * Further properties of the service *)

(** ** Shift codes *)

(** X1.  Whatever the cell holds, the classifier returns one of the four
    codes D, E, N, OFF, so the fallback of the time range table is never
    what decides: the range is one of the four of the table, and it is the
    placeholder [--] exactly for OFF. *)
Theorem shift_code_and_time_range (v : PyVal) :
  _normalize_shift_type v ∈ [u "D"; u "E"; u "N"; u "OFF"]
  ∧ _get_time_range (_normalize_shift_type v)
    ∈ [u "08:00 - 16:00"; u "16:00 - 00:00"; u "00:00 - 08:00"; u "--"]
  ∧ (_get_time_range (_normalize_shift_type v) = u "--"
     <-> _normalize_shift_type v = u "OFF").
Proof.
  pose proof (normalize_shift_type_codes v) as H.
  split; [exact H|].
  repeat (apply elem_of_cons in H as [->|H]); [| | | |by apply elem_of_nil in H];
    (split; [compute_done | split; intros E; first [done | by vm_compute in E]]).
Qed.


(** ** Dates *)

Lemma first_some_Some {A B} (k : A -> option B) (l : list A) (y : B) :
  first_some k l = Some y -> ∃ x, x ∈ l ∧ k x = Some y.
Proof.
  induction l as [|x l IH]; simpl; [done|].
  destruct (k x) as [y'|] eqn:Hk.
  - intros [= ->]. exists x. split; [by left | done].
  - intros H. destruct (IH H) as (x' & Hin & Hx'). exists x'. split; [by right | done].
Qed.

Lemma make_date_Some (x d : date) : make_date x = Some d -> x = d ∧ valid_date d = true.
Proof. unfold make_date. destruct (valid_date x) eqn:Hv; [|done]. by intros [= <-]. Qed.

Lemma strptime_valid (s fmt : pystr) (d : date) :
  strptime s fmt = Some d -> valid_date d = true.
Proof.
  unfold strptime. destruct (strptime_re fmt s (1900, 1, 1)%Z) as [[f [|c r]]|]; [|done..].
  by intros [_ H]%make_date_Some.
Qed.

Lemma parse_date_valid (date_str : pystr) (d : date) :
  (∀ t d', fromisoformat t = Some d' -> valid_date d' = true) ->
  _parse_date date_str = Some d ->
  valid_date d = true.
Proof.
  intros Hiso. unfold _parse_date. destruct (str_eqb date_str []); [done|].
  destruct (first_some (fun fmt => strptime (strip date_str) fmt) formats) as [p|] eqn:Hf.
  - intros [= ->]. apply first_some_Some in Hf as (fmt & _ & Hs).
    by eapply strptime_valid.
  - destruct (re_date_search (strip date_str)) as [ymd|].
    + destruct (make_date ymd) as [p|] eqn:Hm.
      * intros [= ->]. by apply make_date_Some in Hm as [_ ?].
      * apply Hiso.
    + apply Hiso.
Qed.

(** X3.  [_parse_date] never returns a day that does not exist: what its
    format and pattern steps return has passed the range check of the date
    constructor (year 1 to 9999, month 1 to 12, a day of that month), so
    with a [fromisoformat] that returns existing days only, every date
    parsed from a column header is an existing day; and an empty header
    gives no date at all. *)
Theorem parsed_date_exists (date_str : pystr) (d : date) :
  (∀ t d', fromisoformat t = Some d' -> valid_date d' = true) ->
  _parse_date date_str = Some d ->
  valid_date d = true ∧ date_str ≠ [].
Proof.
  intros Hiso Hp. split; [by eapply parse_date_valid|].
  intros ->. by vm_compute in Hp.
Qed.

Lemma digit_char_digit (a : Z) :
  (0 <= a <= 9)%Z -> is_digit (digit_char a) = true ∧ digit_val (digit_char a) = a.
Proof.
  intros Ha. unfold is_digit, digit_val, digit_char. split.
  - apply andb_true_iff. split; apply N.leb_le; lia.
  - lia.
Qed.

Lemma digit_char_not_space (a : Z) : (0 <= a <= 9)%Z -> isspace (digit_char a) = false.
Proof.
  intros Ha. unfold digit_char.
  assert (H : ∃ n : N, Z.to_N (48 + a) = n ∧ 48 <= n <= 57) by (eexists; split; [done | lia]).
  destruct H as (n & -> & Hn). unfold isspace.
  rewrite (proj2 (N.leb_gt n 13)), (proj2 (N.leb_gt n 32)) by lia.
  rewrite (proj2 (N.eqb_neq n 133)), (proj2 (N.eqb_neq n 160)),
    (proj2 (N.eqb_neq n 5760)), (proj2 (N.leb_gt 8192 n)), (proj2 (N.eqb_neq n 8232)),
    (proj2 (N.eqb_neq n 8233)), (proj2 (N.eqb_neq n 8239)), (proj2 (N.eqb_neq n 8287)),
    (proj2 (N.eqb_neq n 12288)) by lia.
  by rewrite !andb_false_r.
Qed.

(** A text that neither starts nor ends with a space is left as it is. *)
Lemma lstrip_id (c : N) (s : pystr) : isspace c = false -> lstrip (c :: s) = c :: s.
Proof. intros H. simpl. by rewrite H. Qed.

Lemma strip_id (a b : N) (s : pystr) :
  isspace a = false -> isspace b = false -> strip (a :: s ++ [b]) = a :: s ++ [b].
Proof.
  intros Ha Hb. unfold strip, rstrip. rewrite (lstrip_id a) by done.
  change (a :: s ++ [b]) with ((a :: s) ++ [b]).
  rewrite (rev_app_distr (a :: s) [b]).
  change (rev [b] ++ rev (a :: s)) with (b :: rev (a :: s)).
  rewrite (lstrip_id b) by done.
  change (b :: rev (a :: s)) with ([b] ++ rev (a :: s)).
  by rewrite rev_app_distr, rev_involutive.
Qed.

Lemma year_digits (y : Z) :
  (0 <= y <= 9999)%Z ->
  (0 <= y / 1000 <= 9 ∧ 0 <= y / 100 mod 10 <= 9 ∧ 0 <= y / 10 mod 10 <= 9
   ∧ 0 <= y mod 10 <= 9
   ∧ 1000 * (y / 1000) + 100 * (y / 100 mod 10) + 10 * (y / 10 mod 10) + y mod 10 = y)%Z.
Proof. intros Hy. Z.div_mod_to_equations. lia. Qed.

Lemma re_Y_digits (y : Z) (r : pystr) :
  (0 <= y <= 9999)%Z ->
  re_Y (digit_char (y / 1000) :: digit_char (y / 100 mod 10) :: digit_char (y / 10 mod 10)
          :: digit_char (y mod 10) :: r)
  = [(y, r)].
Proof.
  intros Hy. destruct (year_digits y Hy) as (Ha & Hb & Hc & Hd & Hsum).
  unfold re_Y.
  destruct (digit_char_digit _ Ha) as [-> ->], (digit_char_digit _ Hb) as [-> ->],
    (digit_char_digit _ Hc) as [-> ->], (digit_char_digit _ Hd) as [-> ->].
  simpl. by rewrite Hsum.
Qed.

Lemma month_and_day_digits (y m dd : Z) :
  (1 <= m <= 12)%Z -> (1 <= dd <= 31)%Z ->
  strptime_re [45; 37; 109; 45; 37; 100]
    (45 :: digit_char (m / 10) :: digit_char (m mod 10) :: 45
        :: digit_char (dd / 10) :: [digit_char (dd mod 10)])
    (y, 1, 1)%Z
  = Some ((y, m, dd), []).
Proof.
  intros Hm Hd.
  assert (Hm' : ∃ n : nat, (n < 12)%nat ∧ m = (1 + Z.of_nat n)%Z)
    by (exists (Z.to_nat (m - 1)); lia).
  assert (Hd' : ∃ n : nat, (n < 31)%nat ∧ dd = (1 + Z.of_nat n)%Z)
    by (exists (Z.to_nat (dd - 1)); lia).
  destruct Hm' as (i & Hi & ->), Hd' as (j & Hj & ->). clear Hm Hd.
  do 12 (destruct i as [|i]; [do 31 (destruct j as [|j]; [reflexivity|]); lia|]). lia.
Qed.

(** X4.  The text under which the read paths serve a cached date is read
    back by [_parse_date] as the same date: for every day that exists,
    parsing its ISO text gives the day again. *)
Theorem parse_date_reads_isoformat (d : date) :
  valid_date d = true -> _parse_date (isoformat d) = Some d.
Proof.
  destruct d as [[y m] dd]. intros Hv.
  assert (Hr : (1 <= y <= 9999 ∧ 1 <= m <= 12 ∧ 1 <= dd <= 31)%Z).
  { unfold valid_date in Hv. repeat (apply andb_true_iff in Hv as [Hv ?]).
    assert (days_in_month y m <= 31)%Z.
    { unfold days_in_month. repeat match goal with |- context [if ?b then _ else _] =>
        destruct b end; lia. }
    lia. }
  destruct Hr as (Hy & Hm & Hd).
  assert (Hy0 : (0 <= y <= 9999)%Z) by lia.
  destruct (year_digits y Hy0) as (Ha & _).
  assert (Hlast : (0 <= dd mod 10 <= 9)%Z) by (Z.div_mod_to_equations; lia).
  unfold _parse_date, isoformat. simpl str_eqb.
  match goal with |- context [strip ?s] =>
    replace (strip s) with s
      by (symmetry;
          apply (strip_id _ (digit_char (dd mod 10))
                   [digit_char (y / 100 mod 10); digit_char (y / 10 mod 10);
                    digit_char (y mod 10); 45; digit_char (m / 10); digit_char (m mod 10);
                    45; digit_char (dd / 10)]);
          by apply digit_char_not_space)
  end.
  change formats with ([37; 89; 45; 37; 109; 45; 37; 100]
                         :: [u "%Y/%m/%d"; u "%m/%d/%Y"; u "%Y年%m月%d日"]).
  simpl first_some. unfold strptime at 1.
  change (strptime_re [37; 89; 45; 37; 109; 45; 37; 100] ?s ?f)
    with (first_some (fun '(v, r) => strptime_re [45; 37; 109; 45; 37; 100] r (v, 1, 1)%Z)
                     (re_Y s)).
  rewrite re_Y_digits by done. cbn [first_some].
  rewrite (month_and_day_digits y m dd Hm Hd).
  unfold make_date. by rewrite Hv.
Qed.

(** ** The retry loop, for any remote *)

Lemma retry_stop_exists (P : nat -> bool) (n : nat) :
  (0 < n)%nat ->
  ∃ k, (k < n)%nat ∧ (∀ i, (i < k)%nat -> P i = true) ∧ (P k = false ∨ S k = n).
Proof.
  induction n as [|n IH]; [lia|]. intros _.
  destruct n as [|n].
  - exists 0%nat. split; [lia|]. split; [intros; lia | by right].
  - destruct (IH ltac:(lia)) as (k & Hk & Hpre & [Hstop|Hlast]).
    + exists k. split; [lia|]. split; [done | by left].
    + destruct (P k) eqn:Hpk.
      * exists (S k). split; [lia|]. split; [|right; lia].
        intros i Hi. destruct (decide (i = k)) as [->|]; [done|]. apply Hpre. lia.
      * exists k. split; [lia|]. split; [done | by left].
Qed.


(** ** Who and what a sync writes *)

Lemma pydict_set_In {V} (d : pydict V) (k : pystr) (v : V) (kv : pystr * V) :
  In kv (pydict_set d k v) -> kv = (k, v) ∨ In kv d.
Proof.
  unfold pydict_set. destruct (pydict_get d k).
  - rewrite in_map_iff. intros ([a b] & Heq & Hin). simpl in Heq.
    destruct (str_eqb a k); [by left; rewrite <- Heq | right; by rewrite <- Heq].
  - rewrite in_app_iff. intros [?|[<-|[]]]; [by right | by left].
Qed.

Lemma add_mapping_In (d : pydict pystr) (m : EmployeeMapping) (kv : pystr * pystr) :
  In kv (add_mapping d m) -> snd kv = userID m ∨ In kv d.
Proof.
  unfold add_mapping.
  assert (Hset : ∀ d0 k, In kv (pydict_set d0 k (userID m)) ->
                         snd kv = userID m ∨ In kv d0).
  { intros d0 k [->|?]%pydict_set_In; [by left | by right]. }
  assert (Hparts : ∀ parts d0,
             In kv (fold_left (fun d part =>
                                 if negb (str_eqb (strip part) [])
                                 then pydict_set d (strip part) (userID m)
                                 else d) parts d0) ->
             snd kv = userID m ∨ In kv d0).
  { induction parts as [|p parts IH]; intros d0; simpl; [by right|].
    intros [?|Hin]%IH; [by left|].
    destruct (negb (str_eqb (strip p) [])); [by apply Hset in Hin | by right]. }
  destruct (sheets_name_id m) as [name_id|]; [|exact (Hset _ _)].
  destruct (str_eqb name_id []); [exact (Hset _ _)|].
  destruct (contains (u "/") name_id).
  - intros [?|[?|?]%Hset]%Hparts; [by left | by left | by eapply Hset].
  - intros [?|?]%Hset; [by left | by eapply Hset].
Qed.

Lemma build_In (ms : list EmployeeMapping) (d : pydict pystr) (kv : pystr * pystr) :
  In kv (fold_left add_mapping ms d) -> (∃ m, m ∈ ms ∧ snd kv = userID m) ∨ In kv d.
Proof.
  revert d. induction ms as [|m ms IH]; intros d; simpl; [by right|].
  intros [(m' & Hin & Hv)|Hin]%IH.
  - left. exists m'. split; [by right | done].
  - apply add_mapping_In in Hin as [?|?]; [|by right].
    left. exists m. split; [by left | done].
Qed.

Lemma find_user_In (d : pydict pystr) (s uid : pystr) :
  find_user d s = Some uid -> ∃ k, In (k, uid) d.
Proof.
  unfold find_user, pydict_get.
  destruct (List.find (fun kv => str_eqb (fst kv) s) d) as [[k v]|] eqn:Hf; simpl.
  - intros [= ->]. exists k. by apply find_some in Hf as [? _].
  - destruct (List.find (partial_match s) d) as [[k v]|] eqn:Hp; simpl; [|done].
    intros [= ->]. exists k. by apply find_some in Hp as [? _].
Qed.

(** A user a row is stored for has an active mapping of the target. *)
Lemma row_user_linked (id idcol : pystr) (w : World) (row : Row) (usr : pystr)
    (cells : gmap pystr PyVal) :
  row_user idcol (identifier_map id w) row = Some (usr, cells) ->
  ∃ m, m ∈ employee_mappings w ∧ em_schedule_def_id m = id
       ∧ em_is_active m = true ∧ userID m = usr.
Proof.
  unfold row_user. destruct row as [c|]; [|done].
  destruct (negb (truthy (row_get c idcol (VStr [])))); [done|].
  destruct (find_user (identifier_map id w) (strip (py_str (row_get c idcol (VStr [])))))
    as [uid|] eqn:Hf; [|done].
  destruct (str_eqb uid []); [done|]. intros [= -> ->].
  apply find_user_In in Hf as (k & Hin).
  unfold identifier_map, build_identifier_to_user in Hin.
  apply build_In in Hin as [(m & Hm & Hv)|[]]. simpl in Hv.
  unfold active_mappings in Hm. apply list_elem_of_In, filter_In in Hm as [Hm Hc].
  apply andb_true_iff in Hc as [Hid Hact]. apply str_eqb_true in Hid.
  exists m. split; [by apply list_elem_of_In | done].
Qed.

Lemma parsed_table_rows (sd : SheetsData) (idcol : pystr) (cols : list pystr)
    (rows : list Row) :
  parsed_table sd = Some (idcol, cols, rows) ->
  rows = snapshot_rows sd ∧ find_identifier_column cols = Some idcol.
Proof.
  unfold parsed_table, snapshot_rows. destruct (sd_final_output sd) as [fo|]; [|done].
  destruct (fo_success fo && negb (bool_decide (fo_data fo = []))
            && negb (bool_decide (fo_columns fo = []))); [|done].
  destruct (find_identifier_column (fo_columns fo)) as [c|] eqn:Hc; [|done].
  by intros [= <- <- <-].
Qed.

(** The four ways a sync can go, with what each does to the cache. *)
Lemma sync_cache_cases (id ty : pystr) (by_ : option pystr) (force : bool) (w : World) :
  cached_schedules (fst (sync_schedule_data id ty by_ force w)) = cached_schedules w
  ∨ (sd_success (fetched id w) = true
     ∧ res_success (snd (sync_schedule_data id ty by_ force w)) = true
     ∧ ∀ (u' t' : pystr) (d : date),
         cached_schedules (fst (sync_schedule_data id ty by_ force w)) !! (u', t', d)
         = if decide (t' = id)
           then match snapshot_entries id (fetched id w) w u' with
                | Some m => m !! d
                | None => cached_schedules w !! (u', t', d)
                end
           else cached_schedules w !! (u', t', d)).
Proof.
  destruct (schedule_definitions w !! id) as [def|] eqn:Hdef.
  - destruct (freshness_passed id force w) eqn:Hg.
    + destruct (sd_success (fetched id w)) eqn:Hs.
      * destruct (sync_stored id ty by_ force w def Hdef Hg Hs) as (w' & -> & _ & _ & _ & Hc).
        right. done.
      * destruct (sync_fetch_failed id ty by_ force w def Hdef Hg Hs)
          as (w' & -> & _ & _ & Hc & _). by left.
    + rewrite (sync_skipped id ty by_ force w def Hdef Hg). by left.
  - rewrite (sync_not_found id ty by_ force w Hdef). by left.
Qed.

(** X6.  A sync changes cache entries of its own target only, and only of
    users that a row of the fetched snapshot resolves to; each such user
    has an active employee mapping of that target.  Entries of other
    targets, of users without a row, and of users linked only through
    inactive mappings or mappings of another schedule stay as they were. *)
Theorem sync_changes_only_resolved_users (id ty : pystr) (by_ : option pystr)
    (force : bool) (w : World) (u' t' : pystr) (d : date) :
  cached_schedules (fst (sync_schedule_data id ty by_ force w)) !! (u', t', d)
  ≠ cached_schedules w !! (u', t', d) ->
  t' = id
  ∧ (∃ (idcol : pystr) (cells : gmap pystr PyVal),
        RowDict cells ∈ snapshot_rows (fetched id w)
        ∧ row_user idcol (identifier_map id w) (RowDict cells) = Some (u', cells))
  ∧ (∃ m, m ∈ employee_mappings w ∧ em_schedule_def_id m = id
          ∧ em_is_active m = true ∧ userID m = u').
Proof.
  intros Hne. destruct (sync_cache_cases id ty by_ force w) as [Heq|(_ & _ & Hc)].
  { by rewrite Heq in Hne. }
  rewrite Hc in Hne. destruct (decide (t' = id)) as [->|]; [|done].
  split; [done|].
  unfold snapshot_entries in Hne.
  destruct (parsed_table (fetched id w)) as [[[idcol cols] rows]|] eqn:Hpt; [|done].
  destruct (last_cells_for idcol (identifier_map id w) rows u') as [cells|] eqn:Hl; [|done].
  destruct (last_cells_for_row _ _ _ _ _ Hl) as [Hin Hru].
  apply parsed_table_rows in Hpt as [-> _].
  split; [by exists idcol, cells|]. by eapply row_user_linked.
Qed.

(** X7.  A fetched snapshot whose [final_output] sheet is missing, is
    marked unsuccessful, or has no rows or no columns, makes the sync
    succeed with rows_synced=0 and users_synced=0 and leaves every cache
    entry as it was. *)
Theorem unusable_sheet_syncs_nothing (id ty : pystr) (by_ : option pystr) (force : bool)
    (w : World) (def : ScheduleDefinition) :
  schedule_definitions w !! id = Some def ->
  freshness_passed id force w = true ->
  sd_success (fetched id w) = true ->
  match sd_final_output (fetched id w) with
  | None => True
  | Some fo => fo_success fo = false ∨ fo_data fo = [] ∨ fo_columns fo = []
  end ->
  let w' := fst (sync_schedule_data id ty by_ force w) in
  let r := snd (sync_schedule_data id ty by_ force w) in
  r = success_result 0 0 (clock w') (length (sync_logs w))
  ∧ cached_schedules w' = cached_schedules w.
Proof.
  intros Hdef Hg Hs Hfo w' r. subst w' r.
  assert (Hpt : parsed_table (fetched id w) = None).
  { unfold parsed_table. destruct (sd_final_output (fetched id w)) as [fo|]; [|done].
    destruct Hfo as [->|[->| ->]]; [done| |].
    - by rewrite andb_false_r.
    - by rewrite andb_false_r. }
  destruct (sync_stored id ty by_ force w def Hdef Hg Hs) as (w' & -> & _ & _ & _ & Hc).
  unfold store_counts in *. unfold snapshot_entries in Hc. rewrite Hpt in *.
  simpl. split; [done|].
  apply map_eq. intros [[u' t'] d]. rewrite Hc. by destruct (decide (t' = id)).
Qed.

(** X8.  The sync keeps the cache well formed: if every cached entry
    carries a day that exists, one of the four codes and the time range of
    its code, then so does every entry after a sync, whatever the remote
    returned (given a [fromisoformat] that returns existing days only). *)
Theorem sync_keeps_entries_well_formed (id ty : pystr) (by_ : option pystr) (force : bool)
    (w : World) :
  (∀ t d', fromisoformat t = Some d' -> valid_date d' = true) ->
  (∀ k e, cached_schedules w !! k = Some e -> entry_ok k e) ->
  ∀ k e,
    cached_schedules (fst (sync_schedule_data id ty by_ force w)) !! k = Some e ->
    entry_ok k e.
Proof.
  intros Hiso Hinv [[u' t'] d] e.
  destruct (sync_cache_cases id ty by_ force w) as [Heq|(_ & _ & Hc)].
  { rewrite Heq. apply Hinv. }
  rewrite Hc. destruct (decide (t' = id)) as [->|]; [|apply Hinv].
  unfold snapshot_entries.
  destruct (parsed_table (fetched id w)) as [[[idcol cols] rows]|]; [|apply Hinv].
  destruct (last_cells_for idcol (identifier_map id w) rows u') as [cells|]; [|apply Hinv].
  simpl. intros Hst. apply staged_from_entry in Hst as [Hst|(col & _ & Hce)].
  { by rewrite lookup_empty in Hst. }
  apply cell_entry_Some in Hce as (Hpd & _ & ->).
  split; [|split]; simpl.
  - by eapply parse_date_valid.
  - apply normalize_shift_type_codes.
  - done.
Qed.

(** ** Identifiers made of spaces *)

Lemma contains_nil (s : pystr) : contains [] s = true.
Proof. by destruct s. Qed.

(** Assignments keep the first key of a dictionary in its place. *)
Lemma pydict_set_cons {V} (a : pystr) (b : V) (d : pydict V) (k : pystr) (v : V) :
  ∃ b' rest, pydict_set ((a, b) :: d) k v = (a, b') :: rest.
Proof.
  unfold pydict_set. destruct (pydict_get ((a, b) :: d) k).
  - simpl. destruct (str_eqb a k) eqn:Hak.
    + apply str_eqb_true in Hak as ->. by eexists _, _.
    + by eexists _, _.
  - by eexists _, _.
Qed.

Lemma add_mapping_cons (a b : pystr) (d : pydict pystr) (m : EmployeeMapping) :
  ∃ b' rest, add_mapping ((a, b) :: d) m = (a, b') :: rest.
Proof.
  unfold add_mapping.
  assert (Hparts : ∀ parts b0 d0,
             ∃ b' rest,
               fold_left (fun d part =>
                            if negb (str_eqb (strip part) [])
                            then pydict_set d (strip part) (userID m)
                            else d) parts ((a, b0) :: d0) = (a, b') :: rest).
  { induction parts as [|p parts IH]; intros b0 d0; simpl; [by eexists _, _|].
    destruct (negb (str_eqb (strip p) [])); [|apply IH].
    destruct (pydict_set_cons a b0 d0 (strip p) (userID m)) as (b1 & d1 & ->). apply IH. }
  destruct (pydict_set_cons a b d (sheets_identifier m) (userID m)) as (b1 & d1 & ->).
  destruct (sheets_name_id m) as [name_id|]; [|by eexists _, _].
  destruct (str_eqb name_id []); [by eexists _, _|].
  destruct (pydict_set_cons a b1 d1 name_id (userID m)) as (b2 & d2 & ->).
  destruct (contains (u "/") name_id); [apply Hparts | by eexists _, _].
Qed.

Lemma build_cons (ms : list EmployeeMapping) (a b : pystr) (d : pydict pystr) :
  ∃ b' rest, fold_left add_mapping ms ((a, b) :: d) = (a, b') :: rest.
Proof.
  revert b d. induction ms as [|m ms IH]; intros b d; simpl; [by eexists _, _|].
  destruct (add_mapping_cons a b d m) as (b1 & d1 & ->). apply IH.
Qed.

(** X9.  An identifier that is empty once stripped is not left unresolved:
    unless a link is stored under the empty text, the partial match accepts
    the first key of the dictionary, so the identifier resolves to the user
    stored under the identifier of the first mapping, and a row whose
    identifier cell holds spaces only is stored for that user. *)
Theorem blank_identifier_takes_first_link (m0 : EmployeeMapping)
    (rest : list EmployeeMapping) :
  exact_link (m0 :: rest) [] = None ->
  ∃ uid : pystr,
    find_user (build_identifier_to_user (m0 :: rest)) [] = Some uid
    ∧ pydict_get (build_identifier_to_user (m0 :: rest)) (sheets_identifier m0) = Some uid
    ∧ ∀ (idcol : pystr) (cells : gmap pystr PyVal) (s : pystr),
        cells !! idcol = Some (VStr s) ->
        s ≠ [] ->
        strip s = [] ->
        uid ≠ [] ->
        row_user idcol (build_identifier_to_user (m0 :: rest)) (RowDict cells)
        = Some (uid, cells).
Proof.
  intros Hnone.
  pose proof (pydict_get_fold_mappings (m0 :: rest) [] []) as Hget.
  rewrite Hnone in Hget. change (pydict_get [] []) with (@None pystr) in Hget.
  unfold build_identifier_to_user in *. simpl fold_left in *.
  assert (Hhead : ∃ b d, add_mapping [] m0 = (sheets_identifier m0, b) :: d).
  { unfold add_mapping.
    change (pydict_set [] (sheets_identifier m0) (userID m0))
      with [(sheets_identifier m0, userID m0)].
    destruct (sheets_name_id m0) as [name_id|]; [|by eexists _, _].
    destruct (str_eqb name_id []); [by eexists _, _|].
    destruct (pydict_set_cons (sheets_identifier m0) (userID m0) [] name_id (userID m0))
      as (b2 & d2 & ->).
    destruct (contains (u "/") name_id); [|by eexists _, _].
    generalize (split 47 name_id). intros parts. revert b2 d2.
    induction parts as [|p parts IH]; intros b2 d2; simpl; [by eexists _, _|].
    destruct (negb (str_eqb (strip p) [])); [|apply IH].
    destruct (pydict_set_cons (sheets_identifier m0) b2 d2 (strip p) (userID m0))
      as (b3 & d3 & ->). apply IH. }
  destruct Hhead as (b & d & Hh). rewrite Hh in *.
  destruct (build_cons rest (sheets_identifier m0) b d) as (uid & tl & Hb).
  rewrite Hb in *. exists uid.
  assert (Hfind : find_user ((sheets_identifier m0, uid) :: tl) [] = Some uid).
  { unfold find_user. rewrite Hget. simpl. unfold partial_match at 1. simpl fst.
    by rewrite contains_nil. }
  split; [exact Hfind|]. split.
  - unfold pydict_get. simpl. by rewrite str_eqb_refl.
  - intros idcol cells s Hc Hs Hst Hu. unfold row_user, row_get. rewrite Hc. simpl.
    rewrite (proj2 (str_eqb_false s [])) by done. simpl. rewrite Hst, Hfind.
    by rewrite (proj2 (str_eqb_false uid [])).
Qed.

(** ** Time *)

Lemma fetch_loop_set_sync_logs (id : pystr) (mx : Z) (dl : Q) (n a : nat) (w : World)
    (l : list SyncLog) :
  fetch_loop id mx dl n a (set_sync_logs w l)
  = (set_sync_logs (fst (fetch_loop id mx dl n a w)) l, snd (fetch_loop id mx dl n a w)).
Proof.
  revert a w. induction n as [|n IH]; intros a w; simpl; [done|].
  destruct (fetch_schedule_data (fetch_calls w) id) as [sd|msg].
  - destruct (sd_success sd); [done|].
    destruct (is_rate_limit_error (default [] (sd_error sd))); [|done].
    destruct (Z.of_nat a <? mx - 1)%Z; [|done].
    apply (IH (S a) (sleep (backoff_delay dl a) (count_fetch w))).
  - destruct ((Z.of_nat a <? mx - 1)%Z && is_rate_limit_exception msg); [|done].
    apply (IH (S a) (sleep (backoff_delay dl a) (count_fetch w))).
Qed.

(** The clock, the call counter and the sleeps after a sync that passes
    the freshness check are those the fetch step leaves. *)
Lemma sync_effects (id ty : pystr) (by_ : option pystr) (force : bool) (w : World)
    (def : ScheduleDefinition) :
  schedule_definitions w !! id = Some def ->
  freshness_passed id force w = true ->
  let wf := fst (_fetch_with_retry id 3 2 w) in
  let w' := fst (sync_schedule_data id ty by_ force w) in
  clock w' = clock wf ∧ fetch_calls w' = fetch_calls wf ∧ sleeps w' = sleeps wf.
Proof.
  intros H Hg wf w'. subst wf w'. unfold sync_schedule_data. rewrite H.
  unfold freshness_passed in Hg. rewrite <- negb_orb, Hg. simpl negb. cbv iota.
  unfold create_sync_log, _fetch_with_retry. rewrite fetch_loop_set_sync_logs.
  destruct (fetch_loop id 3 2 (Z.to_nat 3) 0 w) as [w2 sd]. simpl fst. simpl snd.
  destruct (sd_success sd); simpl negb; cbv iota; [|done].
  match goal with |- context [_store_schedule_data id sd ?w0] =>
    destruct (store_spec id sd w0) as (c' & -> & _) end.
  destruct (store_counts id sd _) as [r us]. done.
Qed.

(** The time the fetch of a sync takes: at most two sleeps, of 2 and 4
    seconds. *)
Lemma fetch_time_bounds (id : pystr) (w : World) :
  let wf := fst (_fetch_with_retry id 3 2 w) in
  ∃ k : nat,
    (k <= 2)%nat
    ∧ fetch_calls wf = (fetch_calls w + k + 1)%nat
    ∧ sleeps wf = sleeps w ++ map (backoff_delay 2) (seq 0 k)
    ∧ (clock w <= clock wf)%Q
    ∧ (clock wf <= clock w + 6)%Q.
Proof.
  intros wf. subst wf.
  destruct (retry_stop_exists
              (fun i => rate_limited (fetch_schedule_data (fetch_calls w + i)%nat id))
              3 ltac:(lia)) as (k & Hk & Hpre & Hstop).
  destruct (fetch_loop_stops id 3 2 k 3 0 w Hk eq_refl Hpre Hstop)
    as (wf & Hf & Hc & Hs & Hcl).
  unfold _fetch_with_retry. change (Z.to_nat 3) with 3%nat. rewrite Hf. simpl fst.
  exists k. split; [lia|]. split; [lia|]. split; [done|].
  rewrite Hcl.
  destruct k as [|[|[|k]]]; [| | |lia]; simpl map; simpl fold_left;
    change (backoff_delay 2 0) with 2%Q; change (backoff_delay 2 1) with 4%Q;
    split; lra.
Qed.

(** The clock never goes back during a sync. *)
Lemma sync_clock_forward (id ty : pystr) (by_ : option pystr) (force : bool) (w : World) :
  (clock w <= clock (fst (sync_schedule_data id ty by_ force w)))%Q.
Proof.
  destruct (schedule_definitions w !! id) as [def|] eqn:Hdef.
  2: { rewrite (sync_not_found id ty by_ force w Hdef). simpl. lra. }
  destruct (freshness_passed id force w) eqn:Hg.
  2: { rewrite (sync_skipped id ty by_ force w def Hdef Hg). simpl. lra. }
  destruct (sync_effects id ty by_ force w def Hdef Hg) as (-> & _).
  by destruct (fetch_time_bounds id w) as (k & _ & _ & _ & Hclk & _).
Qed.


(** ** Freshness *)

Lemma last_sync_fold_in (id : pystr) (l : list SyncLog) (best0 : option SyncLog)
    (b : SyncLog) :
  fold_left (fun best l =>
      if str_eqb (log_schedule_def_id l) id then
        match log_completed_at l, best with
        | Some t, Some b =>
            match log_completed_at b with
            | Some tb => if Qlt_le_dec t tb then best else Some l
            | None => Some l
            end
        | Some _, None => Some l
        | None, _ => best
        end
      else best) l best0 = Some b ->
  b ∈ l ∨ best0 = Some b.
Proof.
  revert best0. induction l as [|x l IH]; intros best0; simpl; [by right|].
  intros [Hin|Hb]%IH; [left; by right|].
  destruct (str_eqb (log_schedule_def_id x) id); [|by right].
  destruct (log_completed_at x) as [t|]; [|by right].
  destruct best0 as [b0|].
  - destruct (log_completed_at b0) as [tb|].
    + destruct (Qlt_le_dec t tb); [by right|]. injection Hb as <-. left; by left.
    + injection Hb as <-. left; by left.
  - injection Hb as <-. left; by left.
Qed.

(** X11.  After a sync that stored a snapshot, a sync of the same target
    that is not forced and comes less than ten minutes (600 seconds) later
    is skipped: it returns success with skipped set and the completion time
    of the stored sync as last_synced_at, and it changes nothing, neither
    cache nor log, and calls the remote not at all. *)
Theorem fresh_sync_is_skipped (id ty ty' : pystr) (by_ by' : option pystr) (force : bool)
    (w : World) (def : ScheduleDefinition) (dt : Q) :
  schedule_definitions w !! id = Some def ->
  freshness_passed id force w = true ->
  sd_success (fetched id w) = true ->
  log_in_past w ->
  (dt < 600)%Q ->
  let w1 := elapse dt (fst (sync_schedule_data id ty by_ force w)) in
  sync_schedule_data id ty' by' false w1
  = (w1, skipped_result (res_last_synced_at (snd (sync_schedule_data id ty by_ force w)))).
Proof.
  intros Hdef Hg Hs Hpast Hdt w1. subst w1.
  pose proof (sync_clock_forward id ty by_ force w) as Hclk.
  destruct (sync_stored id ty by_ force w def Hdef Hg Hs) as (w1 & Heq & Hd1 & _ & Hl & _).
  rewrite Heq in Hclk |- *. simpl fst in *. simpl snd. simpl res_last_synced_at.
  set (w1' := elapse dt w1).
  assert (Hdef1 : schedule_definitions w1' !! id = Some def) by (simpl; by rewrite Hd1).
  assert (Hfresh : freshness_passed id false w1' = false).
  { unfold freshness_passed, should_sync. simpl orb. apply negb_false_iff.
    change (sync_logs w1') with (sync_logs w1). rewrite Hl, existsb_app.
    apply orb_true_iff. right. simpl. rewrite str_eqb_refl. simpl.
    destruct (Qlt_le_dec (clock w1 + dt - clock w1) (inject_Z (10 * 60))) as [|Hle]; [done|].
    change (inject_Z (10 * 60)) with 600%Q in Hle. lra. }
  rewrite (sync_skipped id ty' by' false w1' def Hdef1 Hfresh). f_equal. f_equal.
  unfold get_last_sync. change (sync_logs w1') with (sync_logs w1).
  rewrite Hl, fold_left_app. simpl fold_left. rewrite str_eqb_refl. simpl.
  match goal with |- context [fold_left ?f (sync_logs w) None] =>
    destruct (fold_left f (sync_logs w) None) as [b|] eqn:Hb end; [|done].
  apply last_sync_fold_in in Hb as [Hin|?]; [|done].
  destruct (log_completed_at b) as [tb|] eqn:Htb; [|done].
  destruct (Qlt_le_dec (clock w1) tb) as [Hlt|]; [|done].
  pose proof (Hpast b tb Hin Htb). lra.
Qed.

(** X12.  A failed sync never makes its target look fresh: if a sync was
    due before an attempt whose fetch fails, it is still due after the
    attempt, at once and at any later time, so the failure does not hold
    back the next unforced sync. *)
Theorem failed_sync_stays_due (id ty : pystr) (by_ : option pystr) (force : bool)
    (w : World) (def : ScheduleDefinition) (dt : Q) :
  schedule_definitions w !! id = Some def ->
  freshness_passed id force w = true ->
  sd_success (fetched id w) = false ->
  should_sync id 10 w = true ->
  (0 <= dt)%Q ->
  should_sync id 10 (elapse dt (fst (sync_schedule_data id ty by_ force w))) = true.
Proof.
  intros Hdef Hg Hs Hdue Hdt.
  pose proof (sync_clock_forward id ty by_ force w) as Hclk.
  destruct (sync_fetch_failed id ty by_ force w def Hdef Hg Hs)
    as (w1 & Heq & _ & _ & _ & Hl).
  rewrite Heq in Hclk |- *. simpl fst in *.
  unfold should_sync in *. apply negb_true_iff in Hdue. apply negb_true_iff.
  change (sync_logs (elapse dt w1)) with (sync_logs w1). rewrite Hl, existsb_app.
  apply orb_false_iff. split.
  - apply not_true_is_false. intros (l & Hin & Hp)%existsb_exists.
    assert (Hold : existsb (fun l =>
                      str_eqb (log_schedule_def_id l) id
                      && match log_status l, log_completed_at l with
                         | success, Some t =>
                             if Qlt_le_dec (clock w - t) (inject_Z (10 * 60))
                             then true else false
                         | _, _ => false
                         end) (sync_logs w) = true).
    { apply existsb_exists. exists l. split; [done|].
      apply andb_true_iff in Hp as [Hid Hp]. rewrite Hid. simpl.
      destruct (log_status l); try done. destruct (log_completed_at l) as [t|]; [|done].
      destruct (Qlt_le_dec (clock w - t) (inject_Z (10 * 60))) as [|Hle]; [done|].
      destruct (Qlt_le_dec (clock (elapse dt w1) - t) (inject_Z (10 * 60))) as [Hlt|];
        [|done].
      simpl in Hlt. lra. }
    by rewrite Hold in Hdue.
  - simpl. by rewrite andb_false_r.
Qed.

(** ** The callers: the periodic task and the manual trigger *)

(** What any sync leaves of the world and of the log. *)
Lemma sync_summary (id ty : pystr) (by_ : option pystr) (force : bool) (w : World) :
  let w' := fst (sync_schedule_data id ty by_ force w) in
  let r := snd (sync_schedule_data id ty by_ force w) in
  schedule_definitions w' = schedule_definitions w
  ∧ match schedule_definitions w !! id with
    | None => w' = w ∧ res_skipped r = false ∧ res_success r = false
    | Some def =>
        if freshness_passed id force w
        then res_skipped r = false
             ∧ ∃ ticket : SyncLog, sync_logs w' = sync_logs w ++ [ticket]
        else w' = w ∧ res_skipped r = true
    end.
Proof.
  intros w' r. subst w' r.
  destruct (schedule_definitions w !! id) as [def|] eqn:Hdef.
  - destruct (freshness_passed id force w) eqn:Hg.
    + destruct (sd_success (fetched id w)) eqn:Hs.
      * destruct (sync_stored id ty by_ force w def Hdef Hg Hs) as (w' & -> & Hd & _ & Hl & _).
        simpl. split; [done|]. split; [done|]. eauto.
      * destruct (sync_fetch_failed id ty by_ force w def Hdef Hg Hs)
          as (w' & -> & Hd & _ & _ & Hl).
        simpl. split; [done|]. split; [done|]. eauto.
    + rewrite (sync_skipped id ty by_ force w def Hdef Hg). done.
  - rewrite (sync_not_found id ty by_ force w Hdef). done.
Qed.

Lemma daily_step_fold (schedules : list ActiveSchedule) (w : World) (acc : list TaskEntry) :
  fold_left daily_step schedules (w, acc)
  = (fst (fold_left daily_step schedules (w, [])),
     acc ++ snd (fold_left daily_step schedules (w, []))).
Proof.
  revert w acc. induction schedules as [|s schedules IH]; intros w acc.
  - simpl. by rewrite app_nil_r.
  - simpl. destruct (should_sync (fst s) 10 w); simpl.
    + destruct (sync_schedule_data (fst s) (u "scheduled") None false w) as [w1 r].
      rewrite (IH w1 (acc ++ _)), (IH w1 [_]). simpl. by rewrite <- app_assoc.
    + apply IH.
Qed.

(** The loop of the task, one schedule at a time. *)
Lemma daily_fold_cons (s : ActiveSchedule) (schedules : list ActiveSchedule) (w : World) :
  fold_left daily_step (s :: schedules) (w, [])
  = if should_sync (fst s) 10 w
    then let w1 := fst (sync_schedule_data (fst s) (u "scheduled") None false w) in
         let r := snd (sync_schedule_data (fst s) (u "scheduled") None false w) in
         (fst (fold_left daily_step schedules (w1, [])),
          (fst s, snd s, r) :: snd (fold_left daily_step schedules (w1, [])))
    else fold_left daily_step schedules (w, []).
Proof.
  simpl. destruct (should_sync (fst s) 10 w); simpl; [|done].
  destruct (sync_schedule_data (fst s) (u "scheduled") None false w) as [w1 r].
  by rewrite daily_step_fold.
Qed.

Lemma daily_fold_spec (schedules : list ActiveSchedule) (w : World) :
  let w' := fst (fold_left daily_step schedules (w, [])) in
  let results := snd (fold_left daily_step schedules (w, [])) in
  schedule_definitions w' = schedule_definitions w
  ∧ (length results <= length schedules)%nat
  ∧ (∀ e : TaskEntry, e ∈ results ->
       fst e ∈ schedules ∧ res_skipped (snd e) = false
       ∧ (res_success (snd e) = true -> is_Some (schedule_definitions w !! fst (fst e))))
  ∧ ((∀ s : ActiveSchedule, s ∈ schedules -> is_Some (schedule_definitions w !! fst s)) ->
     length (sync_logs w') = (length (sync_logs w) + length results)%nat).
Proof.
  revert w. induction schedules as [|s schedules IH]; intros w.
  - simpl. split; [done|]. split; [lia|]. split; [|done].
    intros e He. by apply elem_of_nil in He.
  - cbv zeta. rewrite daily_fold_cons.
    destruct (should_sync (fst s) 10 w) eqn:Hdue.
    + cbv zeta.
      pose proof (sync_summary (fst s) (u "scheduled") None false w) as [Hd Hcase].
      set (w1 := fst (sync_schedule_data (fst s) (u "scheduled") None false w)) in *.
      set (r := snd (sync_schedule_data (fst s) (u "scheduled") None false w)) in *.
      destruct (IH w1) as (Hd1 & Hlen & Hres & Hlog). simpl fst. simpl snd.
      split; [congruence|]. split; [simpl; lia|]. split.
      * intros e [->|He]%elem_of_cons.
        -- simpl. split; [destruct s; simpl; left|]. 
           destruct (schedule_definitions w !! fst s) as [def|] eqn:Hdef.
           ++ unfold freshness_passed in Hcase. rewrite Hdue in Hcase. simpl in Hcase.
              destruct Hcase as [Hsk _]. split; [done|]. by eauto.
           ++ destruct Hcase as (_ & Hsk & Hsu). split; [done|]. congruence.
        -- destruct (Hres e He) as (Hin & Hsk & Hex). split; [by right|]. split; [done|].
           by rewrite <- Hd.
      * intros Hall. simpl length.
        destruct (Hall s ltac:(left)) as [def Hdef]. rewrite Hdef in Hcase.
        unfold freshness_passed in Hcase. rewrite Hdue in Hcase. simpl in Hcase.
        destruct Hcase as (_ & ticket & Hl).
        rewrite Hlog.
        -- rewrite Hl, length_app. simpl. lia.
        -- intros s' Hs'. rewrite Hd. apply Hall. by right.
    + destruct (IH w) as (Hd1 & Hlen & Hres & Hlog).
      split; [done|]. split; [simpl; lia|]. split.
      * intros e He. destruct (Hres e He) as (Hin & Hsk). split; [by right|done].
      * intros Hall. apply Hlog. intros s' Hs'. apply Hall. by right.
Qed.

Lemma filter_length_le {A} (f : A -> bool) (l : list A) :
  (length (List.filter f l) <= length l)%nat.
Proof. induction l as [|a l IH]; simpl; [lia|]. destruct (f a); simpl; lia. Qed.

(** X13.  What the periodic task reports: it always succeeds; with at
    least one active schedule it reports one result for each sync it
    attempted, none of them a skipped one (the schedules that are still
    fresh are left out before the service is called), each for a listed
    schedule, and a result can only be a success for a schedule that
    exists; the number of synced schedules is at most the number of
    reported ones, which is at most the number of active ones. *)
Theorem daily_task_report (schedules : list ActiveSchedule) (w : World) :
  let r := snd (sync_google_sheets_daily schedules w) in
  task_success r = true
  ∧ (schedules = [] ->
       fst (sync_google_sheets_daily schedules w) = w ∧ task_results r = None
       ∧ task_total_schedules r = None ∧ task_schedules_synced r = None)
  ∧ (schedules ≠ [] ->
     ∃ (results : list TaskEntry) (synced : nat),
       task_results r = Some results
       ∧ task_total_schedules r = Some (length results)
       ∧ task_schedules_synced r = Some synced
       ∧ (synced <= length results <= length schedules)%nat
       ∧ ∀ e : TaskEntry, e ∈ results ->
           fst e ∈ schedules ∧ res_skipped (snd e) = false
           ∧ (res_success (snd e) = true
              -> is_Some (schedule_definitions w !! fst (fst e)))).
Proof.
  intros r. subst r. unfold sync_google_sheets_daily.
  case_bool_decide as Hnil.
  - simpl. split; [done|]. split; [done|]. done.
  - pose proof (daily_fold_spec schedules w) as (_ & Hlen & Hres & _).
    destruct (fold_left daily_step schedules (w, [])) as [w' results]. simpl in *.
    split; [done|]. split; [done|]. intros _.
    exists results, (length (List.filter (fun r => res_success (snd r)) results)).
    repeat split; try done.
    + apply filter_length_le.
    + by apply Hres.
    + by apply Hres.
    + by apply Hres.
Qed.

(** X14.  The periodic task leaves one ticket in the log for each result it
    reports, and none for the schedules it leaves out, when every listed
    schedule has its definition. *)
Theorem daily_task_tickets (schedules : list ActiveSchedule) (w : World) :
  (∀ s : ActiveSchedule, s ∈ schedules -> is_Some (schedule_definitions w !! fst s)) ->
  let w' := fst (sync_google_sheets_daily schedules w) in
  let r := snd (sync_google_sheets_daily schedules w) in
  length (sync_logs w')
  = (length (sync_logs w) + default 0%nat (task_total_schedules r))%nat.
Proof.
  intros Hall w' r. subst w' r. unfold sync_google_sheets_daily.
  case_bool_decide as Hnil.
  - simpl. lia.
  - pose proof (daily_fold_spec schedules w) as (_ & _ & _ & Hlog).
    destruct (fold_left daily_step schedules (w, [])) as [w' results]. simpl in *.
    by apply Hlog.
Qed.

Lemma should_sync_ext (id : pystr) (w w' : World) :
  sync_logs w' = sync_logs w -> clock w' = clock w ->
  should_sync id 10 w' = should_sync id 10 w.
Proof. intros Hl Hc. unfold should_sync. by rewrite Hl, Hc. Qed.

(** X15.  Schedules that are all fresh make the periodic task a no-op: the
    service is not called (no remote call, no ticket, no cache change, no
    time spent) and the report is empty. *)
Theorem daily_task_leaves_fresh_schedules (schedules : list ActiveSchedule) (w : World) :
  schedules ≠ [] ->
  (∀ s : ActiveSchedule, s ∈ schedules -> should_sync (fst s) 10 w = false) ->
  sync_google_sheets_daily schedules w
  = (w, {| task_success := true; task_schedules_synced := Some 0%nat;
           task_total_schedules := Some 0%nat; task_results := Some [] |}).
Proof.
  intros Hne Hall. unfold sync_google_sheets_daily.
  rewrite bool_decide_eq_false_2 by done.
  assert (fold_left daily_step schedules (w, []) = (w, [])) as ->; [|done].
  clear Hne. induction schedules as [|s schedules IH]; [done|].
  rewrite daily_fold_cons, (Hall s) by (by left).
  apply IH. intros s' Hs'. apply Hall. by right.
Qed.

(** The cache of the targets that are not listed. *)
Lemma daily_fold_other_targets (schedules : list ActiveSchedule) (w : World)
    (u' t' : pystr) (d : date) :
  t' ∉ map fst schedules ->
  cached_schedules (fst (fold_left daily_step schedules (w, []))) !! (u', t', d)
  = cached_schedules w !! (u', t', d).
Proof.
  revert w. induction schedules as [|s schedules IH]; intros w Hnot; [done|].
  simpl in Hnot. apply not_elem_of_cons in Hnot as [Hne Hnot].
  rewrite daily_fold_cons. destruct (should_sync (fst s) 10 w); [|by apply IH].
  cbv zeta. simpl fst. rewrite IH by done.
  destruct (sync_cache_cases (fst s) (u "scheduled") None false w) as [->|(_ & _ & ->)];
    [done|].
  by rewrite decide_False.
Qed.

(** X16.  The periodic task writes cache entries of the listed schedules
    only: every entry of any other schedule is after the task what it was
    before. *)
Theorem daily_task_keeps_other_schedules (schedules : list ActiveSchedule) (w : World)
    (u' t' : pystr) (d : date) :
  t' ∉ map fst schedules ->
  cached_schedules (fst (sync_google_sheets_daily schedules w)) !! (u', t', d)
  = cached_schedules w !! (u', t', d).
Proof.
  intros Hnot. unfold sync_google_sheets_daily. case_bool_decide; [done|].
  pose proof (daily_fold_other_targets schedules w u' t' d Hnot) as H1.
  by destruct (fold_left daily_step schedules (w, [])) as [w' results].
Qed.

Lemma trigger_fold (schedules : list ActiveSchedule) (w : World) (acc : list SyncResult) :
  fold_left (fun st schedule_def =>
               let '(w', result) :=
                 sync_schedule_data (fst schedule_def) (u "manual") None true (fst st) in
               (w', snd st ++ [result]))
            schedules (w, acc)
  = (fst (main schedules w), acc ++ snd (main schedules w)).
Proof.
  unfold main. revert w acc. induction schedules as [|s schedules IH]; intros w acc.
  - simpl. by rewrite app_nil_r.
  - simpl. destruct (sync_schedule_data (fst s) (u "manual") None true w) as [w1 r].
    rewrite (IH w1 (acc ++ _)), (IH w1 [_]). simpl. by rewrite <- app_assoc.
Qed.

Lemma trigger_sync_cons (s : ActiveSchedule) (schedules : list ActiveSchedule) (w : World) :
  main (s :: schedules) w
  = let w1 := fst (sync_schedule_data (fst s) (u "manual") None true w) in
    let r := snd (sync_schedule_data (fst s) (u "manual") None true w) in
    (fst (main schedules w1), r :: snd (main schedules w1)).
Proof.
  unfold main at 1. simpl.
  destruct (sync_schedule_data (fst s) (u "manual") None true w) as [w1 r].
  by rewrite trigger_fold.
Qed.

(** X17.  The manual trigger attempts every listed schedule, fresh or not:
    it gets one result per schedule, none of them skipped, and leaves one
    ticket per schedule in the log, when every listed schedule has its
    definition. *)
Theorem trigger_sync_attempts_all (schedules : list ActiveSchedule) (w : World) :
  (∀ s : ActiveSchedule, s ∈ schedules -> is_Some (schedule_definitions w !! fst s)) ->
  let w' := fst (main schedules w) in
  let results := snd (main schedules w) in
  length results = length schedules
  ∧ (∀ r : SyncResult, r ∈ results -> res_skipped r = false)
  ∧ length (sync_logs w') = (length (sync_logs w) + length schedules)%nat.
Proof.
  revert w. induction schedules as [|s schedules IH]; intros w Hall.
  - simpl. split; [done|]. split; [|lia]. intros r Hr. by apply elem_of_nil in Hr.
  - cbv zeta. rewrite trigger_sync_cons. cbv zeta.
    pose proof (sync_summary (fst s) (u "manual") None true w) as [Hd Hcase].
    set (w1 := fst (sync_schedule_data (fst s) (u "manual") None true w)) in *.
    set (r1 := snd (sync_schedule_data (fst s) (u "manual") None true w)) in *.
    destruct (Hall s ltac:(left)) as [def Hdef]. rewrite Hdef in Hcase.
    simpl in Hcase. destruct Hcase as (Hsk & ticket & Hl).
    destruct (IH w1) as (Hlen & Hres & Hlog).
    { intros s' Hs'. rewrite Hd. apply Hall. by right. }
    simpl fst. simpl snd. split; [simpl; lia|]. split.
    + intros r [->|Hr]%elem_of_cons; [done|by apply Hres].
    + rewrite Hlog, Hl, length_app. simpl. lia.
Qed.

(** ** The cache read of the schedule-data route *)

Lemma query_lookup (py_int : pystr -> option Z) (user id : pystr) (month : option pystr)
    (w : World) (k : cache_key) (entry : CachedSchedule) :
  schedules_query py_int user id month w !! k = Some entry
  ↔ cached_schedules w !! k = Some entry
    ∧ fst (fst k) = user ∧ snd (fst k) = id
    ∧ match month with
      | None | Some [] => True
      | Some month =>
          match month_bounds py_int month with
          | Some (start_date, end_date) =>
              date_leb start_date (snd k) = true ∧ date_leb (snd k) end_date = true
          | None => True
          end
      end.
Proof using Type.
  clear fromisoformat fetch_schedule_data.
  unfold schedules_query. destruct month as [[|c r]|].
  - rewrite map_lookup_filter_Some. simpl. tauto.
  - destruct (month_bounds py_int (c :: r)) as [[s e]|].
    + rewrite !map_lookup_filter_Some. simpl. tauto.
    + rewrite map_lookup_filter_Some. simpl. tauto.
  - rewrite map_lookup_filter_Some. simpl. tauto.
Qed.

Lemma month_bounds_Some (py_int : pystr -> option Z) (month : pystr)
    (start_date end_date : date) :
  month_bounds py_int month = Some (start_date, end_date) ->
  ∃ y m : Z, (1 <= y <= 9999)%Z ∧ (1 <= m <= 12)%Z
    ∧ start_date = (y, m, 1%Z) ∧ end_date = (y, m, days_in_month y m).
Proof.
  unfold month_bounds.
  destruct (if contains [45] month then _ else _) as [[y m]|]; [|done].
  cbn -[valid_date days_in_month Z.leb].
  unfold monthrange_days. destruct ((1 <=? m)%Z && (m <=? 12)%Z) eqn:Hm; [|done].
  cbn -[valid_date days_in_month Z.leb].
  unfold make_date. destruct (valid_date (y, m, 1%Z)) eqn:Hv; [|done].
  cbn -[valid_date days_in_month Z.leb].
  destruct (valid_date (y, m, days_in_month y m)); [|done].
  cbn -[valid_date days_in_month Z.leb].
  intros [= <- <-]. exists y, m. unfold valid_date in Hv.
  repeat (apply andb_true_iff in Hv as [Hv ?]). apply andb_true_iff in Hm as [? ?].
  repeat split; lia.
Qed.

Lemma days_in_month_bounds (y m : Z) : (28 <= days_in_month y m <= 31)%Z.
Proof.
  unfold days_in_month.
  repeat match goal with |- context [if ?b then _ else _] => destruct b end; lia.
Qed.

(** The two comparisons of the filter select the days of one month. *)
Lemma month_window (y m : Z) (d : date) :
  valid_date d = true ->
  date_leb (y, m, 1%Z) d = true ∧ date_leb d (y, m, days_in_month y m) = true
  ↔ fst (fst d) = y ∧ snd (fst d) = m.
Proof.
  destruct d as [[Y M] D]. intros Hv. unfold valid_date in Hv.
  repeat (apply andb_true_iff in Hv as [Hv ?]). simpl.
  rewrite !orb_true_iff, !andb_true_iff, !orb_true_iff, !andb_true_iff.
  rewrite !Z.ltb_lt, !Z.eqb_eq, !Z.leb_le. split.
  - lia.
  - intros [-> ->]. lia.
Qed.

(** X18.  A [month] argument that is read makes [schedule_data] serve the
    cached days of exactly one calendar month: the two bounds are the
    first and the last day of a month of a year between 1 and 9999, and a
    cached entry of an existing day is served if and only if it is an
    entry of the user and the schedule in that year and month. *)
Theorem month_filter_selects_month (py_int : pystr -> option Z) (user id : pystr)
    (month : pystr) (w : World) (start_date end_date : date) :
  month ≠ [] ->
  month_bounds py_int month = Some (start_date, end_date) ->
  ∃ y m : Z,
    (1 <= y <= 9999)%Z ∧ (1 <= m <= 12)%Z
    ∧ start_date = (y, m, 1%Z) ∧ end_date = (y, m, days_in_month y m)
    ∧ ∀ (u' t' : pystr) (d : date) (entry : CachedSchedule),
        valid_date d = true ->
        (schedules_query py_int user id (Some month) w !! (u', t', d) = Some entry
         ↔ cached_schedules w !! (u', t', d) = Some entry
           ∧ u' = user ∧ t' = id ∧ fst (fst d) = y ∧ snd (fst d) = m).
Proof using Type.
  clear fromisoformat fetch_schedule_data.
  intros Hne Hb. destruct (month_bounds_Some py_int month _ _ Hb) as (y & m & Hy & Hm & -> & ->).
  exists y, m. do 4 (split; [done|]). intros u' t' d entry Hv.
  rewrite query_lookup. destruct month as [|c r]; [done|]. rewrite Hb. simpl.
  rewrite (month_window y m d Hv). tauto.
Qed.

Lemma contains_single (c : N) (s : pystr) : contains [c] s = bool_decide (c ∈ s).
Proof using Type.
  clear fromisoformat fetch_schedule_data.
  induction s as [|a s IH]; [done|].
  simpl. rewrite IH. destruct (N.eqb_spec c a) as [->|Hne]; simpl.
  - symmetry. apply bool_decide_eq_true_2. by left.
  - apply bool_decide_ext. rewrite elem_of_cons. intuition congruence.
Qed.

Lemma digit_not_in (c : N) (s : pystr) :
  is_digit c = false -> forallb is_digit s = true -> c ∉ s.
Proof.
  intros Hc Hs Hin. rewrite forallb_forall in Hs.
  apply list_elem_of_In in Hin. specialize (Hs c Hin). congruence.
Qed.

Lemma contains_digits (c : N) (s : pystr) :
  is_digit c = false -> forallb is_digit s = true -> contains [c] s = false.
Proof.
  intros Hc Hs. rewrite contains_single. apply bool_decide_eq_false_2.
  by apply digit_not_in.
Qed.

Lemma contains_after_digits (c : N) (s r : pystr) : contains [c] (s ++ c :: r) = true.
Proof.
  rewrite contains_single. apply bool_decide_eq_true_2.
  apply elem_of_app. right. by left.
Qed.

Lemma split_digits (c : N) (s : pystr) :
  is_digit c = false -> forallb is_digit s = true -> split c s = [s].
Proof.
  intros Hc. induction s as [|a s IH]; [done|]. intros [Ha Hs]%andb_true_iff.
  simpl. rewrite (proj2 (N.eqb_neq a c)) by (intros ->; congruence).
  by rewrite IH.
Qed.

Lemma split_after_digits (c : N) (s r : pystr) :
  is_digit c = false -> forallb is_digit s = true ->
  split c (s ++ c :: r) = s :: split c r.
Proof.
  intros Hc. induction s as [|a s IH].
  - intros _. simpl. by rewrite N.eqb_refl.
  - intros [Ha Hs]%andb_true_iff. simpl.
    rewrite (proj2 (N.eqb_neq a c)) by (intros ->; congruence).
    by rewrite IH.
Qed.

Lemma split_after_digits_free (c : N) (s r : pystr) :
  bool_decide (c ∈ s) = false -> split c (s ++ c :: r) = s :: split c r.
Proof.
  intros Hc%bool_decide_eq_false. induction s as [|a s IH].
  - simpl. by rewrite N.eqb_refl.
  - apply not_elem_of_cons in Hc as [Hne Hc]. simpl.
    rewrite (proj2 (N.eqb_neq a c)) by done. by rewrite IH.
Qed.

Lemma year_text (y : Z) :
  (0 <= y <= 9999)%Z ->
  let s := [digit_char (y / 1000); digit_char (y / 100 mod 10); digit_char (y / 10 mod 10);
            digit_char (y mod 10)] in
  forallb is_digit s = true ∧ digits_value s = y.
Proof.
  intros Hy s. subst s. destruct (year_digits y Hy) as (Ha & Hb & Hc & Hd & Hsum).
  unfold digits_value. simpl.
  destruct (digit_char_digit _ Ha) as [-> ->], (digit_char_digit _ Hb) as [-> ->],
    (digit_char_digit _ Hc) as [-> ->], (digit_char_digit _ Hd) as [-> ->].
  split; [done|lia].
Qed.

Lemma month_text (m : Z) :
  (0 <= m <= 99)%Z ->
  let s := [digit_char (m / 10); digit_char (m mod 10)] in
  forallb is_digit s = true ∧ digits_value s = m.
Proof.
  intros Hm s. subst s.
  assert (Ha : (0 <= m / 10 <= 9)%Z) by (Z.div_mod_to_equations; lia).
  assert (Hb : (0 <= m mod 10 <= 9)%Z) by (Z.div_mod_to_equations; lia).
  unfold digits_value. simpl.
  destruct (digit_char_digit _ Ha) as [-> ->], (digit_char_digit _ Hb) as [-> ->].
  split; [done|]. Z.div_mod_to_equations. lia.
Qed.

(** The bounds of a month that exists, once year and month are read. *)
Lemma bounds_of_month (y m : Z) :
  (1 <= y <= 9999)%Z -> (1 <= m <= 12)%Z ->
  (last_day ← monthrange_days y m;
   start_date ← make_date (y, m, 1%Z);
   end_date ← make_date (y, m, last_day);
   Some (start_date, end_date))
  = Some ((y, m, 1%Z), (y, m, days_in_month y m)).
Proof.
  intros Hy Hm. pose proof (days_in_month_bounds y m) as Hd.
  assert (H1 : valid_date (y, m, 1%Z) = true).
  { unfold valid_date. rewrite !andb_true_iff, !Z.leb_le. lia. }
  assert (H2 : valid_date (y, m, days_in_month y m) = true).
  { unfold valid_date. rewrite !andb_true_iff, !Z.leb_le. lia. }
  unfold monthrange_days, make_date.
  rewrite (proj2 (Z.leb_le 1 m)), (proj2 (Z.leb_le m 12)) by lia.
  cbn -[valid_date days_in_month]. rewrite H1. cbn -[valid_date days_in_month].
  by rewrite H2.
Qed.

(** X19.  The month of a served date selects that date.  With an [int]
    that reads up to four plain digits as their value, the first seven
    characters of the ISO text of an existing day, and the same year and
    month written with a slash or with no separator, are all read as the
    month of the day, from its first to its last day; so the entry cached
    for the day is served under each of the three spellings. *)
Theorem month_of_served_date (py_int : pystr -> option Z) (d : date) :
  (∀ s : pystr, s ≠ [] -> (length s <= 4)%nat -> forallb is_digit s = true ->
     py_int s = Some (digits_value s)) ->
  valid_date d = true ->
  let text := isoformat d in
  let y := fst (fst d) in
  let m := snd (fst d) in
  let spellings := [take 7 text;
                    take 4 text ++ [47] ++ take 2 (drop 5 text);
                    take 4 text ++ take 2 (drop 5 text)] in
  ∀ month : pystr, month ∈ spellings ->
    month_bounds py_int month = Some ((y, m, 1%Z), (y, m, days_in_month y m))
    ∧ ∀ (user id : pystr) (w : World) (entry : CachedSchedule),
        cached_schedules w !! (user, id, d) = Some entry ->
        schedules_query py_int user id (Some month) w !! (user, id, d) = Some entry.
Proof.
  destruct d as [[y m] dd]. intros Hint Hv text y0 m0 spellings month Hin.
  subst text y0 m0 spellings. simpl fst. simpl snd.
  assert (Hr : (1 <= y <= 9999 ∧ 1 <= m <= 12)%Z).
  { unfold valid_date in Hv. repeat (apply andb_true_iff in Hv as [Hv ?]). lia. }
  destruct Hr as (Hy & Hm).
  destruct (year_text y ltac:(lia)) as [Hyd Hyv].
  destruct (month_text m ltac:(lia)) as [Hmd Hmv].
  set (ys := [digit_char (y / 1000); digit_char (y / 100 mod 10);
              digit_char (y / 10 mod 10); digit_char (y mod 10)]) in *.
  set (ms := [digit_char (m / 10); digit_char (m mod 10)]) in *.
  assert (Hiy : py_int ys = Some y) by (rewrite Hint; [by rewrite Hyv|done|simpl; lia|done]).
  assert (Him : py_int ms = Some m) by (rewrite Hint; [by rewrite Hmv|done|simpl; lia|done]).
  assert (Hb : month_bounds py_int month = Some ((y, m, 1%Z), (y, m, days_in_month y m))).
  { assert (Hsp : month = ys ++ 45 :: ms ∨ month = ys ++ 47 :: ms ∨ month = ys ++ ms).
    { unfold isoformat in Hin.
      apply elem_of_cons in Hin as [->|Hin]; [by left|].
      apply elem_of_cons in Hin as [->|Hin]; [by right; left|].
      apply list_elem_of_singleton in Hin as ->. by right; right. }
    unfold month_bounds. destruct Hsp as [-> | [-> | ->]].
    - rewrite contains_after_digits, split_after_digits, split_digits by done.
      simpl unpack_two_ints. rewrite Hiy, Him. cbn -[valid_date days_in_month Z.leb].
      by apply bounds_of_month.
    - assert (H45 : contains [45] (ys ++ 47 :: ms) = false).
      { rewrite contains_single. apply bool_decide_eq_false_2.
        intros [H|[H|H]%elem_of_cons]%elem_of_app; [|done|].
        - by apply (digit_not_in 45 ys).
        - by apply (digit_not_in 45 ms). }
      rewrite H45, contains_after_digits, split_after_digits, split_digits by done.
      simpl unpack_two_ints. rewrite Hiy, Him. cbn -[valid_date days_in_month Z.leb].
      by apply bounds_of_month.
    - rewrite (contains_digits 45), (contains_digits 47)
        by (by rewrite ?forallb_app, ?Hyd, ?Hmd).
      change (take 4 (ys ++ ms)) with ys. change (take 2 (drop 4 (ys ++ ms))) with ms.
      rewrite Hiy, Him. cbn -[valid_date days_in_month Z.leb].
      by apply bounds_of_month. }
  split; [done|]. intros user id w entry Hc.
  apply query_lookup. split; [done|]. split; [done|]. split; [done|].
  assert (Hne : month ≠ []).
  { intros ->. unfold isoformat in Hin. simpl in Hin.
    repeat (apply elem_of_cons in Hin as [Hin|Hin]; [done|]). by apply elem_of_nil in Hin. }
  destruct month as [|c r]; [done|]. rewrite Hb.
  by apply (month_window y m (y, m, dd) Hv).
Qed.

(** X20.  The defaults of the rows are never used for a well formed cache:
    when every cached entry carries one of the four codes and the time
    range of its code, each row served from the cache shows the code and
    the time range of the entry cached for the user, the schedule and the
    date of the row, and the time range of the row is the one of its
    code. *)
Theorem rows_show_cached_entries (py_int : pystr -> option Z) (user id : pystr)
    (month : option pystr) (w : World) (rows : list DashboardRow) :
  (∀ (k : cache_key) (e : CachedSchedule), cached_schedules w !! k = Some e -> entry_ok k e) ->
  schedule_data_rows py_int user id month w = Some rows ->
  rows ≠ []
  ∧ ∀ row : DashboardRow, row ∈ rows ->
      ∃ e : CachedSchedule,
        cached_schedules w !! (user, id, row_date row) = Some e
        ∧ row_shift row = shift_type e ∧ row_time row = time_range e
        ∧ row_shift row ∈ [u "D"; u "E"; u "N"; u "OFF"]
        ∧ row_time row = _get_time_range (row_shift row).
Proof.
  intros Hinv. unfold schedule_data_rows.
  destruct (map_to_list (schedules_query py_int user id month w)) as [|kv l] eqn:Hl; [done|].
  intros [= <-]. split; [done|]. intros row Hrow.
  apply list_elem_of_In in Hrow.
  change (In row (map (fun kv : cache_key * CachedSchedule =>
                         dashboard_row (snd (fst kv)) (snd kv)) (kv :: l))) in Hrow.
  apply in_map_iff in Hrow as ([[[u' t'] d] e] & <- & Hin). apply list_elem_of_In in Hin.
  rewrite <- Hl in Hin. apply elem_of_map_to_list in Hin.
  apply query_lookup in Hin as (Hc & Hu & Ht & _). simpl in Hu, Ht. subst u' t'.
  destruct (Hinv _ _ Hc) as (_ & Hcode & Htime).
  assert (Hs : or_else (shift_type e) (u "D") = shift_type e).
  { repeat (apply elem_of_cons in Hcode as [->|Hcode]; [done|]). by apply elem_of_nil in Hcode. }
  assert (Ht : or_else (time_range e) (u "--") = time_range e).
  { rewrite Htime.
    repeat (apply elem_of_cons in Hcode as [->|Hcode]; [done|]). by apply elem_of_nil in Hcode. }
  exists e. simpl. rewrite Hs, Ht. done.
Qed.

(** X21.  From the sheet to the screen: after a sync that stored a
    snapshot, the cache read of a month serves, for a user the snapshot
    has a stored row for, exactly the entries staged from that row whose
    day lies in the month; nothing older is left. *)
Theorem synced_month_is_served (py_int : pystr -> option Z) (id ty : pystr)
    (by_ : option pystr) (force : bool) (w : World) (def : ScheduleDefinition)
    (user month : pystr) (m : gmap date CachedSchedule) (start_date end_date : date) :
  schedule_definitions w !! id = Some def ->
  freshness_passed id force w = true ->
  sd_success (fetched id w) = true ->
  snapshot_entries id (fetched id w) w user = Some m ->
  month ≠ [] ->
  month_bounds py_int month = Some (start_date, end_date) ->
  let w' := fst (sync_schedule_data id ty by_ force w) in
  ∀ (d : date) (entry : CachedSchedule),
    schedules_query py_int user id (Some month) w' !! (user, id, d) = Some entry
    ↔ m !! d = Some entry
      ∧ date_leb start_date d = true ∧ date_leb d end_date = true.
Proof.
  intros Hdef Hg Hs Hm Hne Hb w' d entry. subst w'.
  destruct (sync_stored id ty by_ force w def Hdef Hg Hs) as (w' & -> & _ & _ & _ & Hc).
  simpl fst. rewrite query_lookup, Hc, decide_True, Hm by done.
  destruct month as [|c r]; [done|]. rewrite Hb. simpl. tauto.
Qed.

(** ** The manual sync route *)

Lemma admin_fold (current_user_id : pystr) (force : bool) (schedules : list ActiveSchedule)
    (w : World) (acc : list TaskEntry) :
  let step := fun (st : World * list TaskEntry) (schedule_def : ActiveSchedule) =>
                let '(w1, sync_result) :=
                  sync_schedule_data (fst schedule_def) (u "manual")
                                     (Some current_user_id) force (fst st) in
                (w1, snd st ++ [(fst schedule_def, snd schedule_def, sync_result)]) in
  fold_left step schedules (w, acc)
  = (fst (fold_left step schedules (w, [])), acc ++ snd (fold_left step schedules (w, []))).
Proof.
  intros step. revert w acc. induction schedules as [|s schedules IH]; intros w acc.
  - simpl. by rewrite app_nil_r.
  - simpl. unfold step at 2 4 6. simpl fst. simpl snd.
    destruct (sync_schedule_data (fst s) (u "manual") (Some current_user_id) force w)
      as [w1 r].
    rewrite (IH w1 (acc ++ _)), (IH w1 [_]). simpl. by rewrite <- app_assoc.
Qed.

Lemma forallb_filter_length {A} (f : A -> bool) (l : list A) :
  forallb f l = true ↔ length (List.filter f l) = length l.
Proof.
  induction l as [|a l IH]; [done|]. simpl.
  pose proof (filter_length_le f l) as Hle.
  destruct (f a); simpl.
  - rewrite IH. lia.
  - split; [done|lia].
Qed.

(** X22.  The manual sync of all schedules reports one result per
    schedule, in the order of the schedules, and its [success] flag says
    that every result is counted in [total_synced]. *)
Theorem admin_sync_report (schedules : list ActiveSchedule) (current_user_id : pystr)
    (force : bool) (w : World) :
  let r := snd (sync_google_sheets schedules current_user_id force w) in
  map fst (admin_schedules r) = schedules
  ∧ (admin_total_synced r <= length schedules)%nat
  ∧ (admin_success r = true ↔ admin_total_synced r = length schedules).
Proof.
  intros r. subst r. unfold sync_google_sheets.
  match goal with |- context [fold_left ?f schedules (w, [])] => set (step := f) end.
  assert (Hmap : ∀ w0, map fst (snd (fold_left step schedules (w0, []))) = schedules).
  { induction schedules as [|s schedules IH]; intros w0; [done|].
    simpl. unfold step at 2. simpl fst. simpl snd.
    destruct (sync_schedule_data (fst s) (u "manual") (Some current_user_id) force w0)
      as [w1 r1].
    rewrite (admin_fold current_user_id force schedules w1 [_]). simpl.
    fold step. rewrite IH. by destruct s. }
  specialize (Hmap w). destruct (fold_left step schedules (w, [])) as [w' results].
  simpl in *. split; [done|].
  assert (Hlen : length results = length schedules) by (by rewrite <- Hmap, length_map).
  rewrite <- Hlen. split; [apply filter_length_le|apply forallb_filter_length].
Qed.

(** X23.  Unforced, the manual sync of all schedules counts the fresh ones
    as synced: when every listed schedule has its definition and is still
    fresh, nothing is fetched or written, every result is a skipped one,
    and yet [success] is true and [total_synced] is the number of
    schedules. *)
Theorem admin_sync_counts_fresh_schedules (schedules : list ActiveSchedule)
    (current_user_id : pystr) (w : World) :
  (∀ s : ActiveSchedule, s ∈ schedules ->
     is_Some (schedule_definitions w !! fst s) ∧ should_sync (fst s) 10 w = false) ->
  let r := snd (sync_google_sheets schedules current_user_id false w) in
  fst (sync_google_sheets schedules current_user_id false w) = w
  ∧ admin_success r = true
  ∧ admin_total_synced r = length schedules
  ∧ ∀ e : TaskEntry, e ∈ admin_schedules r -> res_skipped (snd e) = true.
Proof.
  intros Hall r. subst r. unfold sync_google_sheets.
  match goal with |- context [fold_left ?f schedules (w, [])] => set (step := f) end.
  assert (Hfold : fst (fold_left step schedules (w, [])) = w
                  ∧ ∀ e : TaskEntry, e ∈ snd (fold_left step schedules (w, [])) ->
                      res_skipped (snd e) = true ∧ res_success (snd e) = true).
  { induction schedules as [|s schedules IH].
    - split; [done|]. intros e He. by apply elem_of_nil in He.
    - simpl. unfold step at 2 4. simpl fst. simpl snd.
      destruct (Hall s ltac:(left)) as [[def Hdef] Hfresh].
      rewrite (sync_skipped (fst s) (u "manual") (Some current_user_id) false w def Hdef)
        by (unfold freshness_passed; by rewrite Hfresh).
      rewrite (admin_fold current_user_id false schedules w [_]). fold step.
      destruct IH as [IH1 IH2]; [intros s' Hs'; apply Hall; by right|].
      simpl fst. simpl snd. split; [done|].
      intros e [->|He]%elem_of_cons; [done|by apply IH2]. }
  destruct Hfold as [Hw Hres].
  pose proof (Hff := forallb_filter_length
                (fun r : TaskEntry => res_success (snd r))
                (snd (fold_left step schedules (w, [])))).
  assert (Hmap : length (snd (fold_left step schedules (w, []))) = length schedules).
  { clear Hw Hres Hff Hall. generalize w.
    induction schedules as [|s schedules IH]; intros w0; [done|].
    simpl. unfold step at 2. simpl fst. simpl snd.
    destruct (sync_schedule_data (fst s) (u "manual") (Some current_user_id) false w0)
      as [w1 r1].
    rewrite (admin_fold current_user_id false schedules w1 [_]). fold step.
    simpl. by rewrite IH. }
  destruct (fold_left step schedules (w, [])) as [w' results]. simpl in *.
  assert (Hall' : forallb (fun r : TaskEntry => res_success (snd r)) results = true).
  { apply forallb_forall. intros e He. apply list_elem_of_In in He. by apply Hres. }
  split; [done|]. split; [done|]. split.
  - rewrite <- Hmap. by apply Hff.
  - intros e He. by apply Hres.
Qed.

(** ** The identifiers of the seeding script *)

Lemma split_no_sep (c : N) (s : pystr) : c ∉ s -> split c s = [s].
Proof.
  induction s as [|a s IH]; [done|]. intros Hn. apply not_elem_of_cons in Hn as [Hne Hn].
  simpl. rewrite (proj2 (N.eqb_neq a c)) by done. by rewrite IH.
Qed.

(** X24.  The seeding script drops one leading zero of the number of a
    user id: for a number [n] without a dash, the user [user-0n] is given
    the sheet identifier [En], and so is the user [user-n] when [n] does
    not start with a zero.  Two users can thus be seeded with one
    identifier. *)
Theorem seeded_identifier_drops_one_zero (n : pystr) (username username' : option pystr) :
  45 ∉ n ->
  seed_employee_id (u "user-0" ++ n) username = Some (u "E" ++ n)
  ∧ (startswith (u "0") n = false ->
     seed_employee_id (u "user-" ++ n) username' = Some (u "E" ++ n)).
Proof.
  intros Hn.
  change (u "user-0") with [117; 115; 101; 114; 45; 48].
  change (u "user-") with [117; 115; 101; 114; 45]. change (u "E") with [69].
  change (u "0") with [48].
  assert (H1 : split 45 ([117; 115; 101; 114; 45; 48] ++ n) = [[117; 115; 101; 114]; 48 :: n]).
  { change ([117; 115; 101; 114; 45; 48] ++ n) with ([117; 115; 101; 114] ++ 45 :: 48 :: n).
    rewrite split_after_digits_free; [|by vm_compute].
    rewrite (split_no_sep 45 (48 :: n)); [done|].
    apply not_elem_of_cons. split; [done|done]. }
  assert (H2 : split 45 ([117; 115; 101; 114; 45] ++ n) = [[117; 115; 101; 114]; n]).
  { change ([117; 115; 101; 114; 45] ++ n) with ([117; 115; 101; 114] ++ 45 :: n).
    rewrite split_after_digits_free; [|by vm_compute].
    by rewrite (split_no_sep 45 n). }
  split.
  - unfold seed_employee_id.
    change (startswith [117; 115; 101; 114; 45] ([117; 115; 101; 114; 45; 48] ++ n)) with true.
    cbv iota. rewrite H1. simpl List.last. 
    change (startswith [48] (48 :: n)) with true. cbv iota. simpl drop. done.
  - intros H0. unfold seed_employee_id.
    change (startswith [117; 115; 101; 114; 45] ([117; 115; 101; 114; 45] ++ n)) with true.
    cbv iota. rewrite H2. simpl List.last. change (u "0") with [48]. rewrite H0. done.
Qed.

End GoogleSheetsSyncService.

(** * The properties on sample data *)

(** C1, counterexample.  The header [staff, 2025-01-01] holds none of the
    identifier column names, and the sync does not fail: the result has
    success=true with zero rows, and the ticket is a success without an
    error message. *)
Lemma schema_drift_is_not_reported :
  let run := sync_schedule_data no_fromisoformat (always snapshot_drifted)
               sch1 (u "manual") None true (sample_world two_staff cache_U) in
  find_identifier_column [u "staff"; u "2025-01-01"] = None
  ∧ res_success (snd run) = true
  ∧ res_rows_synced (snd run) = Some 0%nat
  ∧ log_status <$> last (sync_logs (fst run)) = Some success
  ∧ log_error_message <$> last (sync_logs (fst run)) = Some None.
Proof. by vm_compute. Qed.

Lemma no_identifier_column_example :
  let run := sync_schedule_data no_fromisoformat (always snapshot_drifted)
               sch1 (u "manual") None true (sample_world two_staff cache_U) in
  snd run = success_result 0 0 (clock (fst run)) 0
  ∧ cached_schedules (fst run) = cache_U
  ∧ ∃ ticket : SyncLog,
      sync_logs (fst run) = [] ++ [ticket]
      ∧ log_status ticket = success
      ∧ log_rows_synced ticket = 0%nat
      ∧ log_users_synced ticket = 0%nat
      ∧ log_error_message ticket = None.
Proof.
  refine (no_identifier_column_syncs_nothing no_fromisoformat (always snapshot_drifted)
            sch1 (u "manual") None true (sample_world two_staff cache_U)
            {| tenantID := u "T1" |}
            {| fo_success := true;
               fo_data := [RowDict (list_to_map [(u "staff", VStr (u "E04"));
                                                 (u "2025-01-01", VStr (u "D"))])];
               fo_columns := [u "staff"; u "2025-01-01"] |} _ _ _ _ _);
    by vm_compute.
Defined.

(** C2, counterexample.  Two snapshots that differ only in the raw label of
    one cell, [B 二線人力] against [D], leave the same cache: the label is not
    kept in the stored entry and cannot be read back from it. *)
Lemma raw_label_is_not_stored :
  let run label := sync_schedule_data no_fromisoformat (always (snapshot_label label))
                     sch1 (u "manual") None true (sample_world two_staff ∅) in
  u "B 二線人力" ≠ u "D"
  ∧ cached_schedules (fst (run (u "B 二線人力"))) = cached_schedules (fst (run (u "D")))
  ∧ cached_schedules (fst (run (u "D"))) !! (u "user-004", sch1, day1)
    = Some {| shift_type := u "D"; time_range := u "08:00 - 16:00" |}
  ∧ ¬ ∃ raw_label_of : CachedSchedule -> pystr,
        ∀ label e,
          cached_schedules (fst (run label)) !! (u "user-004", sch1, day1) = Some e ->
          raw_label_of e = label.
Proof.
  intros run.
  assert (H1 : cached_schedules (fst (run (u "B 二線人力"))) !! (u "user-004", sch1, day1)
               = Some {| shift_type := u "D"; time_range := u "08:00 - 16:00" |})
    by (by vm_compute).
  assert (H2 : cached_schedules (fst (run (u "D"))) !! (u "user-004", sch1, day1)
               = Some {| shift_type := u "D"; time_range := u "08:00 - 16:00" |})
    by (by vm_compute).
  split; [by vm_compute|]. split; [compute_done|]. split; [exact H2|].
  intros [f Hf]. pose proof (Hf _ _ H1) as E1. pose proof (Hf _ _ H2) as E2.
  rewrite E1 in E2. by vm_compute in E2.
Qed.

Lemma cached_entry_example :
  ∃ (cells : gmap pystr PyVal) (col : pystr),
    RowDict cells ∈ [mk_row (u "E04") [(u "2025-01-01", u "B 二線人力")]]
    ∧ col ∈ [id_col; u "2025-01-01"]
    ∧ _parse_date no_fromisoformat col = Some day1
    ∧ u "D" = _normalize_shift_type (VStr (strip (py_str (row_get cells col (VStr [])))))
    ∧ u "D" ∈ [u "D"; u "E"; u "N"; u "OFF"]
    ∧ u "08:00 - 16:00" = _get_time_range (u "D").
Proof.
  refine (cached_entry_is_normalized no_fromisoformat
            (always (snapshot_label (u "B 二線人力")))
            sch1 (u "manual") None true (sample_world two_staff ∅) {| tenantID := u "T1" |}
            id_col [id_col; u "2025-01-01"]
            [mk_row (u "E04") [(u "2025-01-01", u "B 二線人力")]]
            (u "user-004") day1
            {| shift_type := u "D"; time_range := u "08:00 - 16:00" |} _ _ _ _ _ _);
    compute_done.
Defined.






(** C8, counterexample.  Three rows, exactly one of them unresolvable, the
    other two resolving to one user (by identifier and by name): the sync
    succeeds with users_synced=1, not 2.  And with three rows of which the
    two resolved ones hold blank cells only, the sync succeeds with
    rows_synced=0. *)
Lemma two_rows_of_one_user :
  let w := sample_world two_staff ∅ in
  let run := sync_schedule_data no_fromisoformat (always snapshot_same_user)
               sch1 (u "manual") None true w in
  let run0 := sync_schedule_data no_fromisoformat (always snapshot_blank_rows)
                sch1 (u "manual") None true w in
  map (unresolved id_col (identifier_map sch1 w)) (snapshot_rows snapshot_same_user)
  = [false; false; true]
  ∧ res_success (snd run) = true
  ∧ res_users_synced (snd run) = Some 1%nat
  ∧ res_users_synced (snd run) ≠ Some 2%nat
  ∧ map (unresolved id_col (identifier_map sch1 w)) (snapshot_rows snapshot_blank_rows)
    = [false; false; true]
  ∧ res_success (snd run0) = true
  ∧ res_users_synced (snd run0) = Some 2%nat
  ∧ res_rows_synced (snd run0) = Some 0%nat.
Proof. by vm_compute. Qed.

Lemma unresolved_row_example :
  let w := sample_world two_staff ∅ in
  let run := sync_schedule_data no_fromisoformat (always snapshot_two_users)
               sch1 (u "manual") None true w in
  res_success (snd run) = true
  ∧ res_users_synced (snd run) = Some 2%nat
  ∧ ∃ n : nat, res_rows_synced (snd run) = Some n ∧ (0 < n)%nat.
Proof.
  intros w run.
  destruct (unresolved_rows_are_skipped no_fromisoformat (always snapshot_two_users)
              sch1 (u "manual") None true w {| tenantID := u "T1" |} id_col
              [id_col; u "2025-01-01"]
              [mk_row (u "E04") [(u "2025-01-01", u "D")];
               mk_row (u "E05") [(u "2025-01-01", u "E")];
               mk_row (u "ZZZ") [(u "2025-01-01", u "N")]])
    as (Hok & _ & _ & _ & Htwo & Hpos); [compute_done .. |].
  split; [exact Hok|]. split.
  - apply Htwo; [done | by vm_compute | compute_done].
  - apply (Hpos (mk_row (u "E04") [(u "2025-01-01", u "D")]) (u "user-004")
             (list_to_map [(id_col, VStr (u "E04")); (u "2025-01-01", VStr (u "D"))])
             (u "2025-01-01")); [by left | compute_done ..].
Defined.

(** C9 on the snapshot of the full replacement: the second forced sync
    changes nothing. *)
Lemma idempotence_example :
  let w := sample_world two_staff cache_U in
  let w1 := fst (sync_schedule_data no_fromisoformat (always snapshot_U)
                   sch1 (u "manual") None true w) in
  let r1 := snd (sync_schedule_data no_fromisoformat (always snapshot_U)
                   sch1 (u "manual") None true w) in
  let w2 := fst (sync_schedule_data no_fromisoformat (always snapshot_U)
                   sch1 (u "scheduled") None true w1) in
  let r2 := snd (sync_schedule_data no_fromisoformat (always snapshot_U)
                   sch1 (u "scheduled") None true w1) in
  cached_schedules w2 = cached_schedules w1
  ∧ res_rows_synced r2 = res_rows_synced r1
  ∧ res_users_synced r2 = res_users_synced r1
  ∧ res_success r2 = res_success r1.
Proof.
  refine (forced_sync_idempotent no_fromisoformat (always snapshot_U)
            sch1 (u "manual") (u "scheduled") None None
            (sample_world two_staff cache_U) (Returned snapshot_U) _).
  done.
Defined.

(** C10 on a row with an empty cell (2025-01-02), a NULL cell (2025-01-03)
    and a missing cell (2025-01-05): none of the three days is cached. *)
Lemma blank_cells_example :
  let run := sync_schedule_data no_fromisoformat (always snapshot_blanks)
               sch1 (u "manual") None true (sample_world two_staff cache_U) in
  cached_schedules (fst run) !! (u "user-004", sch1, day2) = None
  ∧ cached_schedules (fst run) !! (u "user-004", sch1, day3) = None
  ∧ cached_schedules (fst run) !! (u "user-004", sch1, day5) = None
  ∧ _normalize_shift_type (VStr (u " null ")) = u "OFF".
Proof.
  intros run.
  destruct (blank_cells_are_not_cached no_fromisoformat (always snapshot_blanks)
              sch1 (u "manual") None true (sample_world two_staff cache_U)
              {| tenantID := u "T1" |} id_col
              [id_col; u "2025-01-01"; u "2025-01-02"; u "2025-01-03"; u "2025-01-05"]
              [mk_row (u "E04") [(u "2025-01-01", u "D"); (u "2025-01-02", u "  ");
                                 (u "2025-01-03", u " null ")]]
              (u "user-004")
              (list_to_map [(id_col, VStr (u "E04")); (u "2025-01-01", VStr (u "D"));
                            (u "2025-01-02", VStr (u "  "));
                            (u "2025-01-03", VStr (u " null "))]))
    as (_ & Habs & Hoff); [compute_done .. |].
  assert (Hcols : ∀ (d : date) (col : pystr),
             d ∈ [day2; day3; day5] ->
             col ∈ [id_col; u "2025-01-01"; u "2025-01-02"; u "2025-01-03"; u "2025-01-05"] ->
             col ≠ id_col ->
             _parse_date no_fromisoformat col = Some d ->
             blank_cell (row_get (list_to_map
                                    [(id_col, VStr (u "E04")); (u "2025-01-01", VStr (u "D"));
                                     (u "2025-01-02", VStr (u "  "));
                                     (u "2025-01-03", VStr (u " null "))])
                                 col (VStr [])) = true).
  { intros d col Hd Hcol Hne Hpd.
    repeat (apply elem_of_cons in Hcol as [->|Hcol]); [done | | | | | by apply elem_of_nil in Hcol];
      repeat (apply elem_of_cons in Hd as [->|Hd]); try (by apply elem_of_nil in Hd);
      first [ by vm_compute | by vm_compute in Hpd ]. }
  split; [|split; [|split]].
  - apply Habs. intros col. apply Hcols. by left.
  - apply Habs. intros col. apply Hcols. right; by left.
  - apply Habs. intros col. apply Hcols. do 2 right; by left.
  - apply Hoff. by vm_compute.
Defined.

(** * Further properties on sample data *)


(** X4 on a leap day. *)
Lemma isoformat_example :
  _parse_date no_fromisoformat (isoformat (2024, 2, 29)%Z) = Some (2024, 2, 29)%Z.
Proof. apply parse_date_reads_isoformat. by vm_compute. Defined.

(** X3 on a header written with slashes. *)
Lemma parsed_date_example :
  _parse_date no_fromisoformat (u "2025/01/05") = Some day5
  ∧ valid_date day5 = true ∧ u "2025/01/05" ≠ [].
Proof.
  split; [by vm_compute|].
  apply (parsed_date_exists no_fromisoformat (u "2025/01/05") day5).
  - intros t d' H. discriminate H.
  - by vm_compute.
Defined.


(** X6 on the entry of 2025-01-02, which the sync of the sample snapshot
    removes: it is an entry of the synced schedule and of a linked user the
    snapshot has a row for. *)
Lemma changed_entry_example :
  let w := sample_world two_staff cache_U in
  cached_schedules w !! (u "user-004", sch1, day2) = Some (mk_entry (u "E"))
  ∧ cached_schedules
      (fst (sync_schedule_data no_fromisoformat (always snapshot_U)
              sch1 (u "manual") None true w)) !! (u "user-004", sch1, day2) = None
  ∧ sch1 = sch1
  ∧ (∃ (idcol : pystr) (cells : gmap pystr PyVal),
       RowDict cells ∈ snapshot_rows (fetched (always snapshot_U) sch1 w)
       ∧ row_user idcol (identifier_map sch1 w) (RowDict cells) = Some (u "user-004", cells))
  ∧ ∃ m : EmployeeMapping,
      m ∈ employee_mappings w ∧ em_schedule_def_id m = sch1
      ∧ em_is_active m = true ∧ userID m = u "user-004".
Proof.
  intros w. split; [by vm_compute|]. split; [by vm_compute|].
  apply (sync_changes_only_resolved_users no_fromisoformat (always snapshot_U)
           sch1 (u "manual") None true w (u "user-004") sch1 day2).
  by vm_compute.
Defined.

(** X7 on a fetched snapshot without the sheet. *)
Lemma unusable_sheet_example :
  let run := sync_schedule_data no_fromisoformat (always snapshot_without_sheet)
               sch1 (u "manual") None true (sample_world two_staff cache_U) in
  snd run = success_result 0 0 (clock (fst run)) 0
  ∧ cached_schedules (fst run) = cache_U.
Proof.
  refine (unusable_sheet_syncs_nothing no_fromisoformat (always snapshot_without_sheet)
            sch1 (u "manual") None true (sample_world two_staff cache_U)
            {| tenantID := u "T1" |} _ _ _ _); by vm_compute.
Defined.

(** X8 on the sample snapshot: the entry written for 2025-01-05 is well
    formed. *)
Lemma well_formed_example :
  entry_ok (u "user-004", sch1, day5) (mk_entry (u "OFF")).
Proof.
  apply (sync_keeps_entries_well_formed no_fromisoformat (always snapshot_U)
           sch1 (u "manual") None true (sample_world two_staff cache_U)).
  - intros t d' H. discriminate H.
  - apply (bool_decide_unpack (map_Forall entry_ok cache_U)). by vm_compute.
  - by vm_compute.
Defined.

(** X9 on the two sample links: a row whose identifier is made of spaces
    goes to user-004, the user of the first link. *)
Lemma blank_identifier_example :
  ∃ uid : pystr,
    find_user (build_identifier_to_user two_staff) [] = Some uid
    ∧ pydict_get (build_identifier_to_user two_staff) (u "E04") = Some uid
    ∧ ∀ (idcol : pystr) (cells : gmap pystr PyVal) (s : pystr),
        cells !! idcol = Some (VStr s) -> s ≠ [] -> strip s = [] -> uid ≠ [] ->
        row_user idcol (build_identifier_to_user two_staff) (RowDict cells)
        = Some (uid, cells).
Proof.
  apply (blank_identifier_takes_first_link
           (mk_mapping (u "E04") (Some (u "Alice/E04")) (u "user-004"))
           [mk_mapping (u "E05") (Some (u "Bob/E05")) (u "user-005")]).
  by vm_compute.
Defined.

(** X11: five minutes after a sync that stored the sample snapshot, an
    unforced sync is skipped. *)
Lemma fresh_sync_example :
  let first := sync_schedule_data no_fromisoformat (always snapshot_U)
                 sch1 (u "manual") None true (sample_world two_staff cache_U) in
  let w1 := elapse 300 (fst first) in
  sync_schedule_data no_fromisoformat (always snapshot_U) sch1 (u "scheduled") None false w1
  = (w1, skipped_result (res_last_synced_at (snd first))).
Proof.
  refine (fresh_sync_is_skipped no_fromisoformat (always snapshot_U)
            sch1 (u "manual") (u "scheduled") None None true
            (sample_world two_staff cache_U) {| tenantID := u "T1" |} 300 _ _ _ _ _).
  - by vm_compute.
  - by vm_compute.
  - by vm_compute.
  - intros l t Hl. by apply elem_of_nil in Hl.
  - by vm_compute.
Defined.

(** X12: a sync against a remote that is down leaves the schedule due. *)
Lemma failed_sync_due_example :
  should_sync sch1 10
    (elapse 60 (fst (sync_schedule_data no_fromisoformat unreachable
                       sch1 (u "scheduled") None false (sample_world two_staff cache_U))))
  = true.
Proof.
  refine (failed_sync_stays_due no_fromisoformat unreachable
            sch1 (u "scheduled") None false (sample_world two_staff cache_U)
            {| tenantID := u "T1" |} 60 _ _ _ _ _); by vm_compute.
Defined.

(** X14: the periodic task on the sample world writes one ticket. *)
Lemma daily_tickets_example :
  let w := sample_world two_staff cache_U in
  let run := sync_google_sheets_daily no_fromisoformat (always snapshot_U) ward_a w in
  length (sync_logs (fst run))
  = (length (sync_logs w) + default 0%nat (task_total_schedules (snd run)))%nat.
Proof.
  refine (daily_task_tickets no_fromisoformat (always snapshot_U) ward_a
            (sample_world two_staff cache_U) _).
  intros s Hs. apply list_elem_of_singleton in Hs as ->.
  exists {| tenantID := u "T1" |}. by vm_compute.
Defined.

(** X15: one minute after a sync, the periodic task does nothing. *)
Lemma daily_fresh_example :
  sync_google_sheets_daily no_fromisoformat (always snapshot_U) ward_a fresh_world
  = (fresh_world,
     {| task_success := true; task_schedules_synced := Some 0%nat;
        task_total_schedules := Some 0%nat; task_results := Some [] |}).
Proof.
  refine (daily_task_leaves_fresh_schedules no_fromisoformat (always snapshot_U) ward_a
            fresh_world _ _).
  - done.
  - intros s Hs. apply list_elem_of_singleton in Hs as ->. by vm_compute.
Defined.

(** X16: the periodic task for SCH-1 keeps an entry of SCH-2. *)
Lemma daily_other_schedule_example :
  let w := sample_world two_staff
             {[ (u "user-004", u "SCH-2", day1) := mk_entry (u "N") ]} in
  cached_schedules
    (fst (sync_google_sheets_daily no_fromisoformat (always snapshot_U) ward_a w))
    !! (u "user-004", u "SCH-2", day1)
  = cached_schedules w !! (u "user-004", u "SCH-2", day1).
Proof.
  refine (daily_task_keeps_other_schedules no_fromisoformat (always snapshot_U) ward_a
            (sample_world two_staff {[ (u "user-004", u "SCH-2", day1) := mk_entry (u "N") ]})
            (u "user-004") (u "SCH-2") day1 _).
  compute_done.
Defined.

(** X17: the manual trigger attempts SCH-1 although it was synced one
    minute ago. *)
Lemma trigger_example :
  let run := main no_fromisoformat (always snapshot_U) ward_a fresh_world in
  length (snd run) = length ward_a
  ∧ (∀ r : SyncResult, r ∈ snd run -> res_skipped r = false)
  ∧ length (sync_logs (fst run)) = (length (sync_logs fresh_world) + length ward_a)%nat.
Proof.
  refine (trigger_sync_attempts_all no_fromisoformat (always snapshot_U) ward_a
            fresh_world _).
  intros s Hs. apply list_elem_of_singleton in Hs as ->.
  exists {| tenantID := u "T1" |}. by vm_compute.
Defined.

(** X18 on the month [2025-01]. *)
Lemma month_filter_example :
  let w := sample_world two_staff cache_U in
  month_bounds plain_int (u "2025-01") = Some ((2025, 1, 1)%Z, (2025, 1, 31)%Z)
  ∧ ∃ y m : Z,
      (1 <= y <= 9999)%Z ∧ (1 <= m <= 12)%Z
      ∧ (2025, 1, 1)%Z = (y, m, 1%Z) ∧ (2025, 1, 31)%Z = (y, m, days_in_month y m)
      ∧ ∀ (u' t' : pystr) (d : date) (entry : CachedSchedule),
          valid_date d = true ->
          (schedules_query plain_int (u "user-004") sch1 (Some (u "2025-01")) w
             !! (u', t', d) = Some entry
           ↔ cached_schedules w !! (u', t', d) = Some entry
             ∧ u' = u "user-004" ∧ t' = sch1 ∧ fst (fst d) = y ∧ snd (fst d) = m).
Proof.
  intros w. split; [by vm_compute|].
  apply (month_filter_selects_month plain_int (u "user-004") sch1 (u "2025-01") w
           (2025, 1, 1)%Z (2025, 1, 31)%Z); by vm_compute.
Defined.

(** X19 on 2025-01-05 and the spelling [2025/01]. *)
Lemma month_spelling_example :
  month_bounds plain_int (u "2025/01") = Some ((2025, 1, 1)%Z, (2025, 1, 31)%Z)
  ∧ ∀ (user id : pystr) (w : World) (entry : CachedSchedule),
      cached_schedules w !! (user, id, day5) = Some entry ->
      schedules_query plain_int user id (Some (u "2025/01")) w !! (user, id, day5)
      = Some entry.
Proof.
  refine (month_of_served_date plain_int day5 _ _ (u "2025/01") _).
  - intros s Hs _ Hd. unfold plain_int. destruct s as [|c s]; [done|]. by rewrite Hd.
  - by vm_compute.
  - compute_done.
Defined.

(** X20 on the sample cache, read for January 2025. *)
Lemma rows_example :
  let rows := default [] (schedule_data_rows plain_int (u "user-004") sch1
                            (Some (u "2025-01")) (sample_world two_staff cache_U)) in
  length rows = 3%nat
  ∧ rows ≠ []
  ∧ ∀ row : DashboardRow, row ∈ rows ->
      ∃ e : CachedSchedule,
        cache_U !! (u "user-004", sch1, row_date row) = Some e
        ∧ row_shift row = shift_type e ∧ row_time row = time_range e
        ∧ row_shift row ∈ [u "D"; u "E"; u "N"; u "OFF"]
        ∧ row_time row = _get_time_range (row_shift row).
Proof.
  intros rows. split; [by vm_compute|].
  apply (rows_show_cached_entries plain_int (u "user-004") sch1 (Some (u "2025-01"))
           (sample_world two_staff cache_U) rows).
  - apply (bool_decide_unpack (map_Forall entry_ok cache_U)). by vm_compute.
  - by vm_compute.
Defined.

(** X21: after the sync of the sample snapshot, the read of January 2025
    serves the day off of 2025-01-05 and nothing for 2025-01-02. *)
Lemma synced_month_example :
  let w' := fst (sync_schedule_data no_fromisoformat (always snapshot_U)
                   sch1 (u "manual") None true (sample_world two_staff cache_U)) in
  let m : gmap date CachedSchedule :=
    {[ day1 := mk_entry (u "D"); day5 := mk_entry (u "OFF") ]} in
  (schedules_query plain_int (u "user-004") sch1 (Some (u "2025-01")) w'
     !! (u "user-004", sch1, day5) = Some (mk_entry (u "OFF"))
   ↔ m !! day5 = Some (mk_entry (u "OFF"))
     ∧ date_leb (2025, 1, 1)%Z day5 = true ∧ date_leb day5 (2025, 1, 31)%Z = true)
  ∧ schedules_query plain_int (u "user-004") sch1 (Some (u "2025-01")) w'
      !! (u "user-004", sch1, day2) = None.
Proof.
  intros w' m. split; [|by vm_compute].
  refine (synced_month_is_served no_fromisoformat (always snapshot_U) plain_int
            sch1 (u "manual") None true (sample_world two_staff cache_U)
            {| tenantID := u "T1" |} (u "user-004") (u "2025-01") m
            (2025, 1, 1)%Z (2025, 1, 31)%Z _ _ _ _ _ _ day5 (mk_entry (u "OFF")));
    compute_done.
Defined.

(** X23: one minute after a sync, the unforced manual sync of all
    schedules reports SCH-1 as synced without syncing it. *)
Lemma admin_fresh_example :
  let run := sync_google_sheets no_fromisoformat (always snapshot_U) ward_a
               (u "admin-1") false fresh_world in
  fst run = fresh_world
  ∧ admin_success (snd run) = true
  ∧ admin_total_synced (snd run) = length ward_a
  ∧ ∀ e : pystr * pystr * SyncResult, e ∈ admin_schedules (snd run) -> res_skipped (snd e) = true.
Proof.
  refine (admin_sync_counts_fresh_schedules no_fromisoformat (always snapshot_U) ward_a
            (u "admin-1") fresh_world _).
  intros s Hs. apply list_elem_of_singleton in Hs as ->. split.
  - exists {| tenantID := u "T1" |}. by vm_compute.
  - by vm_compute.
Defined.

(** X24: the users user-04 and user-4 are both seeded as E4. *)
Lemma seeded_identifier_example :
  seed_employee_id (u "user-04") None = Some (u "E4")
  ∧ seed_employee_id (u "user-4") (Some (u "nurse")) = Some (u "E4").
Proof.
  destruct (seeded_identifier_drops_one_zero (u "4") None (Some (u "nurse"))) as [H1 H2].
  - compute_done.
  - split; [exact H1|]. exact (H2 eq_refl).
Defined.
